(** * PF-SimPy: asset pipeline simulation on a SimPy event queue

    Shallow embedding of [simpy4.py] (single-window arrivals) and [simpy6.py]
    (cohort arrivals, one window per year).  Both scripts share the generator
    [asset_trajectory] and the driver [run_simulation]; they differ only in
    the line that computes [start_time].

    - Python floats are the kernel's binary64 numbers ([PrimFloat.float]),
      so every time and every comparison is computed as CPython computes it.
      Integer literals that meet a float in an arithmetic expression are
      written as the double they convert to.
    - [random.random()] reads the process-global generator.  The generator is
      a position [rng] in the sequence [draw] of the values it would return.
    - [simpy.Environment] is the queue of [(time, priority, eid, event)]
      tuples; [heappop] returns the least tuple in Python's tuple order.
    - A generator suspended at a [yield] is the [frame] carried by the event it
      waits for (the event's only callback is the process's [_resume]). *)

From Stdlib Require Import ZArith Floats Bool Lia Sorted.
From stdpp Require Import base option list gmap strings.

(* Decimal literals denote the nearest double, as they do in Python. *)
Set Warnings "-inexact-float".

Local Open Scope Z_scope.

(** ** Data *)

Inductive outcome := SUCCESS | FAILURE.

(** One entry of [SIMULATION_DETAILS["phases"]]. *)
Record phase := Phase {
  name : string;
  duration : float;
  success_prob : float
}.

(** The value stored under [phase_results[phase["name"]]]. *)
Record phase_result := PhaseResult {
  start_time : float;
  end_time : float;
  outcome_of : outcome
}.

(** One row appended to [records]. *)
Record record := Record_ {
  replication : Z;
  asset_id : Z;
  phase_name : string;
  phase_idx : nat;
  phase_duration : float;
  phase_success_prob : float;
  phase_start_time : float;
  phase_end_time : float;
  phase_outcome : outcome;
  asset_init_time : float
}.

(** The exceptions the two scripts can meet: [phases[2]] on a short table, and
    [env.timeout] on a negative delay. *)
Inductive exn := IndexError | ValueError.

(** What a call does: return a value, raise, or (for the fuelled loop only)
    stop for lack of fuel. *)
Inductive py (A : Type) :=
| Returns (a : A)
| Raises (e : exn)
| OutOfFuel.
Arguments Returns {A} a.
Arguments Raises {A} e.
Arguments OutOfFuel {A}.

(** The local variables of [asset_trajectory] at each of its two [yield]s. *)
Inductive frame :=
| AtArrival (s : float)
    (* line 37: yield env.timeout(start_time) *)
| AtPhase (s : float) (idx : nat) (ph : phase) (rest : list phase)
          (current_time : float) (phase_results : gmap string phase_result).
    (* line 49: yield env.timeout(phase["duration"]); [rest] is what the
       enumerate iterator has left *)

(** SimPy events.  [Initialize] starts a process, [Timeout] resumes the
    generator that yielded it, [Process] is the event of a process that has
    ended (normally or with an exception); nothing waits for it here. *)
Inductive event :=
| Initialize (a : Z)
| Timeout (a : Z) (k : frame)
| Process (a : Z) (exc : option exn).

Definition URGENT : nat := 0.
Definition NORMAL : nat := 1.

Definition entry : Type := float * nat * nat * event.

Definition entry_time (e : entry) : float := e.1.1.1.
Definition entry_priority (e : entry) : nat := e.1.1.2.
Definition entry_eid (e : entry) : nat := e.1.2.
Definition entry_event (e : entry) : event := e.2.

(** Python's [<] on the queue tuples: the first component that differs under
    [==] decides.  Two entries never share an eid, so the events themselves
    are never compared. *)
Definition entry_lt (x y : entry) : bool :=
  if negb (PrimFloat.eqb (entry_time x) (entry_time y))
  then PrimFloat.ltb (entry_time x) (entry_time y)
  else if negb (entry_priority x =? entry_priority y)%nat
  then (entry_priority x <? entry_priority y)%nat
  else (entry_eid x <? entry_eid y)%nat.

(** [pop_min x q] is the least entry of [x :: q] and the other entries, in
    their order. *)
Fixpoint pop_min (x : entry) (q : list entry) : entry * list entry :=
  match q with
  | [] => (x, [])
  | y :: q' =>
      let '(m, r) := pop_min y q' in
      if entry_lt m x then (m, x :: r) else (x, y :: q')
  end.

Definition heappop (q : list entry) : option (entry * list entry) :=
  match q with
  | [] => None
  | x :: q' => Some (pop_min x q')
  end.

(** The environment together with everything else a run mutates. *)
Record state := State {
  now : float;
  queue : list entry;
  eid : nat;
  rng : nat;
  results : gmap Z (gmap string phase_result);
  records : list record
}.

(** [env.schedule(event, priority, delay)] *)
Definition schedule (st : state) (ev : event) (priority : nat) (delay : float) : state :=
  State (now st)
        (queue st ++ [((now st + delay)%float, priority, eid st, ev)])
        (S (eid st)) (rng st) (results st) (records st).

(** The generator raised [e]: [_resume] marks the process failed and
    schedules it. *)
Definition throw (st : state) (a : Z) (e : exn) : state :=
  schedule st (Process a (Some e)) NORMAL 0%float.

(** [yield env.timeout(delay)], the generator then waiting in frame [k]. *)
Definition env_timeout (st : state) (a : Z) (k : frame) (delay : float) : state :=
  if (delay <? 0)%float then throw st a ValueError
  else schedule st (Timeout a k) NORMAL delay.

(** [results[asset_id] = phase_results], then the generator returns. *)
Definition stop (st : state) (a : Z) (prs : gmap string phase_result) : state :=
  schedule (State (now st) (queue st) (eid st) (rng st)
                  (<[a := prs]> (results st)) (records st))
           (Process a None) NORMAL 0%float.

(** [random.uniform(a, b)] on the draw [u] of [random.random()]. *)
Definition uniform (a b u : float) : float := (a + (b - a) * u)%float.

Section Engine.

(** [SIMULATION_DETAILS["phases"]] *)
Variable phases : list phase.
(** The lines that compute [start_time]: an exception, or the value as a
    function of the draw they consume. *)
Variable start_time_of : Z -> exn + (float -> float).
(** The values the global generator returns, in order. *)
Variable draw : nat -> float.
Variable replication_id : Z.

(** The head of [for idx, phase in enumerate(...)] with [rest] left to
    iterate, [if not success: break], and the [yield] of line 49. *)
Definition for_loop (st : state) (a : Z) (s : float) (idx : nat)
    (rest : list phase) (current_time : float)
    (prs : gmap string phase_result) (success : bool) : state :=
  match rest with
  | [] => stop st a prs
  | ph :: rest' =>
      if success
      then env_timeout st a (AtPhase s idx ph rest' current_time prs) (duration ph)
      else stop st a prs
  end.

(** [asset_trajectory], run from the point event [ev] wakes it up to its
    next [yield] or its end.  [now st] is [env.now]. *)
Definition asset_trajectory (st : state) (ev : event) : state :=
  match ev with
  | Initialize a =>
      match start_time_of a with
      | inl e => throw st a e
      | inr f =>
          let s := f (draw (rng st)) in
          let st1 := State (now st) (queue st) (eid st) (S (rng st))
                           (results st) (records st) in
          env_timeout st1 a (AtArrival s) s
      end
  | Timeout a (AtArrival s) =>
      for_loop st a s 0 phases (now st) ∅ true
  | Timeout a (AtPhase s idx ph rest current_time prs) =>
      let success := (draw (rng st) <? success_prob ph)%float in
      let outcome := if success then SUCCESS else FAILURE in
      let prs' :=
        <[name ph := PhaseResult current_time (now st) outcome]> prs in
      let row :=
        Record_ replication_id a (name ph) idx (duration ph)
                (success_prob ph) current_time (now st) outcome s in
      let st1 := State (now st) (queue st) (eid st) (S (rng st))
                       (results st) (records st ++ [row]) in
      for_loop st1 a s (S idx) rest (now st) prs' success
  | Process _ _ => st
  end.

(** [Environment.step]: pop the next event, set the clock, run its
    callback; a failed process nobody waits for re-raises its exception.
    [None] is [EmptySchedule]. *)
Definition step (st : state) : option (py state) :=
  match heappop (queue st) with
  | None => None
  | Some ((t, _, _, ev), q) =>
      let st1 := State t q (eid st) (rng st) (results st) (records st) in
      match ev with
      | Process _ (Some e) => Some (Raises e)
      | _ => Some (Returns (asset_trajectory st1 ev))
      end
  end.

(** [Environment.run()]: step until the queue is empty. *)
Fixpoint run (fuel : nat) (st : state) : py state :=
  match fuel with
  | O => OutOfFuel
  | S fuel' =>
      match step st with
      | None => Returns st
      | Some (Returns st') => run fuel' st'
      | Some (Raises e) => Raises e
      | Some OutOfFuel => OutOfFuel
      end
  end.

(** [range(1, num_assets + 1)] *)
Definition asset_ids (num_assets : Z) : list Z := seqZ 1 num_assets.

(** [env.process(asset_trajectory(...))] for every asset id. *)
Definition spawn (st : state) (ids : list Z) : state :=
  foldl (fun st a => schedule st (Initialize a) URGENT 0%float) st ids.

(** [simpy.Environment()], with the generator at position [pos]. *)
Definition fresh (pos : nat) : state := State 0%float [] O pos ∅ [].

(** An asset is worth at most [length phases + 3] events. *)
Definition fuel_for (num_assets : Z) : nat :=
  S (Z.to_nat num_assets * (length phases + 3)).

(** [run_simulation]: the generator's new position, [results], [records]. *)
Definition run_simulation (pos : nat) (num_assets : Z)
  : py (nat * gmap Z (gmap string phase_result) * list record) :=
  match run (fuel_for num_assets) (spawn (fresh pos) (asset_ids num_assets)) with
  | Returns st => Returns (rng st, results st, records st)
  | Raises e => Raises e
  | OutOfFuel => OutOfFuel
  end.

End Engine.

(** [int] to [float], as in a mixed [int + float]; exact below [2^63]. *)
Definition float_of_int (z : Z) : float :=
  if z <? 0 then (- PrimFloat.of_uint63 (Uint63.of_Z (- z)))%float
  else PrimFloat.of_uint63 (Uint63.of_Z z).

Definition builtin_phases : list phase :=
  [ Phase "ID1" 10 0.95; Phase "ID2" 12 0.90; Phase "Ph1" 52 0.5;
    Phase "Ph2A" 52 0.6; Phase "Ph2B" 52 0.7; Phase "Ph3" 104 0.5;
    Phase "File" 26 0.9 ]%float.

(** ** simpy4.py *)
Module Simpy4.

Definition SIMULATION_DETAILS_phases : list phase := builtin_phases.

(** line 36: [random.uniform(0, SIMULATION_DETAILS["phases"][2]["duration"])] *)
Definition start_time_of (phases : list phase) (a : Z) : exn + (float -> float) :=
  match phases !! 2%nat with
  | None => inl IndexError
  | Some ph => inr (uniform 0%float (duration ph))
  end.

Definition run_simulation_on (phases : list phase) (draw : nat -> float)
    (pos : nat) (num_assets replication_id : Z) :=
  run_simulation phases (start_time_of phases) draw replication_id pos num_assets.

Definition run_simulation := run_simulation_on SIMULATION_DETAILS_phases.

End Simpy4.

(** ** simpy6.py *)
Module Simpy6.

Definition ASSETS_PER_YEAR : Z := 50.
Definition SIMULATION_DETAILS_phases : list phase := builtin_phases.

Definition year_of (a : Z) : Z := (a - 1) `div` ASSETS_PER_YEAR.

(** lines 42-44 *)
Definition start_time_of (a : Z) : exn + (float -> float) :=
  let year := year_of a in
  let year_start := year * 52 in
  inr (fun u => (float_of_int year_start + uniform 0 52 u)%float).

Definition run_simulation_on (phases : list phase) (draw : nat -> float)
    (pos : nat) (num_assets replication_id : Z) :=
  match run_simulation phases start_time_of draw replication_id pos num_assets with
  | Returns (pos', results, records) => Returns (pos', (replication_id, results, records))
  | Raises e => Raises e
  | OutOfFuel => OutOfFuel
  end.

Definition run_simulation := run_simulation_on SIMULATION_DETAILS_phases.

End Simpy6.

(** ** What the proofs speak of *)

(** Entry [e] of the queue resumes the generator of asset [a]. *)
Definition wakes (a : Z) (e : entry) : bool :=
  match entry_event e with
  | Initialize b | Timeout b _ => bool_decide (b = a)
  | Process _ _ => false
  end.

Definition pending (a : Z) (q : list entry) : list entry :=
  filter (fun e => wakes a e) q.

(** The rows of asset [a], in the order they were appended. *)
Definition rows_of (a : Z) (rs : list record) : list record :=
  filter (fun r => asset_id r = a) rs.

(** What [phase_results] keeps of a row. *)
Definition to_result (r : record) : phase_result :=
  PhaseResult (phase_start_time r) (phase_end_time r) (phase_outcome r).

(** [phase_results] after the rows [rs]: a later row overwrites an earlier one
    of the same phase name. *)
Definition dict_of (rs : list record) : gmap string phase_result :=
  foldl (fun m r => <[phase_name r := to_result r]> m) ∅ rs.

(** The queue holds the event of a process of asset [a] that raised. *)
Definition failed_in (a : Z) (q : list entry) : Prop :=
  exists t p e x, (t, p, e, Process a (Some x)) ∈ q.

Section Bookkeeping.

Variable phases : list phase.
Variable start_time_of : Z -> exn + (float -> float).
Variable draw : nat -> float.
Variable replication_id : Z.
Variable num_assets : Z.

(** What a queue entry can still cost in steps; a step uses some of it up. *)
Definition weight (ev : event) : nat :=
  match ev with
  | Initialize _ => length phases + 3
  | Timeout _ (AtArrival _) => length phases + 2
  | Timeout _ (AtPhase _ _ _ rest _ _) => length rest + 2
  | Process _ _ => 1
  end.

Definition potential (q : list entry) : nat :=
  sum_list_with (fun e => weight (entry_event e)) q.

(** The clock after the first [k] phases of an asset that arrived at [t0]. *)
Definition clock (t0 : float) (k : nat) : float :=
  foldl (fun t ph => (t + duration ph)%float) t0 (take k phases).

(** The row of phase [k] for an asset whose [start_time] is [s]; it arrives
    when the clock shows [0 + s]. *)
Definition row_at (a : Z) (s : float) (k : nat) (ph : phase) (o : outcome) : record :=
  Record_ replication_id a (name ph) k (duration ph) (success_prob ph)
          (clock (0 + s) k) (clock (0 + s) k + duration ph) o s.

(** The rows of one asset: row [k] is the row of phase [k], and nothing
    follows a failure. *)
Definition rows_ok (a : Z) (s : float) (rs : list record) : Prop :=
  forall k r, rs !! k = Some r ->
    exists ph o, phases !! k = Some ph /\ r = row_at a s k ph o /\
                 (o = FAILURE -> length rs = S k).

(** [s] was computed by the [start_time] lines from one of the draws. *)
Definition drawn (a : Z) (s : float) : Prop :=
  exists f k, start_time_of a = inr f /\ s = f (draw k).

(** The rows of an asset whose generator has returned. *)
Definition terminal (rs : list record) : Prop :=
  length rs = length phases \/
  exists r, last rs = Some r /\ phase_outcome r = FAILURE.

Definition in_range (a : Z) : Prop := 1 <= a <= num_assets.

(** Nothing can raise: every asset has a [start_time], no [start_time] is
    below zero, and no phase has a duration below zero. *)
Definition safe : Prop :=
  (forall a, in_range a ->
     exists f, start_time_of a = inr f /\
               forall k, (f (draw k) <? 0)%float = false) /\
  Forall (fun ph => (duration ph <? 0)%float = false) phases.

(** Where asset [a] stands, read off the queue entries [P] that wake it up,
    its rows [R], its entry [o] of [results], and whether its failed process
    is in the queue ([F]). *)
Inductive asset_ok (a : Z) (P : list entry) (R : list record)
    (o : option (gmap string phase_result)) (F : Prop) : Prop :=
| Absent :
    ~ in_range a -> P = [] -> R = [] -> o = None -> ~ F -> asset_ok a P R o F
| Created p e :
    in_range a -> P = [(0%float, p, e, Initialize a)] -> R = [] -> o = None ->
    ~ F -> asset_ok a P R o F
| Arriving s p e :
    in_range a -> P = [((0 + s)%float, p, e, Timeout a (AtArrival s))] ->
    R = [] -> o = None -> drawn a s -> ~ F -> asset_ok a P R o F
| Working s idx ph rest cur prs p e :
    in_range a ->
    P = [((cur + duration ph)%float, p, e, Timeout a (AtPhase s idx ph rest cur prs))] ->
    rows_ok a s R -> idx = length R -> cur = clock (0 + s) idx ->
    drop idx phases = ph :: rest ->
    Forall (fun r => phase_outcome r = SUCCESS) R ->
    prs = dict_of R -> o = None -> drawn a s -> ~ F -> asset_ok a P R o F
| Finished s :
    in_range a -> P = [] -> rows_ok a s R -> terminal R ->
    o = Some (dict_of R) -> drawn a s -> ~ F -> asset_ok a P R o F
| Crashed :
    in_range a -> P = [] -> o = None -> F -> ~ safe -> asset_ok a P R o F.

Definition ok_in (st : state) (a : Z) : Prop :=
  asset_ok a (pending a (queue st)) (rows_of a (records st))
             (results st !! a) (failed_in a (queue st)).

Definition Inv (st : state) : Prop := forall a, ok_in st a.

(** [st'] is [st] as far as asset [a] can tell. *)
Definition same_for (a : Z) (st st' : state) : Prop :=
  pending a (queue st') = pending a (queue st) /\
  rows_of a (records st') = rows_of a (records st) /\
  results st' !! a = results st !! a /\
  (failed_in a (queue st') <-> failed_in a (queue st)).

End Bookkeeping.

(** The queue of a run in which no generator gets past its first line. *)
Definition only_raises (x0 : exn) (e : entry) : Prop :=
  match entry_event e with
  | Initialize _ | Process _ None => True
  | Process _ (Some x) => x = x0
  | Timeout _ _ => False
  end.

(** The sign bit is clear (or the value is a NaN). *)
Definition sign_clear (x : spec_float) : bool :=
  match x with
  | S754_zero s | S754_infinity s | S754_finite s _ _ => negb s
  | S754_nan => true
  end.

(** As [sign_clear], or a zero of either sign. *)
Definition not_below_zero (x : spec_float) : bool :=
  match x with
  | S754_zero _ | S754_nan => true
  | S754_infinity s | S754_finite s _ _ => negb s
  end.

(** The value of a positive finite double, scaled by [2^1200] so that it is
    an integer for every exponent met here. *)
Definition scaled (m : positive) (e : Z) : Z := Z.pos m * 2 ^ (e + 1200).

(** The start-time rules of the two scripts. *)
Definition script_rule (phases : list phase) (f : Z -> exn + (float -> float)) : Prop :=
  f = Simpy4.start_time_of phases \/ f = Simpy6.start_time_of.

(** The conditions section 4.1 of the specification asks of a phase table:
    at least one phase, every duration above zero, every probability between
    0 and 1, no empty name, no name twice.  Neither script checks them. *)
Definition spec_valid_table (phases : list phase) : bool :=
  negb (bool_decide (phases = []))
  && forallb (fun ph => (0 <? duration ph)%float) phases
  && forallb (fun ph => (0 <=? success_prob ph)%float
                        && (success_prob ph <=? 1)%float) phases
  && forallb (fun ph => negb (bool_decide (name ph = ""))) phases
  && bool_decide (NoDup (name <$> phases)).

(** A table that breaks every one of the conditions but the first. *)
Definition unchecked_table : list phase :=
  [Phase "" 0 1.5; Phase "" 0 1.5; Phase "" 0 1.5]%float.

(** The largest value [random.random()] can return, [1 - 2^-53]. *)
Definition largest_draw : float := 0x1.fffffffffffffp-1%float.

(** ** Two small runs *)

(** Eleven draws, then [0.97] for ever. *)
Definition demo_draw (k : nat) : float :=
  nth k [0.25; 0.5; 0.1; 0.99; 0.3; 0.2; 0.4; 0.45; 0.1; 0.2; 0.3]%float 0.97%float.

(** Five draws of [0.75], then the draws of [demo_draw] from its first on:
    the generator seeded again, after five draws, with the seed that gave
    [demo_draw]. *)
Definition reseeded_draw (k : nat) : float :=
  if (k <? 5)%nat then 0.75%float else demo_draw (k - 5).

(** simpy4 with two assets, replication 7: asset 1 fails its second phase,
    asset 2 passes all seven. *)
Definition demo_run := Simpy4.run_simulation demo_draw 0 2 7.

Definition demo_pos : nat :=
  Eval vm_compute in match demo_run with Returns (p, _, _) => p | _ => O end.

Definition demo_res : gmap Z (gmap string phase_result) :=
  Eval vm_compute in match demo_run with Returns (_, res, _) => res | _ => ∅ end.

Definition demo_recs : list record :=
  Eval vm_compute in match demo_run with Returns (_, _, recs) => recs | _ => [] end.

(** Row [k] of asset [a] in the simpy4 run. *)
Definition demo_row (a : Z) (k : nat) : record :=
  default (Record_ 0 0 "" 0 0 0 0 0 SUCCESS 0) (rows_of a demo_recs !! k).

(** simpy6 with two assets, replication 7. *)
Definition cohort_run := Simpy6.run_simulation demo_draw 0 2 7.

Definition cohort_pos : nat :=
  Eval vm_compute in match cohort_run with Returns (p, _) => p | _ => O end.

Definition cohort_res : gmap Z (gmap string phase_result) :=
  Eval vm_compute in
    match cohort_run with Returns (_, (_, res, _)) => res | _ => ∅ end.

Definition cohort_recs : list record :=
  Eval vm_compute in
    match cohort_run with Returns (_, (_, _, recs)) => recs | _ => [] end.

(** ** The draws a run reads *)

Definition is_Initialize (ev : event) : bool :=
  match ev with
  | Initialize _ => true
  | _ => false
  end.

(** The processes of the queue that have not started. *)
Definition inits (q : list entry) : nat :=
  length (filter (fun e => is_Initialize (entry_event e)) q).

(** [random.random() < p] decides an outcome (lines 50-51). *)
Definition outcome_from (u p : float) : outcome :=
  if (u <? p)%float then SUCCESS else FAILURE.

(** The draws at the positions [js] decide the outcomes of the rows [rs], one
    draw for each row. *)
Definition decided_by (draw : nat -> float) (rs : list record) (js : list nat) : Prop :=
  Forall2 (fun r j => phase_outcome r = outcome_from (draw j) (phase_success_prob r))
          rs js.

(** Every exception waiting in the queue is one of [xs]. *)
Definition raises_only (xs : exn -> Prop) (q : list entry) : Prop :=
  forall t p e a x, (t, p, e, Process a (Some x)) ∈ q -> xs x.

(** The positions [js] of the draws that decided the rows written so far:
    one for each row, increasing, all of them read by this run (which began
    at position [pos]). *)
Definition outcomes_ok (draw : nat -> float) (pos : nat) (st : state)
    (js : list nat) : Prop :=
  decided_by draw (records st) js /\ StronglySorted lt js /\
  Forall (fun j => (pos <= j < rng st)%nat) js.

(** What a process can raise: [ValueError], and whatever the [start_time]
    lines raise. *)
Definition may_raise (start_time_of : Z -> exn + (float -> float)) (x : exn) : Prop :=
  x = ValueError \/ exists a, start_time_of a = inl x.

(** No generator is past its first [yield]: nothing waits for the end of a
    phase. *)
Definition before_phases (q : list entry) : Prop :=
  forall t p e a s idx ph rest cur prs,
    (t, p, e, Timeout a (AtPhase s idx ph rest cur prs)) ∉ q.

(** The first eleven draws of [demo_draw], then zeros. *)
Definition demo_draw_then_zero (k : nat) : float :=
  nth k [0.25; 0.5; 0.1; 0.99; 0.3; 0.2; 0.4; 0.45; 0.1; 0.2; 0.3]%float 0%float.

(** Every draw passes every phase of the table of the scripts. *)
Definition low_draw (k : nat) : float := 0.25%float.

(** No draw passes the first phase of the table of the scripts. *)
Definition high_draw (k : nat) : float := 0.96%float.

(** A table whose first phase has a duration below zero. *)
Definition backwards_table : list phase :=
  [Phase "ID1" (-10) 0.95; Phase "ID2" 12 0.90; Phase "Ph1" 52 0.5]%float.

(** ** The script of simpy4.py (lines 85-97)

    The replications run one after the other in one process, so each starts
    with the generator where the one before left it.  [VERBOSE] is [False]:
    nothing is printed inside the loop.  The wall-clock timing and the data
    frame built from [all_records] afterwards are no part of this. *)
Module Simpy4_main.

Definition NUM_REPLICATIONS : Z := 1000.

(** [SIMULATION_DETAILS["num_assets"]] *)
Definition SIMULATION_DETAILS_num_assets : Z := 1000.

(** lines 92-97, one turn of the loop for each [rep] of [reps]:
    [all_results.append({"replication": rep, "results": results})] and
    [all_records.extend(records)]. *)
Fixpoint replications (phases : list phase) (draw : nat -> float) (num_assets : Z)
    (reps : list Z) (pos : nat)
    (all_results : list (Z * gmap Z (gmap string phase_result)))
    (all_records : list record)
  : py (nat * list (Z * gmap Z (gmap string phase_result)) * list record) :=
  match reps with
  | [] => Returns (pos, all_results, all_records)
  | rep :: reps' =>
      match Simpy4.run_simulation_on phases draw pos num_assets rep with
      | Returns (pos', results, records) =>
          replications phases draw num_assets reps' pos'
                       (all_results ++ [(rep, results)]) (all_records ++ records)
      | Raises e => Raises e
      | OutOfFuel => OutOfFuel
      end
  end.

(** [range(1, NUM_REPLICATIONS + 1)] *)
Definition main_on (phases : list phase) (draw : nat -> float) (pos : nat)
    (num_replications num_assets : Z) :=
  replications phases draw num_assets (seqZ 1 num_replications) pos [] [].

Definition main (draw : nat -> float) (pos : nat) :=
  main_on Simpy4.SIMULATION_DETAILS_phases draw pos
          NUM_REPLICATIONS SIMULATION_DETAILS_num_assets.

End Simpy4_main.

(** The calls of [run_simulation] behind a run of the script: replication
    [rep] of [reps] started with the generator where the one before had left
    it, and returned the matching element of [runs]. *)
Fixpoint chained (phases : list phase) (draw : nat -> float) (num_assets : Z)
    (pos : nat) (reps : list Z)
    (runs : list (nat * gmap Z (gmap string phase_result) * list record))
    (pos' : nat) : Prop :=
  match reps, runs with
  | [], [] => pos' = pos
  | rep :: reps', (p, res, recs) :: runs' =>
      Simpy4.run_simulation_on phases draw pos num_assets rep = Returns (p, res, recs)
      /\ chained phases draw num_assets p reps' runs' pos'
  | _, _ => False
  end.

(** What identifies a row of the merged table. *)
Definition row_key (r : record) : Z * Z * nat :=
  (replication r, asset_id r, phase_idx r).

(** ** The order of the clock *)

(** A double that is neither below zero nor a NaN: a zero, a positive finite
    double or [+inf]. *)
Definition SFnonneg (x : spec_float) : bool :=
  match x with
  | S754_zero _ | S754_finite false _ _ | S754_infinity false => true
  | _ => false
  end.

(** Where such a double stands among the others: the zeros, then the
    positive finite doubles by value, then [+inf]. *)
Definition SFrank (x : spec_float) : Z :=
  match x with
  | S754_zero _ => 0
  | S754_finite false m e => scaled m e
  | S754_infinity false => 2 ^ 2300
  | _ => -1
  end.

Definition rank (x : float) : Z := SFrank (Prim2SF x).

(** Rows in the order of their [phase_end_time]. *)
Definition chronological (rs : list record) : Prop :=
  StronglySorted (fun r1 r2 => (phase_end_time r1 <=? phase_end_time r2)%float = true) rs.

(** What the queue holds of an event: an asset id of the range
    [range(1, num_assets + 1)], and durations not below zero for the phases
    a generator still has before it. *)
Definition event_ok (ev : event) : Prop :=
  match ev with
  | Initialize a => 1 <= a
  | Timeout _ (AtPhase _ _ _ rest _ _) =>
      Forall (fun ph => (0 <=? duration ph)%float = true) rest
  | _ => True
  end.

(** The clock never runs backwards: nothing in the queue is due before
    [now], and no row ended after it. *)
Definition on_time (st : state) : Prop :=
  (0 <=? now st)%float = true /\
  Forall (fun z => (0 <=? entry_time z)%float = true /\
                   rank (now st) <= rank (entry_time z) /\
                   event_ok (entry_event z)) (queue st) /\
  Forall (fun r => (0 <=? phase_end_time r)%float = true /\
                   rank (phase_end_time r) <= rank (now st)) (records st) /\
  chronological (records st).

(** ** simpy2.py

    The script simpy4.py grew out of: the same generator without the record
    table, printing as it goes, and a summary of [results] at the end.  What
    [print] writes is kept as the values its f-string formats, one [line] for
    each call.  [results] is kept in insertion order, the order in which
    [results.items()] yields it. *)
Module Simpy2.

Definition NUM_ASSETS : Z := 10.
Definition PHASES : list phase := builtin_phases.

Inductive line :=
| Initialized (a : Z) (t : float)
    (* line 29 *)
| Enters (a : Z) (nm : string) (t : float)
    (* line 37 *)
| Completed (a : Z) (nm : string) (t : float) (o : outcome)
    (* line 41 *)
| Simulation_Results
    (* line 62 *)
| Asset (a : Z)
    (* line 64 *)
| Started (nm : string) (p : phase_result).
    (* line 69 *)

(** [d[k] = v] on a dict in insertion order: a key that is there keeps its
    place. *)
Fixpoint dict_set {V : Type} (d : list (Z * V)) (k : Z) (v : V) : list (Z * V) :=
  match d with
  | [] => [(k, v)]
  | (k', v') :: d' =>
      if decide (k' = k) then (k, v) :: d' else (k', v') :: dict_set d' k v
  end.

Record state := State {
  now : float;
  queue : list entry;
  eid : nat;
  rng : nat;
  results : list (Z * gmap string phase_result);
  stdout : list line
}.

Definition print (st : state) (l : line) : state :=
  State (now st) (queue st) (eid st) (rng st) (results st) (stdout st ++ [l]).

Definition schedule (st : state) (ev : event) (priority : nat) (delay : float) : state :=
  State (now st)
        (queue st ++ [((now st + delay)%float, priority, eid st, ev)])
        (S (eid st)) (rng st) (results st) (stdout st).

Definition throw (st : state) (a : Z) (e : exn) : state :=
  schedule st (Process a (Some e)) NORMAL 0%float.

Definition env_timeout (st : state) (a : Z) (k : frame) (delay : float) : state :=
  if (delay <? 0)%float then throw st a ValueError
  else schedule st (Timeout a k) NORMAL delay.

(** line 50: [results[asset_id] = phase_results], then the generator
    returns. *)
Definition stop (st : state) (a : Z) (prs : gmap string phase_result) : state :=
  schedule (State (now st) (queue st) (eid st) (rng st)
                  (dict_set (results st) a prs) (stdout st))
           (Process a None) NORMAL 0%float.

Section Engine.

Variable phases : list phase.
Variable draw : nat -> float.

(** lines 34-38: the head of the loop, [if not success: break], the [print]
    and the [yield]. *)
Definition for_loop (st : state) (a : Z) (s : float) (idx : nat)
    (rest : list phase) (current_time : float)
    (prs : gmap string phase_result) (success : bool) : state :=
  match rest with
  | [] => stop st a prs
  | ph :: rest' =>
      if success
      then env_timeout (print st (Enters a (name ph) (now st))) a
                       (AtPhase s idx ph rest' current_time prs) (duration ph)
      else stop st a prs
  end.

(** lines 25-50 *)
Definition asset_trajectory (st : state) (ev : event) : state :=
  match ev with
  | Initialize a =>
      match phases !! 2%nat with
      | None => throw st a IndexError
      | Some ph2 =>
          let s := uniform 0%float (duration ph2) (draw (rng st)) in
          let st1 := State (now st) (queue st) (eid st) (S (rng st))
                           (results st) (stdout st) in
          env_timeout st1 a (AtArrival s) s
      end
  | Timeout a (AtArrival s) =>
      for_loop (print st (Initialized a (now st))) a s 0 phases (now st) ∅ true
  | Timeout a (AtPhase s idx ph rest current_time prs) =>
      let success := (draw (rng st) <? success_prob ph)%float in
      let outcome := if success then SUCCESS else FAILURE in
      let st1 := State (now st) (queue st) (eid st) (S (rng st))
                       (results st) (stdout st) in
      let st2 := print st1 (Completed a (name ph) (now st) outcome) in
      let prs' :=
        <[name ph := PhaseResult current_time (now st) outcome]> prs in
      for_loop st2 a s (S idx) rest (now st) prs' success
  | Process _ _ => st
  end.

Definition step (st : state) : option (py state) :=
  match heappop (queue st) with
  | None => None
  | Some ((t, _, _, ev), q) =>
      let st1 := State t q (eid st) (rng st) (results st) (stdout st) in
      match ev with
      | Process _ (Some e) => Some (Raises e)
      | _ => Some (Returns (asset_trajectory st1 ev))
      end
  end.

Fixpoint run (fuel : nat) (st : state) : py state :=
  match fuel with
  | O => OutOfFuel
  | S fuel' =>
      match step st with
      | None => Returns st
      | Some (Returns st') => run fuel' st'
      | Some (Raises e) => Raises e
      | Some OutOfFuel => OutOfFuel
      end
  end.

Definition spawn (st : state) (ids : list Z) : state :=
  foldl (fun st a => schedule st (Initialize a) URGENT 0%float) st ids.

Definition fresh (pos : nat) : state := State 0%float [] O pos [] [].

(** lines 52-58: the generator's new position, what was printed, and
    [results]. *)
Definition run_simulation_on (pos : nat) (num_assets : Z)
  : py (nat * list line * list (Z * gmap string phase_result)) :=
  match run (fuel_for phases num_assets) (spawn (fresh pos) (asset_ids num_assets)) with
  | Returns st => Returns (rng st, stdout st, results st)
  | Raises e => Raises e
  | OutOfFuel => OutOfFuel
  end.

(** lines 65-71: the phases of [info] in the order of the table, up to the
    first that is missing. *)
Fixpoint summary_of (rest : list phase) (info : gmap string phase_result) : list line :=
  match rest with
  | [] => []
  | ph :: rest' =>
      match info !! name ph with
      | Some p => Started (name ph) p :: summary_of rest' info
      | None => []
      end
  end.

(** lines 60-71 *)
Definition main_on (pos : nat) (num_assets : Z) : py (nat * list line) :=
  match run_simulation_on pos num_assets with
  | Returns (pos', out, results) =>
      Returns (pos',
               out ++ [Simulation_Results]
                   ++ flat_map (fun '(a, info) => Asset a :: summary_of phases info)
                               results)
  | Raises e => Raises e
  | OutOfFuel => OutOfFuel
  end.

End Engine.

Definition run_simulation := run_simulation_on PHASES.
Definition main (draw : nat -> float) (pos : nat) := main_on PHASES draw pos NUM_ASSETS.

End Simpy2.

(** The line simpy2 prints where simpy4 appends the row [r]. *)
Definition completed_line (r : record) : Simpy2.line :=
  Simpy2.Completed (asset_id r) (phase_name r) (phase_end_time r) (phase_outcome r).

Definition is_Completed (l : Simpy2.line) : bool :=
  match l with
  | Simpy2.Completed _ _ _ _ => true
  | _ => false
  end.

(** A state of simpy2 and a state of simpy4 that differ only in how they
    keep what they have in common: [results], and the rows of simpy4 that
    simpy2 prints. *)
Definition same_run (s2 : Simpy2.state) (s4 : state) : Prop :=
  Simpy2.now s2 = now s4 /\ Simpy2.queue s2 = queue s4 /\
  Simpy2.eid s2 = eid s4 /\ Simpy2.rng s2 = rng s4 /\
  list_to_map (Simpy2.results s2) = results s4 /\
  filter (fun l => is_Completed l) (Simpy2.stdout s2)
  = completed_line <$> records s4 /\
  NoDup (Simpy2.results s2).*1.

(** The line of the summary for the row [r]. *)
Definition started_line (r : record) : Simpy2.line :=
  Simpy2.Started (phase_name r) (to_result r).

(** ** More small runs *)

(** simpy4 with two assets and draws that pass every phase. *)
Definition sure_run := Simpy4.run_simulation low_draw 0 2 7.

Definition sure_pos : nat :=
  Eval vm_compute in match sure_run with Returns (p, _, _) => p | _ => O end.

Definition sure_res : gmap Z (gmap string phase_result) :=
  Eval vm_compute in match sure_run with Returns (_, res, _) => res | _ => ∅ end.

Definition sure_recs : list record :=
  Eval vm_compute in match sure_run with Returns (_, _, recs) => recs | _ => [] end.

(** simpy4 with two assets and draws that fail the first phase. *)
Definition hopeless_run := Simpy4.run_simulation high_draw 0 2 7.

Definition hopeless_pos : nat :=
  Eval vm_compute in match hopeless_run with Returns (p, _, _) => p | _ => O end.

Definition hopeless_res : gmap Z (gmap string phase_result) :=
  Eval vm_compute in match hopeless_run with Returns (_, res, _) => res | _ => ∅ end.

Definition hopeless_recs : list record :=
  Eval vm_compute in match hopeless_run with Returns (_, _, recs) => recs | _ => [] end.

(** The script of simpy4 with two replications of two assets. *)
Definition script_run := Simpy4_main.main_on builtin_phases demo_draw 0 2 2.

Definition script_pos : nat :=
  Eval vm_compute in match script_run with Returns (p, _, _) => p | _ => O end.

Definition script_results : list (Z * gmap Z (gmap string phase_result)) :=
  Eval vm_compute in match script_run with Returns (_, res, _) => res | _ => [] end.

Definition script_records : list record :=
  Eval vm_compute in match script_run with Returns (_, _, recs) => recs | _ => [] end.

(** simpy2 with two assets. *)
Definition printed_run := Simpy2.run_simulation demo_draw 0 2.

Definition printed_pos : nat :=
  Eval vm_compute in match printed_run with Returns (p, _, _) => p | _ => O end.

Definition printed_out : list Simpy2.line :=
  Eval vm_compute in match printed_run with Returns (_, out, _) => out | _ => [] end.

Definition printed_results : list (Z * gmap string phase_result) :=
  Eval vm_compute in match printed_run with Returns (_, _, res) => res | _ => [] end.

(** ** The replication id is a label *)

(** The row [r] under another replication id. *)
Definition relabel (rep : Z) (r : record) : record :=
  Record_ rep (asset_id r) (phase_name r) (phase_idx r) (phase_duration r)
          (phase_success_prob r) (phase_start_time r) (phase_end_time r)
          (phase_outcome r) (asset_init_time r).

(** The state [st] with the rows in its table relabelled. *)
Definition relabel_state (rep : Z) (st : state) : state :=
  State (now st) (queue st) (eid st) (rng st) (results st)
        (relabel rep <$> records st).

(** ** The state of the generator

    The scripts never call [random.seed]: the seed of a run is the state the
    caller leaves the generator in, that is the draws it returns from the
    position it stands at. *)

(** The state [st] with the generator at position [p]. *)
Definition with_rng (p : nat) (st : state) : state :=
  State (now st) (queue st) (eid st) p (results st) (records st).

(** Two states of two runs that began with the generator at [pos1] and at
    [pos2]: they differ in the position of the generator only, and each
    generator is as far from where its run began. *)
Definition reseeded (pos1 pos2 : nat) (st1 st2 : state) : Prop :=
  exists d, rng st1 = (pos1 + d)%nat /\ st2 = with_rng (pos2 + d) st1.

(** ** simpy1.py

    The first script: every asset goes through the one phase [PHASE].  The
    generator keeps nothing but [start_time] across its two [yield]s, so the
    events of its queue are its own. *)
Module Simpy1.

Definition NUM_ASSETS : Z := 10.
Definition PHASE : string := "ph1".
Definition PHASE_DURATION : float := 52.
Definition SUCCESS_PROB : float := 0.5.

(** The local variables of [asset_process] at its two [yield]s. *)
Inductive frame :=
| AtArrival (s : float)
    (* line 19 *)
| AtPhase (s : float).
    (* line 22 *)

Inductive event :=
| Initialize (a : Z)
| Timeout (a : Z) (k : frame)
| Process (a : Z) (exc : option exn).

Definition entry : Type := float * nat * nat * event.

Definition entry_time (e : entry) : float := e.1.1.1.
Definition entry_priority (e : entry) : nat := e.1.1.2.
Definition entry_eid (e : entry) : nat := e.1.2.
Definition entry_event (e : entry) : event := e.2.

Definition entry_lt (x y : entry) : bool :=
  if negb (PrimFloat.eqb (entry_time x) (entry_time y))
  then PrimFloat.ltb (entry_time x) (entry_time y)
  else if negb (entry_priority x =? entry_priority y)%nat
  then (entry_priority x <? entry_priority y)%nat
  else (entry_eid x <? entry_eid y)%nat.

Fixpoint pop_min (x : entry) (q : list entry) : entry * list entry :=
  match q with
  | [] => (x, [])
  | y :: q' =>
      let '(m, r) := pop_min y q' in
      if entry_lt m x then (m, x :: r) else (x, y :: q')
  end.

Definition heappop (q : list entry) : option (entry * list entry) :=
  match q with
  | [] => None
  | x :: q' => Some (pop_min x q')
  end.

(** What [print] writes, as the values the f-string formats. *)
Inductive line :=
| Initialized (a : Z) (t : float)
    (* line 20 *)
| Enters (a : Z) (nm : string) (t : float)
    (* line 21 *)
| Completed (a : Z) (nm : string) (t : float) (o : outcome)
    (* line 26 *)
| Simulation_Results
    (* line 44 *)
| Asset (a : Z) (info : phase_result).
    (* line 46 *)

Record state := State {
  now : float;
  queue : list entry;
  eid : nat;
  rng : nat;
  results : list (Z * phase_result);
  stdout : list line
}.

Definition print (st : state) (l : line) : state :=
  State (now st) (queue st) (eid st) (rng st) (results st) (stdout st ++ [l]).

Definition schedule (st : state) (ev : event) (priority : nat) (delay : float) : state :=
  State (now st)
        (queue st ++ [((now st + delay)%float, priority, eid st, ev)])
        (S (eid st)) (rng st) (results st) (stdout st).

Definition throw (st : state) (a : Z) (e : exn) : state :=
  schedule st (Process a (Some e)) NORMAL 0%float.

Definition env_timeout (st : state) (a : Z) (k : frame) (delay : float) : state :=
  if (delay <? 0)%float then throw st a ValueError
  else schedule st (Timeout a k) NORMAL delay.

Section Engine.

Variable draw : nat -> float.

(** lines 16-31 *)
Definition asset_process (st : state) (ev : event) : state :=
  match ev with
  | Initialize a =>
      let s := uniform 0%float PHASE_DURATION (draw (rng st)) in
      let st1 := State (now st) (queue st) (eid st) (S (rng st))
                       (results st) (stdout st) in
      env_timeout st1 a (AtArrival s) s
  | Timeout a (AtArrival s) =>
      let st1 := print st (Initialized a (now st)) in
      let st2 := print st1 (Enters a PHASE (now st)) in
      env_timeout st2 a (AtPhase s) PHASE_DURATION
  | Timeout a (AtPhase s) =>
      let success := (draw (rng st) <? SUCCESS_PROB)%float in
      let outcome := if success then SUCCESS else FAILURE in
      let st1 := State (now st) (queue st) (eid st) (S (rng st))
                       (results st) (stdout st) in
      let st2 := print st1 (Completed a PHASE (now st) outcome) in
      let st3 := State (now st2) (queue st2) (eid st2) (rng st2)
                       (Simpy2.dict_set (results st2) a
                                        (PhaseResult s (now st) outcome))
                       (stdout st2) in
      schedule st3 (Process a None) NORMAL 0%float
  | Process _ _ => st
  end.

Definition step (st : state) : option (py state) :=
  match heappop (queue st) with
  | None => None
  | Some ((t, _, _, ev), q) =>
      let st1 := State t q (eid st) (rng st) (results st) (stdout st) in
      match ev with
      | Process _ (Some e) => Some (Raises e)
      | _ => Some (Returns (asset_process st1 ev))
      end
  end.

Fixpoint run (fuel : nat) (st : state) : py state :=
  match fuel with
  | O => OutOfFuel
  | S fuel' =>
      match step st with
      | None => Returns st
      | Some (Returns st') => run fuel' st'
      | Some (Raises e) => Raises e
      | Some OutOfFuel => OutOfFuel
      end
  end.

Definition spawn (st : state) (ids : list Z) : state :=
  foldl (fun st a => schedule st (Initialize a) URGENT 0%float) st ids.

Definition fresh (pos : nat) : state := State 0%float [] O pos [] [].

(** An asset is worth four events. *)
Definition fuel_for (num_assets : Z) : nat := S (Z.to_nat num_assets * 4).

(** lines 34-40: the generator's new position, what was printed, and
    [results]. *)
Definition run_simulation (pos : nat) (num_assets : Z)
  : py (nat * list line * list (Z * phase_result)) :=
  match run (fuel_for num_assets) (spawn (fresh pos) (asset_ids num_assets)) with
  | Returns st => Returns (rng st, stdout st, results st)
  | Raises e => Raises e
  | OutOfFuel => OutOfFuel
  end.

(** lines 42-46 *)
Definition main (pos : nat) : py (nat * list line) :=
  match run_simulation pos NUM_ASSETS with
  | Returns (pos', out, results) =>
      Returns (pos',
               out ++ [Simulation_Results]
                   ++ ((fun '(a, info) => Asset a info) <$> results))
  | Raises e => Raises e
  | OutOfFuel => OutOfFuel
  end.

End Engine.

End Simpy1.

(** The pipeline of simpy1, as a table for simpy4's generator. *)
Definition one_phase : list phase :=
  [Phase Simpy1.PHASE Simpy1.PHASE_DURATION Simpy1.SUCCESS_PROB].

(** line 18 of simpy1.py as a [start_time] rule. *)
Definition one_phase_start (a : Z) : exn + (float -> float) :=
  inr (uniform 0%float Simpy1.PHASE_DURATION).

(** An event of simpy1 and the event of the generator of simpy4 that stands
    for it on the table [one_phase]. *)
Inductive same_event : Simpy1.event -> event -> Prop :=
| same_Initialize a : same_event (Simpy1.Initialize a) (Initialize a)
| same_AtArrival a s :
    same_event (Simpy1.Timeout a (Simpy1.AtArrival s)) (Timeout a (AtArrival s))
| same_AtPhase a s cur :
    same_event (Simpy1.Timeout a (Simpy1.AtPhase s))
               (Timeout a (AtPhase s 0 (Phase Simpy1.PHASE Simpy1.PHASE_DURATION
                                              Simpy1.SUCCESS_PROB) [] cur ∅))
| same_Process a exc : same_event (Simpy1.Process a exc) (Process a exc).

Definition same_entry (x1 : Simpy1.entry) (x : entry) : Prop :=
  Simpy1.entry_time x1 = entry_time x /\
  Simpy1.entry_priority x1 = entry_priority x /\
  Simpy1.entry_eid x1 = entry_eid x /\
  same_event (Simpy1.entry_event x1) (entry_event x).

(** What simpy1 stores of an asset, read off the row simpy4 writes. *)
Definition stored (r : record) : phase_result :=
  PhaseResult (asset_init_time r) (phase_end_time r) (phase_outcome r).

(** [results] of simpy1 after the rows [rs]. *)
Definition stored_results (rs : list record) : list (Z * phase_result) :=
  foldl (fun d r => Simpy2.dict_set d (asset_id r) (stored r)) [] rs.

Definition same_one_phase (s1 : Simpy1.state) (st : state) : Prop :=
  Simpy1.now s1 = now st /\ Forall2 same_entry (Simpy1.queue s1) (queue st) /\
  Simpy1.eid s1 = eid st /\ Simpy1.rng s1 = rng st /\
  Simpy1.results s1 = stored_results (records st).

(** ** Two more small runs *)

(** simpy1 with two assets. *)
Definition single_phase_run := Simpy1.run_simulation demo_draw 0 2.

Definition single_phase_pos : nat :=
  Eval vm_compute in match single_phase_run with Returns (p, _, _) => p | _ => O end.

Definition single_phase_out : list Simpy1.line :=
  Eval vm_compute in match single_phase_run with Returns (_, out, _) => out | _ => [] end.

Definition single_phase_results : list (Z * phase_result) :=
  Eval vm_compute in match single_phase_run with Returns (_, _, res) => res | _ => [] end.

(** simpy6 with 51 assets, the last of them in the second year; every asset
    fails its first phase. *)
Definition two_years_run := Simpy6.run_simulation high_draw 0 51 1.

Definition two_years_pos : nat :=
  Eval vm_compute in match two_years_run with Returns (p, _) => p | _ => O end.

Definition two_years_res : gmap Z (gmap string phase_result) :=
  Eval vm_compute in
    match two_years_run with Returns (_, (_, res, _)) => res | _ => ∅ end.

Definition two_years_recs : list record :=
  Eval vm_compute in
    match two_years_run with Returns (_, (_, _, recs)) => recs | _ => [] end.

(** The only row of asset [a] in that run. *)
Definition two_years_row (a : Z) : record :=
  default (Record_ 0 0 "" 0 0 0 0 0 SUCCESS 0) (head (rows_of a two_years_recs)).

(** * Proofs *)

(** ** The queue *)

Lemma pop_min_split (q : list entry) : forall x m r,
  pop_min x q = (m, r) ->
  exists l1 l2, x :: q = l1 ++ m :: l2 /\ r = l1 ++ l2.
Proof.
  induction q as [|y q IH]; intros x m r H; simpl in H.
  - inversion H; subst. by exists [], [].
  - destruct (pop_min y q) as [m' r'] eqn:E.
    destruct (entry_lt m' x); inversion H; subst.
    + destruct (IH _ _ _ E) as (l1 & l2 & Hq & Hr).
      exists (x :: l1), l2. by rewrite Hq, Hr.
    + by exists [], (y :: q).
Qed.

Lemma heappop_split (q : list entry) m r :
  heappop q = Some (m, r) ->
  exists l1 l2, q = l1 ++ m :: l2 /\ r = l1 ++ l2.
Proof.
  destruct q as [|x q]; simpl; [done|].
  intros [= H]. by apply pop_min_split.
Qed.

(** ** Termination: every step uses up potential *)

Section Termination.

Variable phases : list phase.
Variable start_time_of : Z -> exn + (float -> float).
Variable draw : nat -> float.
Variable replication_id : Z.

Lemma potential_app q1 q2 :
  potential phases (q1 ++ q2) = (potential phases q1 + potential phases q2)%nat.
Proof. apply sum_list_with_app. Qed.

Lemma potential_schedule st ev p d :
  potential phases (queue (schedule st ev p d))
  = (potential phases (queue st) + weight phases ev)%nat.
Proof. simpl. rewrite potential_app. unfold potential. simpl. lia. Qed.

Lemma potential_env_timeout st a k d :
  (potential phases (queue (env_timeout st a k d))
   <= potential phases (queue st) + weight phases (Timeout a k))%nat.
Proof.
  unfold env_timeout, throw. destruct (d <? 0)%float;
    rewrite potential_schedule; destruct k; simpl; lia.
Qed.

Lemma potential_for_loop st a s idx rest cur prs ok :
  (potential phases (queue (for_loop st a s idx rest cur prs ok))
   <= potential phases (queue st) + length rest + 1)%nat.
Proof.
  unfold for_loop. destruct rest as [|ph rest'].
  - unfold stop. rewrite potential_schedule. simpl. lia.
  - destruct ok.
    + etrans; [apply potential_env_timeout|]. simpl. lia.
    + unfold stop. rewrite potential_schedule. simpl. lia.
Qed.

Lemma potential_asset_trajectory st ev :
  (potential phases
     (queue (asset_trajectory phases start_time_of draw replication_id st ev))
   < potential phases (queue st) + weight phases ev)%nat.
Proof.
  destruct ev as [a|a [s|s idx ph rest cur prs]|a exc]; simpl.
  - destruct (start_time_of a) as [e|f].
    + unfold throw. rewrite potential_schedule. simpl. lia.
    + eapply Nat.le_lt_trans; [apply potential_env_timeout|]. simpl. lia.
  - eapply Nat.le_lt_trans; [apply potential_for_loop|]. simpl. lia.
  - eapply Nat.le_lt_trans; [apply potential_for_loop|]. simpl. lia.
  - lia.
Qed.

(** A step that goes on has popped one entry and run its callback. *)
Lemma step_Returns st st' :
  step phases start_time_of draw replication_id st = Some (Returns st') ->
  exists t p e ev l1 l2,
    queue st = l1 ++ (t, p, e, ev) :: l2 /\
    (forall a x, ev <> Process a (Some x)) /\
    st' = asset_trajectory phases start_time_of draw replication_id
            (State t (l1 ++ l2) (eid st) (rng st) (results st) (records st)) ev.
Proof.
  unfold step. destruct (heappop (queue st)) as [[[[[t p] e] ev] q]|] eqn:E; [|done].
  apply heappop_split in E as (l1 & l2 & -> & ->).
  intros H. exists t, p, e, ev, l1, l2. split; [done|].
  cbv zeta in H.
  destruct ev as [a|a k|a [x|]]; try discriminate H;
    (split; [intros ? ?; discriminate | injection H as <-; reflexivity]).
Qed.

Lemma step_potential st st' :
  step phases start_time_of draw replication_id st = Some (Returns st') ->
  (potential phases (queue st') < potential phases (queue st))%nat.
Proof.
  intros (t & p & e & ev & l1 & l2 & -> & _ & ->)%step_Returns.
  eapply Nat.lt_le_trans; [apply potential_asset_trajectory|].
  simpl. rewrite !potential_app. unfold potential at 4. simpl.
  fold (potential phases l2). unfold entry_event. simpl. lia.
Qed.

Lemma run_enough_fuel fuel st :
  (potential phases (queue st) < fuel)%nat ->
  run phases start_time_of draw replication_id fuel st <> OutOfFuel.
Proof.
  revert st. induction fuel as [|fuel IH]; intros st Hlt; [lia|].
  simpl. destruct (step _ _ _ _ st) as [[st'| |]|] eqn:E; try done.
  - apply IH. apply step_potential in E. lia.
  - unfold step in E. destruct (heappop (queue st)) as [[[[[t p] e] ev] q]|]; [|done].
    by destruct ev as [a|a k|a [x|]].
Qed.

Lemma potential_spawn ids : forall st,
  potential phases (queue (spawn st ids))
  = (potential phases (queue st) + length ids * (length phases + 3))%nat.
Proof.
  induction ids as [|a ids IH]; intros st; simpl; [lia|].
  unfold spawn in *. simpl. rewrite IH, potential_schedule. simpl. lia.
Qed.

(** [env.run()] always comes back: with a result or with an exception. *)
Lemma run_simulation_total pos num_assets :
  run_simulation phases start_time_of draw replication_id pos num_assets <> OutOfFuel.
Proof.
  unfold run_simulation.
  destruct (run _ _ _ _ _ _) eqn:E; try done.
  exfalso. revert E. apply run_enough_fuel.
  rewrite potential_spawn. unfold asset_ids, fuel_for.
  rewrite length_seqZ. unfold potential. simpl. lia.
Qed.

End Termination.

(** ** What a run keeps true of every asset *)

Lemma pending_app a q1 q2 : pending a (q1 ++ q2) = pending a q1 ++ pending a q2.
Proof. apply filter_app. Qed.

Lemma pending_cons_wakes a x q : wakes a x = true -> pending a (x :: q) = x :: pending a q.
Proof. intros H. unfold pending. rewrite filter_cons_True; [done | by rewrite H]. Qed.

Lemma pending_cons_other a x q : wakes a x = false -> pending a (x :: q) = pending a q.
Proof.
  intros H. unfold pending. rewrite filter_cons_False; [done | rewrite H; intros []].
Qed.

Lemma pending_remove_other a l1 x l2 :
  wakes a x = false -> pending a (l1 ++ l2) = pending a (l1 ++ x :: l2).
Proof. intros H. by rewrite !pending_app, pending_cons_other by done. Qed.

Lemma pending_single a l1 x l2 y :
  wakes a x = true -> pending a (l1 ++ x :: l2) = [y] ->
  x = y /\ pending a (l1 ++ l2) = [].
Proof.
  intros Hx. rewrite !pending_app, pending_cons_wakes by done.
  destruct (pending a l1) as [|z l1'].
  - simpl. intros [= -> ->]. done.
  - simpl. intros [= -> H]. by destruct l1'.
Qed.

Lemma pending_snoc a q x :
  pending a (q ++ [x]) = pending a q ++ (if wakes a x then [x] else []).
Proof.
  rewrite pending_app. f_equal. destruct (wakes a x) eqn:E.
  - by rewrite pending_cons_wakes.
  - by rewrite pending_cons_other.
Qed.

Lemma rows_of_snoc a rs r :
  rows_of a (rs ++ [r]) = rows_of a rs ++ (if decide (asset_id r = a) then [r] else []).
Proof.
  unfold rows_of. by rewrite filter_app.
Qed.

Lemma dict_of_snoc rs r :
  dict_of (rs ++ [r]) = <[phase_name r := to_result r]> (dict_of rs).
Proof. unfold dict_of. by rewrite foldl_app. Qed.

Lemma failed_in_remove a l1 t p e ev l2 :
  (forall b x, ev <> Process b (Some x)) ->
  failed_in a (l1 ++ l2) <-> failed_in a (l1 ++ (t, p, e, ev) :: l2).
Proof.
  intros Hev. split; intros (t' & p' & e' & x & Hin); exists t', p', e', x.
  - rewrite elem_of_app, elem_of_cons. rewrite elem_of_app in Hin. tauto.
  - rewrite elem_of_app, elem_of_cons in Hin. rewrite elem_of_app.
    destruct Hin as [?|[[= -> -> -> <-]|?]]; [by left | | by right].
    by destruct (Hev a x).
Qed.

Lemma failed_in_snoc a q t p e ev :
  (forall x, ev <> Process a (Some x)) ->
  failed_in a (q ++ [(t, p, e, ev)]) <-> failed_in a q.
Proof.
  intros Hev. split; intros (t' & p' & e' & x & Hin); exists t', p', e', x.
  - rewrite elem_of_app, list_elem_of_singleton in Hin.
    destruct Hin as [?|[= -> -> -> <-]]; [done|]. by destruct (Hev x).
  - rewrite elem_of_app. by left.
Qed.

Section Invariant.

Variable phases : list phase.
Variable start_time_of : Z -> exn + (float -> float).
Variable draw : nat -> float.
Variable replication_id : Z.
Variable num_assets : Z.

Lemma ok_in_same a st st' :
  same_for a st st' ->
  ok_in phases start_time_of draw replication_id num_assets st a ->
  ok_in phases start_time_of draw replication_id num_assets st' a.
Proof.
  unfold ok_in. intros (-> & -> & -> & HF) H.
  destruct H; [ eapply Absent | eapply Created | eapply Arriving | eapply Working
              | eapply Finished | eapply Crashed ]; eauto; tauto.
Qed.

Lemma same_for_schedule a st ev p d :
  wakes a (d, p, eid st, ev) = false -> (forall x, ev <> Process a (Some x)) ->
  same_for a st (schedule st ev p d).
Proof.
  intros H Hev. repeat split; simpl; try by apply failed_in_snoc.
  rewrite pending_snoc.
  replace (wakes a ((now st + d)%float, p, eid st, ev)) with false by done.
  apply app_nil_r.
Qed.

Lemma same_for_throw a st b x : b <> a -> same_for a st (throw st b x).
Proof. intros Hne. apply same_for_schedule; [done|]. congruence. Qed.

Lemma same_for_env_timeout a st b k d :
  b <> a -> same_for a st (env_timeout st b k d).
Proof.
  intros Hne. unfold env_timeout. destruct (d <? 0)%float.
  - by apply same_for_throw.
  - apply same_for_schedule; [|done]. unfold wakes; simpl.
    by rewrite bool_decide_eq_false_2.
Qed.

Lemma same_for_stop a st b prs : b <> a -> same_for a st (stop st b prs).
Proof.
  intros Hne. unfold stop.
  repeat split; simpl; try by apply failed_in_snoc.
  - rewrite pending_snoc. apply app_nil_r.
  - by rewrite lookup_insert_ne.
Qed.

Lemma same_for_for_loop a st b s idx rest cur prs ok :
  b <> a -> same_for a st (for_loop st b s idx rest cur prs ok).
Proof.
  intros Hne. unfold for_loop. destruct rest as [|ph rest']; [|destruct ok];
    auto using same_for_stop, same_for_env_timeout.
Qed.

Lemma same_for_trans a st1 st2 st3 :
  same_for a st1 st2 -> same_for a st2 st3 -> same_for a st1 st3.
Proof.
  intros (H1 & H2 & H3 & H4) (G1 & G2 & G3 & G4).
  repeat split; [congruence..|tauto|tauto].
Qed.

(** Waking up another asset leaves asset [a] where it was. *)
Lemma same_for_asset_trajectory a st t p e ev :
  wakes a (t, p, e, ev) = false ->
  same_for a st (asset_trajectory phases start_time_of draw replication_id st ev).
Proof.
  unfold wakes; simpl. intros Hw.
  destruct ev as [b|b [s|s idx ph rest cur prs]|b exc]; simpl;
    try (apply bool_decide_eq_false_1 in Hw).
  - destruct (start_time_of b) as [x|f]; [by apply same_for_throw|].
    eapply same_for_trans; [|by apply same_for_env_timeout].
    by repeat split.
  - by apply same_for_for_loop.
  - eapply same_for_trans; [|by apply same_for_for_loop].
    repeat split; simpl; auto.
    rewrite rows_of_snoc. simpl. rewrite decide_False by done. apply app_nil_r.
  - by repeat split.
Qed.

Lemma clock_S t0 k ph :
  phases !! k = Some ph -> clock phases t0 (S k) = (clock phases t0 k + duration ph)%float.
Proof.
  intros H. unfold clock. erewrite take_S_r by done. by rewrite foldl_app.
Qed.

Lemma wakes_Timeout a t p e k : wakes a (t, p, e, Timeout a k) = true.
Proof. unfold wakes; simpl. by apply bool_decide_eq_true_2. Qed.

Lemma ok_throw st a x :
  in_range num_assets a -> pending a (queue st) = [] -> results st !! a = None ->
  ~ safe phases start_time_of draw num_assets ->
  ok_in phases start_time_of draw replication_id num_assets (throw st a x) a.
Proof.
  intros Hr HP Ho Hs. apply Crashed; simpl; auto.
  - by rewrite pending_snoc, HP.
  - exists (now st + 0)%float, NORMAL, (eid st), x.
    rewrite elem_of_app, list_elem_of_singleton. by right.
Qed.

Lemma ok_stop st a s prs :
  in_range num_assets a -> pending a (queue st) = [] ->
  rows_ok phases replication_id a s (rows_of a (records st)) ->
  terminal phases (rows_of a (records st)) ->
  prs = dict_of (rows_of a (records st)) -> drawn start_time_of draw a s ->
  ~ failed_in a (queue st) ->
  ok_in phases start_time_of draw replication_id num_assets (stop st a prs) a.
Proof.
  intros Hr HP Hrows Hterm -> Hd HF. apply (Finished _ _ _ _ _ _ _ _ _ _ s); simpl; auto.
  - by rewrite pending_snoc, HP.
  - by rewrite lookup_insert_eq.
  - by rewrite failed_in_snoc.
Qed.

(** The generator reaches the head of the loop with [idx] rows written, all
    of them successes unless [ok] is false. *)
Lemma ok_for_loop st a s idx rest prs (ok : bool) :
  in_range num_assets a -> pending a (queue st) = [] -> results st !! a = None ->
  rows_ok phases replication_id a s (rows_of a (records st)) ->
  idx = length (rows_of a (records st)) ->
  now st = clock phases (0 + s) idx ->
  drop idx phases = rest ->
  (if ok then Forall (fun r => phase_outcome r = SUCCESS) (rows_of a (records st))
   else exists r, last (rows_of a (records st)) = Some r /\ phase_outcome r = FAILURE) ->
  prs = dict_of (rows_of a (records st)) -> drawn start_time_of draw a s ->
  ~ failed_in a (queue st) ->
  ok_in phases start_time_of draw replication_id num_assets
        (for_loop st a s idx rest (now st) prs ok) a.
Proof.
  intros Hr HP Ho Hrows Hidx Hnow Hdrop Hok Hprs Hd HF.
  unfold for_loop. destruct rest as [|ph rest'].
  - eapply ok_stop; eauto. left.
    apply (f_equal length) in Hdrop. rewrite length_drop in Hdrop. simpl in Hdrop.
    assert (length (rows_of a (records st)) <= length phases)%nat; [|lia].
    destruct (rows_of a (records st)) as [|r0 rs0] eqn:E using rev_ind; [simpl; lia|].
    destruct (Hrows (length rs0) r0) as (ph & o & Hph & _).
    { by rewrite lookup_app_r, Nat.sub_diag by lia. }
    apply lookup_lt_Some in Hph. rewrite length_app. simpl. lia.
  - destruct ok.
    + unfold env_timeout. destruct (duration ph <? 0)%float eqn:E.
      * apply ok_throw; [done..|]. intros [_ Hs].
        rewrite Forall_forall in Hs. rewrite Hs in E; [done|].
        apply (list_elem_of_lookup_2 _ idx). rewrite <- (Nat.add_0_r idx), <- lookup_drop.
        by rewrite Hdrop.
      * eapply Working; simpl; eauto.
        -- rewrite pending_snoc, HP, wakes_Timeout. simpl. by rewrite Hnow.
        -- by rewrite failed_in_snoc.
    + eapply ok_stop; eauto. by right.
Qed.

Lemma rows_ok_nil a s : rows_ok phases replication_id a s [].
Proof. intros k r H. by rewrite lookup_nil in H. Qed.

Lemma rows_ok_snoc a s rs ph o :
  rows_ok phases replication_id a s rs -> Forall (fun r => phase_outcome r = SUCCESS) rs ->
  phases !! length rs = Some ph ->
  rows_ok phases replication_id a s
          (rs ++ [row_at phases replication_id a s (length rs) ph o]).
Proof.
  intros Hrows Hall Hph k r Hk.
  destruct (decide (k < length rs)%nat) as [Hlt|Hge].
  - rewrite lookup_app_l in Hk by done.
    destruct (Hrows k r Hk) as (ph' & o' & Hph' & -> & _).
    exists ph', o'. repeat split; [done|]. intros ->.
    apply list_elem_of_lookup_2 in Hk.
    rewrite Forall_forall in Hall. by apply Hall in Hk.
  - rewrite lookup_app_r in Hk by lia.
    destruct (k - length rs)%nat as [|j] eqn:E; [|by rewrite lookup_cons, lookup_nil in Hk].
    assert (k = length rs) as -> by lia. simpl in Hk. injection Hk as <-.
    exists ph, o. repeat split; [done|]. intros _. rewrite length_app. simpl. lia.
Qed.

Lemma drop_head k ph rest : drop k phases = ph :: rest -> phases !! k = Some ph.
Proof.
  intros H. apply (f_equal (fun l => l !! 0%nat)) in H.
  by rewrite lookup_drop, Nat.add_0_r in H.
Qed.

Lemma drop_tail k ph rest : drop k phases = ph :: rest -> drop (S k) phases = rest.
Proof.
  intros H. replace (S k) with (k + 1)%nat by lia. by rewrite <- drop_drop, H.
Qed.

(** One step of the event loop keeps every asset where it should be. *)
Lemma step_Inv st st' :
  step phases start_time_of draw replication_id st = Some (Returns st') ->
  Inv phases start_time_of draw replication_id num_assets st ->
  Inv phases start_time_of draw replication_id num_assets st'.
Proof.
  intros (t & p & e & ev & l1 & l2 & Hq & Hev & ->)%step_Returns HInv a.
  specialize (HInv a).
  set (st1 := State t (l1 ++ l2) (eid st) (rng st) (results st) (records st)).
  destruct (wakes a (t, p, e, ev)) eqn:Hw.
  - unfold ok_in in HInv. rewrite Hq in HInv.
    assert (forall y, pending a (l1 ++ (t, p, e, ev) :: l2) = [y] ->
                      (t, p, e, ev) = y /\ pending a (l1 ++ l2) = []) as Hone.
    { intros y. by apply pending_single. }
    assert (pending a (l1 ++ (t, p, e, ev) :: l2) <> []) as Hne.
    { rewrite pending_app, pending_cons_wakes by done. by destruct (pending a l1). }
    assert (forall F, ~ F (l1 ++ (t, p, e, ev) :: l2) ->
              F = failed_in a -> ~ failed_in a (l1 ++ l2)) as HnF.
    { intros F HF ->. by rewrite failed_in_remove. }
    destruct HInv as [? HP| p0 e0 Hr HP HR Ho HF| s p0 e0 Hr HP HR Ho Hd HF
                     | s idx ph rest cur prs p0 e0 Hr HP Hrows Hidx Hcur Hdrop Hall Hprs Ho Hd HF
                     | s Hr HP| Hr HP]; try done;
      apply (fun H => HnF _ H eq_refl) in HF.
    + destruct (Hone _ HP) as [[= -> -> -> ->] HP1]. simpl.
      destruct (start_time_of a) as [x|f] eqn:Hs.
      { apply ok_throw; [done..|]. intros [Hsafe _].
        destruct (Hsafe a Hr) as (f & Hf & _). congruence. }
      unfold env_timeout. destruct (_ <? 0)%float eqn:E.
      { apply ok_throw; [done..|]. intros [Hsafe _].
        destruct (Hsafe a Hr) as (f' & Hf & Hpos).
        assert (f' = f) as -> by congruence. by rewrite Hpos in E. }
      eapply Arriving; simpl; eauto.
      * by rewrite pending_snoc, HP1, wakes_Timeout.
      * by exists f, (rng st).
      * by rewrite failed_in_snoc.
    + destruct (Hone _ HP) as [[= -> -> -> ->] HP1]. simpl.
      apply (ok_for_loop st1); simpl; auto.
      * rewrite HR. apply rows_ok_nil.
      * by rewrite HR.
      * by rewrite HR.
      * by rewrite HR.
    + destruct (Hone _ HP) as [[= -> -> -> ->] HP1]. simpl.
      pose proof (drop_head _ _ _ Hdrop) as Hph.
      destruct (draw (rng st) <? success_prob ph)%float eqn:E;
        set (row := Record_ _ _ _ _ _ _ _ _ _ _).
      * assert (row = row_at phases replication_id a s
                             (length (rows_of a (records st))) ph SUCCESS) as Hrow.
        { unfold row, row_at. by rewrite <- Hidx, <- Hcur. }
        assert (rows_of a (records st ++ [row])
                = rows_of a (records st) ++ [row]) as HR'.
        { rewrite rows_of_snoc. by rewrite decide_True. }
        match goal with
        | |- ok_in _ _ _ _ _ (for_loop ?s1 _ _ _ _ _ _ _) _ => apply (ok_for_loop s1)
        end; simpl; auto.
        -- rewrite HR', Hrow. by apply rows_ok_snoc; [| |rewrite <- Hidx].
        -- rewrite HR', length_app. simpl. lia.
        -- rewrite Hcur. symmetry. by apply clock_S.
        -- by eapply drop_tail.
        -- rewrite HR'. apply Forall_app. split; [done|]. by apply Forall_singleton.
        -- by rewrite HR', dict_of_snoc, Hprs.
      * assert (row = row_at phases replication_id a s
                             (length (rows_of a (records st))) ph FAILURE) as Hrow.
        { unfold row, row_at. by rewrite <- Hidx, <- Hcur. }
        assert (rows_of a (records st ++ [row])
                = rows_of a (records st) ++ [row]) as HR'.
        { rewrite rows_of_snoc. by rewrite decide_True. }
        match goal with
        | |- ok_in _ _ _ _ _ (for_loop ?s1 _ _ _ _ _ _ _) _ => apply (ok_for_loop s1)
        end; simpl; auto.
        -- rewrite HR', Hrow. by apply rows_ok_snoc; [| |rewrite <- Hidx].
        -- rewrite HR', length_app. simpl. lia.
        -- rewrite Hcur. symmetry. by apply clock_S.
        -- by eapply drop_tail.
        -- rewrite HR'. exists row. split; [apply last_snoc|done].
        -- by rewrite HR', dict_of_snoc, Hprs.
  - apply (ok_in_same a st1); [by eapply same_for_asset_trajectory|].
    apply (ok_in_same a st); [|done].
    unfold same_for, st1; simpl. rewrite Hq.
    split; [by apply pending_remove_other|].
    repeat split; by apply failed_in_remove.
Qed.

Lemma spawn_cons st b ids :
  spawn st (b :: ids) = spawn (schedule st (Initialize b) URGENT 0%float) ids.
Proof. done. Qed.

Lemma spawn_keeps ids : forall st,
  now (spawn st ids) = now st /\ rng (spawn st ids) = rng st /\
  results (spawn st ids) = results st /\ records (spawn st ids) = records st.
Proof.
  induction ids as [|b ids IH]; intros st; [done|].
  rewrite spawn_cons.
  by destruct (IH (schedule st (Initialize b) URGENT 0%float)) as (-> & -> & -> & ->).
Qed.

Lemma pending_spawn_notin a ids : forall st,
  a ∉ ids -> pending a (queue (spawn st ids)) = pending a (queue st).
Proof.
  induction ids as [|b ids IH]; intros st Hin; [done|].
  apply not_elem_of_cons in Hin as [Hne Hin].
  rewrite spawn_cons, IH by done. simpl. rewrite pending_snoc.
  unfold wakes; simpl. rewrite bool_decide_eq_false_2 by done. apply app_nil_r.
Qed.

Lemma pending_spawn_in a ids : forall st,
  NoDup ids -> a ∈ ids -> pending a (queue st) = [] ->
  exists e, pending a (queue (spawn st ids))
            = [((now st + 0)%float, URGENT, e, Initialize a)].
Proof.
  induction ids as [|b ids IH]; intros st Hnd Hin HP; [by apply elem_of_nil in Hin|].
  apply NoDup_cons in Hnd as [Hb Hnd]. rewrite spawn_cons.
  destruct (decide (b = a)) as [->|Hne].
  - exists (eid st). rewrite pending_spawn_notin by done. simpl.
    rewrite pending_snoc, HP. unfold wakes; simpl. by rewrite bool_decide_eq_true_2.
  - apply elem_of_cons in Hin as [?|Hin]; [congruence|].
    apply (IH (schedule st (Initialize b) URGENT 0%float)); [done..|].
    simpl. rewrite pending_snoc, HP. unfold wakes; simpl.
    by rewrite bool_decide_eq_false_2.
Qed.

Lemma failed_in_spawn a ids : forall st,
  failed_in a (queue (spawn st ids)) <-> failed_in a (queue st).
Proof.
  induction ids as [|b ids IH]; intros st; [done|].
  rewrite spawn_cons, IH. simpl. by apply failed_in_snoc.
Qed.

(** After [env.process] has been called for every asset, each process waits
    for its [Initialize] event at time 0. *)
Lemma Inv_spawn pos :
  Inv phases start_time_of draw replication_id num_assets
      (spawn (fresh pos) (asset_ids num_assets)).
Proof.
  intros a. unfold ok_in.
  destruct (spawn_keeps (asset_ids num_assets) (fresh pos)) as (_ & _ & -> & ->).
  assert (~ failed_in a (queue (spawn (fresh pos) (asset_ids num_assets)))) as HF.
  { rewrite failed_in_spawn. by intros (t & p & e & x & ?%elem_of_nil). }
  simpl. unfold rows_of. rewrite filter_nil, lookup_empty.
  destruct (decide (in_range num_assets a)) as [Hr|Hr].
  - destruct (pending_spawn_in a (asset_ids num_assets) (fresh pos)) as [e He]; try done.
    + apply NoDup_seqZ.
    + apply elem_of_seqZ. unfold in_range in Hr. lia.
    + rewrite He. by eapply Created.
  - rewrite pending_spawn_notin; [by apply Absent|].
    unfold asset_ids. rewrite elem_of_seqZ. unfold in_range in Hr. lia.
Qed.

(** A step raises only what a process has raised, and a process raises only
    on unsafe inputs. *)
Lemma step_Raises st x :
  step phases start_time_of draw replication_id st = Some (Raises x) ->
  Inv phases start_time_of draw replication_id num_assets st ->
  ~ safe phases start_time_of draw num_assets.
Proof.
  unfold step. destruct (heappop (queue st)) as [[[[[t p] e] ev] q]|] eqn:E; [|done].
  apply heappop_split in E as (l1 & l2 & Hq & _).
  destruct ev as [a|a k|a [y|]]; try done. intros _ HInv.
  specialize (HInv a). unfold ok_in in HInv.
  assert (failed_in a (queue st)) as HF.
  { exists t, p, e, y. rewrite Hq, elem_of_app, elem_of_cons. auto. }
  by destruct HInv.
Qed.

Lemma run_Raises fuel : forall st x,
  run phases start_time_of draw replication_id fuel st = Raises x ->
  Inv phases start_time_of draw replication_id num_assets st ->
  ~ safe phases start_time_of draw num_assets.
Proof.
  induction fuel as [|fuel IH]; intros st x H HInv; [done|].
  simpl in H. destruct (step _ _ _ _ st) as [[st1|y|]|] eqn:E; try done.
  - apply (IH st1 x); [done|]. by eapply step_Inv.
  - by eapply step_Raises.
Qed.

Lemma run_Inv fuel : forall st st',
  run phases start_time_of draw replication_id fuel st = Returns st' ->
  Inv phases start_time_of draw replication_id num_assets st ->
  Inv phases start_time_of draw replication_id num_assets st' /\ queue st' = [].
Proof.
  induction fuel as [|fuel IH]; intros st st' H HInv; [done|].
  simpl in H. destruct (step _ _ _ _ st) as [[st1| |]|] eqn:E; try done.
  - apply (IH st1); [done|]. by eapply step_Inv.
  - injection H as <-. split; [done|].
    unfold step in E. destruct (queue st) as [|x q]; [done|]. simpl in E.
    destruct (pop_min x q) as [[[[t p] e] ev] q']. by destruct ev as [?|? ?|? [?|]].
Qed.

(** What [run_simulation] hands back: every asset of the range has run to the
    end of its generator, and no other asset has left a trace. *)
Lemma run_simulation_Returns pos pos' res recs :
  run_simulation phases start_time_of draw replication_id pos num_assets
  = Returns (pos', res, recs) ->
  forall a,
    (in_range num_assets a ->
     exists s, rows_ok phases replication_id a s (rows_of a recs) /\
               terminal phases (rows_of a recs) /\
               res !! a = Some (dict_of (rows_of a recs)) /\
               drawn start_time_of draw a s) /\
    (~ in_range num_assets a -> rows_of a recs = [] /\ res !! a = None).
Proof.
  unfold run_simulation.
  destruct (run _ _ _ _ _ _) as [st| |] eqn:E; try done.
  intros [= <- <- <-] a.
  apply run_Inv in E as [HInv Hq]; [|apply Inv_spawn].
  specialize (HInv a). unfold ok_in in HInv. rewrite Hq in HInv.
  destruct HInv as [Hr HP HR Ho _| p0 e0 Hr HP HR Ho _| s p0 e0 Hr HP HR Ho Hd _
                   | s idx ph rest cur prs p0 e0 Hr HP Hrows Hidx Hcur Hdrop Hall Hprs Ho Hd _
                   | s Hr HP Hrows Hterm Ho Hd _| Hr HP Ho HF _]; try discriminate HP.
  - by split.
  - split; [|done]. intros _. by exists s.
  - by destruct HF as (t & p & e & x & ?%elem_of_nil).
Qed.

(** On safe inputs [run_simulation] returns. *)
Lemma run_simulation_safe pos :
  safe phases start_time_of draw num_assets ->
  exists pos' res recs,
    run_simulation phases start_time_of draw replication_id pos num_assets
    = Returns (pos', res, recs).
Proof.
  intros Hsafe.
  pose proof (run_simulation_total phases start_time_of draw replication_id
                pos num_assets) as Htot.
  unfold run_simulation in *.
  destruct (run _ _ _ _ _ _) as [st|x|] eqn:E; [by eauto| |done].
  by apply run_Raises in E; [|apply Inv_spawn].
Qed.

End Invariant.

(** ** Signs of the doubles a run computes *)

Lemma binary_round_aux_sign_clear mx ex lx :
  sign_clear (binary_round_aux prec emax false mx ex lx) = true.
Proof.
  unfold binary_round_aux.
  destruct (shr_fexp _ _ _ _ _) as [mrs' e'].
  destruct (shr_fexp _ _ _ _ _) as [mrs'' e''].
  destruct (shr_m mrs''); [done| |done]. by destruct (_ <=? _).
Qed.

Lemma binary_round_sign_clear mx ex :
  sign_clear (binary_round prec emax false mx ex) = true.
Proof.
  unfold binary_round. destruct (shl_align _ _ _) as [mz ez].
  apply binary_round_aux_sign_clear.
Qed.

Lemma SFadd_sign_clear x y :
  sign_clear x = true -> sign_clear y = true -> sign_clear (SF64add x y) = true.
Proof.
  destruct x as [[|]|[|]| |[|] mx ex], y as [[|]|[|]| |[|] my ey]; try done.
  intros _ _. unfold SF64add, SFadd. simpl.
  apply binary_round_sign_clear.
Qed.

Lemma SFadd_zero_sign_clear y :
  not_below_zero y = true -> sign_clear (SF64add (S754_zero false) y) = true.
Proof. by destruct y as [[|]|[|]| |[|] my ey]. Qed.

Lemma SFmul_not_below_zero x y :
  not_below_zero x = true -> not_below_zero y = true ->
  not_below_zero (SF64mul x y) = true.
Proof.
  destruct x as [[|]|[|]| |[|] mx ex], y as [[|]|[|]| |[|] my ey]; try done.
  intros _ _. unfold SF64mul, SFmul. simpl.
  pose proof (binary_round_aux_sign_clear (Z.pos (mx * my)) (ex + ey) loc_Exact) as H.
  by destruct (binary_round_aux _ _ _ _ _ _).
Qed.

Lemma SFsub_zero_not_below_zero x :
  not_below_zero x = true -> not_below_zero (SF64sub x (S754_zero false)) = true.
Proof. by destruct x as [[|]|[|]| |[|] mx ex]. Qed.

Lemma not_ltb_zero_not_below_zero d :
  (d <? 0)%float = false -> not_below_zero (Prim2SF d) = true.
Proof.
  rewrite ltb_spec. change (Prim2SF 0) with (S754_zero false).
  by destruct (Prim2SF d) as [[|]|[|]| |[|] m e].
Qed.

Lemma leb_zero_not_below_zero u :
  (0 <=? u)%float = true -> not_below_zero (Prim2SF u) = true.
Proof.
  rewrite leb_spec. change (Prim2SF 0) with (S754_zero false).
  by destruct (Prim2SF u) as [[|]|[|]| |[|] m e].
Qed.

Lemma sign_clear_add_zero s :
  sign_clear (Prim2SF s) = true -> (0 + s)%float = s.
Proof.
  intros H. apply Prim2SF_inj. rewrite add_spec.
  change (Prim2SF 0) with (S754_zero false).
  by destruct (Prim2SF s) as [[|]|[|]| |[|] m e].
Qed.

Lemma sign_clear_not_ltb_zero s :
  sign_clear (Prim2SF s) = true -> (s <? 0)%float = false.
Proof.
  intros H. rewrite ltb_spec. change (Prim2SF 0) with (S754_zero false).
  by destruct (Prim2SF s) as [[|]|[|]| |[|] m e].
Qed.

Lemma float_of_int_sign_clear z :
  0 <= z -> sign_clear (Prim2SF (float_of_int z)) = true.
Proof.
  intros Hz. unfold float_of_int. destruct (z <? 0) eqn:E; [lia|].
  rewrite of_uint63_spec.
  pose proof (Uint63.to_Z_bounded (Uint63.of_Z z)) as [Hb _].
  destruct (Uint63.to_Z (Uint63.of_Z z)) as [|m|m]; [done| |lia].
  apply binary_round_sign_clear.
Qed.

(** [random.uniform(0, b)] of a draw that is not below zero. *)
Lemma uniform_sign_clear b u :
  (b <? 0)%float = false -> (0 <=? u)%float = true ->
  sign_clear (Prim2SF (uniform 0 b u)) = true.
Proof.
  intros Hb Hu. unfold uniform. rewrite add_spec, mul_spec, sub_spec.
  change (Prim2SF 0) with (S754_zero false).
  apply SFadd_zero_sign_clear, SFmul_not_below_zero.
  - by apply SFsub_zero_not_below_zero, not_ltb_zero_not_below_zero.
  - by apply leb_zero_not_below_zero.
Qed.

Lemma not_below_zero_not_ltb_zero s :
  not_below_zero (Prim2SF s) = true -> (s <? 0)%float = false.
Proof.
  intros H. rewrite ltb_spec. change (Prim2SF 0) with (S754_zero false).
  by destruct (Prim2SF s) as [[|]|[|]| |[|] m e].
Qed.

(** [0 + x] is never [-0.0], so adding [0] again changes nothing. *)
Lemma add_zero_twice x : (0 + (0 + x))%float = (0 + x)%float.
Proof.
  apply Prim2SF_inj. rewrite !add_spec. change (Prim2SF 0) with (S754_zero false).
  by destruct (Prim2SF x) as [[|]|[|]| |[|] m e].
Qed.

Lemma ltb_zero_not_ltb d : (0 <? d)%float = true -> (d <? 0)%float = false.
Proof.
  rewrite !ltb_spec. change (Prim2SF 0) with (S754_zero false).
  by destruct (Prim2SF d) as [[|]|[|]| |[|] m e].
Qed.

Lemma Simpy6_start_time_sign_clear a u :
  1 <= a -> (0 <=? u)%float = true ->
  sign_clear (Prim2SF (float_of_int (Simpy6.year_of a * 52) + uniform 0 52 u)%float) = true.
Proof.
  intros Ha Hu. rewrite add_spec. apply SFadd_sign_clear.
  - apply float_of_int_sign_clear. unfold Simpy6.year_of, Simpy6.ASSETS_PER_YEAR.
    assert (0 <= (a - 1) `div` 50); [apply Z.div_pos; lia | lia].
  - by apply uniform_sign_clear.
Qed.

(** ** The generator's draws are all a run reads of the generator *)

Section SameDraws.

Variable phases : list phase.
Variable start_time_of : Z -> exn + (float -> float).
Variable replication_id : Z.
Variables draw1 draw2 : nat -> float.
Variable pos : nat.
Hypothesis same_draws : forall k, (pos <= k)%nat -> draw1 k = draw2 k.

Lemma asset_trajectory_same_draws st ev :
  (pos <= rng st)%nat ->
  asset_trajectory phases start_time_of draw1 replication_id st ev
  = asset_trajectory phases start_time_of draw2 replication_id st ev.
Proof.
  intros Hpos.
  destruct ev as [a|a [s|s idx ph rest cur prs]|a exc]; simpl; try done.
  - destruct (start_time_of a); [done|]. by rewrite same_draws.
  - by rewrite same_draws.
Qed.

(** The generator only moves forward. *)
Lemma asset_trajectory_rng draw st ev :
  (rng st <= rng (asset_trajectory phases start_time_of draw replication_id st ev))%nat.
Proof.
  destruct ev as [a|a [s|s idx ph rest cur prs]|a exc]; simpl.
  - destruct (start_time_of a); [done|].
    unfold env_timeout. destruct (_ <? 0)%float; simpl; lia.
  - unfold for_loop, env_timeout. destruct phases as [|ph rest]; [done|].
    by destruct (_ <? 0)%float.
  - unfold for_loop, env_timeout. destruct rest as [|ph' rest']; simpl; [lia|].
    destruct (_ <? _)%float; simpl; [|lia].
    destruct (_ <? 0)%float; simpl; lia.
  - done.
Qed.

Lemma step_same_draws st :
  (pos <= rng st)%nat ->
  step phases start_time_of draw1 replication_id st
  = step phases start_time_of draw2 replication_id st.
Proof.
  intros Hpos. unfold step.
  destruct (heappop (queue st)) as [[[[[t p] e] ev] q]|]; [|done].
  by rewrite asset_trajectory_same_draws.
Qed.

Lemma run_same_draws fuel : forall st,
  (pos <= rng st)%nat ->
  run phases start_time_of draw1 replication_id fuel st
  = run phases start_time_of draw2 replication_id fuel st.
Proof.
  induction fuel as [|fuel IH]; intros st Hpos; [done|].
  simpl. rewrite step_same_draws by done.
  destruct (step _ _ _ _ st) as [[st'| |]|] eqn:E; auto.
  apply IH. apply step_Returns in E as (t & p & e & ev & l1 & l2 & _ & _ & ->).
  etrans; [|apply asset_trajectory_rng]. done.
Qed.

End SameDraws.

(** ** Two runs on the same draws *)

Section Reseeded.

Variable phases : list phase.
Variable start_time_of : Z -> exn + (float -> float).
Variable replication_id : Z.
Variables draw1 draw2 : nat -> float.
Variables pos1 pos2 : nat.
Hypothesis same_draws : forall k, draw1 (pos1 + k)%nat = draw2 (pos2 + k)%nat.

Lemma with_rng_env_timeout p st a k d :
  with_rng p (env_timeout st a k d) = env_timeout (with_rng p st) a k d.
Proof. unfold env_timeout, throw. by destruct (d <? 0)%float. Qed.

Lemma with_rng_for_loop p st a s idx rest cur prs ok :
  with_rng p (for_loop st a s idx rest cur prs ok)
  = for_loop (with_rng p st) a s idx rest cur prs ok.
Proof.
  unfold for_loop. destruct rest as [|ph rest']; [done|].
  destruct ok; [apply with_rng_env_timeout|done].
Qed.

Lemma rng_env_timeout st a k d : rng (env_timeout st a k d) = rng st.
Proof. unfold env_timeout, throw. by destruct (d <? 0)%float. Qed.

Lemma rng_for_loop st a s idx rest cur prs ok :
  rng (for_loop st a s idx rest cur prs ok) = rng st.
Proof.
  unfold for_loop. destruct rest as [|ph rest']; [done|].
  destruct ok; [apply rng_env_timeout|done].
Qed.

Lemma reseeded_asset_trajectory st1 st2 ev :
  reseeded pos1 pos2 st1 st2 ->
  reseeded pos1 pos2
    (asset_trajectory phases start_time_of draw1 replication_id st1 ev)
    (asset_trajectory phases start_time_of draw2 replication_id st2 ev).
Proof.
  intros (d & Hd & ->).
  destruct ev as [a|a [s|s idx ph rest cur prs]|a exc]; simpl.
  - destruct (start_time_of a) as [x|f]; [by exists d|].
    exists (S d). rewrite rng_env_timeout, with_rng_env_timeout, Hd, same_draws.
    simpl. split; [lia|]. by rewrite Nat.add_succ_r.
  - exists d. by rewrite rng_for_loop, with_rng_for_loop.
  - exists (S d). rewrite rng_for_loop, with_rng_for_loop, Hd, same_draws.
    simpl. split; [lia|]. by rewrite Nat.add_succ_r.
  - by exists d.
Qed.

Lemma reseeded_step st1 st2 :
  reseeded pos1 pos2 st1 st2 ->
  match step phases start_time_of draw1 replication_id st1,
        step phases start_time_of draw2 replication_id st2 with
  | None, None => True
  | Some (Returns st1'), Some (Returns st2') => reseeded pos1 pos2 st1' st2'
  | Some (Raises x1), Some (Raises x2) => x1 = x2
  | _, _ => False
  end.
Proof.
  intros (d & Hd & ->). unfold step. simpl.
  destruct (heappop (queue st1)) as [[[[[t p] e] ev] q]|]; [|done].
  cbv zeta.
  assert (reseeded pos1 pos2
            (State t q (eid st1) (rng st1) (results st1) (records st1))
            (State t q (eid st1) (pos2 + d) (results st1) (records st1)))
    as Hst by by exists d.
  destruct ev as [a|a k|a [x|]]; try done; by apply reseeded_asset_trajectory.
Qed.

Lemma reseeded_run fuel : forall st1 st2,
  reseeded pos1 pos2 st1 st2 ->
  match run phases start_time_of draw1 replication_id fuel st1,
        run phases start_time_of draw2 replication_id fuel st2 with
  | Returns st1', Returns st2' => reseeded pos1 pos2 st1' st2'
  | Raises x1, Raises x2 => x1 = x2
  | OutOfFuel, OutOfFuel => True
  | _, _ => False
  end.
Proof.
  induction fuel as [|fuel IH]; intros st1 st2 H; simpl; [done|].
  pose proof (reseeded_step _ _ H) as Hstep.
  destruct (step _ _ draw1 _ st1) as [[st1'| |]|],
           (step _ _ draw2 _ st2) as [[st2'| |]|]; try done.
  by apply IH.
Qed.

Lemma with_rng_spawn p ids : forall st,
  with_rng p (spawn st ids) = spawn (with_rng p st) ids.
Proof.
  induction ids as [|a ids IH]; intros st; [done|].
  rewrite !spawn_cons. by rewrite IH.
Qed.

Lemma reseeded_spawn ids :
  reseeded pos1 pos2 (spawn (fresh pos1) ids) (spawn (fresh pos2) ids).
Proof.
  exists O. destruct (spawn_keeps ids (fresh pos1)) as (_ & -> & _).
  split; [simpl; lia|]. rewrite with_rng_spawn. by rewrite Nat.add_0_r.
Qed.

End Reseeded.

(** C1 as amended.  [run_simulation] takes no seed and never seeds the
    generator, and the replication id does not reach the draws: the records
    are decided by the draws the generator hands to the run.  Two runs on
    the same phase table, asset count and replication id whose generators
    return the same draws from where each run begins (as after
    [random.seed(s)] before each), whatever was drawn before, end the same
    way: they return the same records, in the same order, with the same
    fields, and the same results, after the same number of draws, or raise
    the same exception. *)
Theorem same_draws_same_records
    (phases : list phase) (start_time_of : Z -> exn + (float -> float))
    (draw1 draw2 : nat -> float) (replication_id : Z) (pos1 pos2 : nat)
    (num_assets : Z) :
  (forall k, draw1 (pos1 + k)%nat = draw2 (pos2 + k)%nat) ->
  match run_simulation phases start_time_of draw1 replication_id pos1 num_assets,
        run_simulation phases start_time_of draw2 replication_id pos2 num_assets with
  | Returns (pos1', res1, recs1), Returns (pos2', res2, recs2) =>
      recs1 = recs2 /\ res1 = res2 /\
      exists d, pos1' = (pos1 + d)%nat /\ pos2' = (pos2 + d)%nat
  | Raises x1, Raises x2 => x1 = x2
  | _, _ => False
  end.
Proof.
  intros Hsame. unfold run_simulation.
  pose proof (reseeded_run phases start_time_of replication_id draw1 draw2 pos1 pos2
                Hsame (fuel_for phases num_assets) _ _
                (reseeded_spawn pos1 pos2 (asset_ids num_assets))) as H.
  pose proof (run_simulation_total phases start_time_of draw1 replication_id
                pos1 num_assets) as Htot.
  unfold run_simulation in Htot.
  destruct (run _ _ draw1 _ _ _) as [st1| |], (run _ _ draw2 _ _ _) as [st2| |];
    try done.
  destruct H as (d & Hd & ->). simpl. repeat split. by exists d.
Qed.

(** C1 fails on the code: two calls with the same table, asset count and
    replication id, one after the other, do not return the same records.
    The first call of simpy4's [run_simulation(2, 7)] reads eleven draws and
    returns nine records; the second call begins where the first has left
    the generator and returns two. *)
Lemma same_replication_id_other_records :
  Simpy4.run_simulation demo_draw 0 2 7 = Returns (demo_pos, demo_res, demo_recs) /\
  demo_pos = 11%nat /\ length demo_recs = 9%nat /\
  Simpy4.run_simulation demo_draw demo_pos 2 7
  = Returns (15%nat,
             {[ 1 := {[ "ID1" := PhaseResult 50.44 60.44 FAILURE ]};
                2 := {[ "ID1" := PhaseResult 50.44 60.44 FAILURE ]} ]},
             [ Record_ 7 1 "ID1" 0 10 0.95 50.44 60.44 FAILURE 50.44;
               Record_ 7 2 "ID1" 0 10 0.95 50.44 60.44 FAILURE 50.44 ]).
Proof. repeat split; vm_compute; reflexivity. Qed.

(** ** The record table of a run that returns *)

Section Returned.

Variable phases : list phase.
Variable start_time_of : Z -> exn + (float -> float).
Variable draw : nat -> float.
Variable replication_id : Z.
Variable num_assets : Z.
Variable pos pos' : nat.
Variable res : gmap Z (gmap string phase_result).
Variable recs : list record.
Hypothesis returned :
  run_simulation phases start_time_of draw replication_id pos num_assets
  = Returns (pos', res, recs).

Lemma returned_rows_ok a :
  exists s, rows_ok phases replication_id a s (rows_of a recs).
Proof.
  destruct (run_simulation_Returns _ _ _ _ _ _ _ _ _ returned a) as [Hin Hout].
  destruct (decide (in_range num_assets a)) as [Hr|Hr].
  - destruct (Hin Hr) as (s & ? & _). by exists s.
  - destruct (Hout Hr) as [-> _]. exists 0%float. apply rows_ok_nil.
Qed.

Lemma returned_row a k r :
  rows_of a recs !! k = Some r ->
  exists s ph o, phases !! k = Some ph /\
    r = row_at phases replication_id a s k ph o /\
    (o = FAILURE -> length (rows_of a recs) = S k) /\
    (in_range num_assets a /\ drawn start_time_of draw a s).
Proof.
  intros Hk.
  destruct (run_simulation_Returns _ _ _ _ _ _ _ _ _ returned a) as [Hin Hout].
  destruct (decide (in_range num_assets a)) as [Hr|Hr].
  - destruct (Hin Hr) as (s & Hrows & _ & _ & Hd).
    destruct (Hrows k r Hk) as (ph & o & ? & ? & ?). by exists s, ph, o.
  - destruct (Hout Hr) as [HR _]. by rewrite HR in Hk.
Qed.

Lemma rows_of_elem a r : r ∈ rows_of a recs <-> r ∈ recs /\ asset_id r = a.
Proof. unfold rows_of. rewrite list_elem_of_filter. tauto. Qed.

End Returned.

(** ** The claims about the rows of one asset *)

(** In either script an asset of the range arrives when the clock shows its
    [start_time]: the clock starts at [0], and [0 + start_time] is
    [start_time] itself. *)
Lemma arrival_clock phases f draw num_assets a s :
  script_rule phases f -> (forall k, (0 <=? draw k)%float = true) ->
  in_range num_assets a -> drawn f draw a s -> (0 + s)%float = s.
Proof.
  intros [->| ->] Hdraw [Ha _] (g & k & Hg & ->).
  - unfold Simpy4.start_time_of in Hg. destruct (phases !! 2%nat); [|done].
    injection Hg as <-. apply add_zero_twice.
  - injection Hg as <-. by apply sign_clear_add_zero, Simpy6_start_time_sign_clear.
Qed.

(** C3. In a run of either script that returns, with draws that are not
    below zero (as those of [random.random()] are), the first row of every
    asset starts at the asset's [asset_init_time], and every later row starts
    when the row before it ended. *)
Theorem phase_start_is_previous_end
    (phases : list phase) (start_time_of : Z -> exn + (float -> float))
    (draw : nat -> float) (replication_id : Z) (pos : nat) (num_assets : Z)
    (pos' : nat) (res : gmap Z (gmap string phase_result)) (recs : list record) :
  script_rule phases start_time_of ->
  (forall k, (0 <=? draw k)%float = true) ->
  run_simulation phases start_time_of draw replication_id pos num_assets
  = Returns (pos', res, recs) ->
  forall a,
    (forall r, rows_of a recs !! 0%nat = Some r ->
               phase_start_time r = asset_init_time r) /\
    (forall k r1 r2, rows_of a recs !! k = Some r1 ->
                     rows_of a recs !! S k = Some r2 ->
                     phase_start_time r2 = phase_end_time r1).
Proof.
  intros Hrule Hdraw Hret a. split.
  - intros r Hr.
    destruct (returned_row _ _ _ _ _ _ _ _ _ Hret a 0%nat r Hr)
      as (s & ph & o & _ & -> & _ & Hin & Hd).
    simpl. by eapply arrival_clock.
  - intros k r1 r2 H1 H2.
    destruct (returned_row _ _ _ _ _ _ _ _ _ Hret a _ _ H1)
      as (s1 & ph1 & o1 & Hph1 & -> & _ & _ & Hd1).
    destruct (returned_rows_ok _ _ _ _ _ _ _ _ _ Hret a) as (s & Hrows).
    destruct (Hrows _ _ H1) as (ph1' & o1' & Hph1' & E1 & _).
    destruct (Hrows _ _ H2) as (ph2 & o2 & Hph2 & -> & _).
    assert (ph1' = ph1) as -> by congruence.
    apply (f_equal asset_init_time) in E1 as Hs. simpl in Hs. subst s1.
    simpl. by apply clock_S.
Qed.

(** C4. In a run that returns, a row with outcome [FAILURE] is the last row
    of its asset. *)
Theorem failure_is_last_row
    (phases : list phase) (start_time_of : Z -> exn + (float -> float))
    (draw : nat -> float) (replication_id : Z) (pos : nat) (num_assets : Z)
    (pos' : nat) (res : gmap Z (gmap string phase_result)) (recs : list record) :
  run_simulation phases start_time_of draw replication_id pos num_assets
  = Returns (pos', res, recs) ->
  forall a k r,
    rows_of a recs !! k = Some r -> phase_outcome r = FAILURE ->
    length (rows_of a recs) = S k.
Proof.
  intros Hret a k r Hk Ho.
  destruct (returned_row _ _ _ _ _ _ _ _ _ Hret a k r Hk)
    as (s & ph & o & _ & -> & Hlast & _).
  by apply Hlast.
Qed.

(** C5. In a run that returns, the [k]-th row of an asset (counting from 0)
    has [phase_idx] [k] and describes the [k]-th phase of the table. *)
Theorem phase_idx_counts_rows
    (phases : list phase) (start_time_of : Z -> exn + (float -> float))
    (draw : nat -> float) (replication_id : Z) (pos : nat) (num_assets : Z)
    (pos' : nat) (res : gmap Z (gmap string phase_result)) (recs : list record) :
  run_simulation phases start_time_of draw replication_id pos num_assets
  = Returns (pos', res, recs) ->
  forall a k r,
    rows_of a recs !! k = Some r ->
    phase_idx r = k /\
    phases !! k = Some (Phase (phase_name r) (phase_duration r) (phase_success_prob r)).
Proof.
  intros Hret a k r Hk.
  destruct (returned_row _ _ _ _ _ _ _ _ _ Hret a k r Hk)
    as (s & ph & o & Hph & -> & _).
  split; [done|]. simpl. by destruct ph.
Qed.

(** C6. In a run on a table with at least one phase that returns, every asset
    of the range has a last row, and that row is a [FAILURE] or the
    [SUCCESS] of the last phase of the table. *)
Theorem every_asset_ends
    (phases : list phase) (start_time_of : Z -> exn + (float -> float))
    (draw : nat -> float) (replication_id : Z) (pos : nat) (num_assets : Z)
    (pos' : nat) (res : gmap Z (gmap string phase_result)) (recs : list record) :
  phases <> [] ->
  run_simulation phases start_time_of draw replication_id pos num_assets
  = Returns (pos', res, recs) ->
  forall a, 1 <= a <= num_assets ->
    exists r, last (rows_of a recs) = Some r /\
      (phase_outcome r = FAILURE \/
       (phase_outcome r = SUCCESS /\ S (phase_idx r) = length phases)).
Proof.
  intros Hne Hret a Ha.
  destruct (run_simulation_Returns _ _ _ _ _ _ _ _ _ Hret a) as [Hin _].
  destruct (Hin Ha) as (s & Hrows & [Hlen|(r & Hr & Ho)] & _); [|by eauto].
  destruct (rows_of a recs) as [|r rs _] using rev_ind.
  { destruct phases; [done|discriminate Hlen]. }
  exists r. split; [apply last_snoc|].
  destruct (Hrows (length rs) r) as (ph & o & _ & -> & _).
  { by rewrite lookup_app_r, Nat.sub_diag by lia. }
  simpl. destruct o; [right|by left]. split; [done|].
  rewrite length_app in Hlen. simpl in Hlen. lia.
Qed.

(** C7. In a run that returns, every row ends at its start plus the duration
    of its phase.  On the table of two phases of durations 10 and 5 that
    always succeed, one asset whose [start_time] is 3 leaves exactly two
    rows, both [SUCCESS]: from 3 to 13 and from 13 to 18. *)
Theorem phase_end_is_start_plus_duration :
  (forall (phases : list phase) (start_time_of : Z -> exn + (float -> float))
      (draw : nat -> float) (replication_id : Z) (pos : nat) (num_assets : Z)
      (pos' : nat) (res : gmap Z (gmap string phase_result)) (recs : list record),
    run_simulation phases start_time_of draw replication_id pos num_assets
    = Returns (pos', res, recs) ->
    forall r, r ∈ recs ->
      phase_end_time r = (phase_start_time r + phase_duration r)%float) /\
  (forall (n1 n2 : string) (start_time_of : Z -> exn + (float -> float))
      (f : float -> float) (draw : nat -> float) (replication_id : Z) (pos : nat),
    start_time_of 1 = inr f -> f (draw pos) = 3%float ->
    (draw (S pos) <? 1)%float = true -> (draw (S (S pos)) <? 1)%float = true ->
    run_simulation [Phase n1 10 1; Phase n2 5 1] start_time_of draw
                   replication_id pos 1
    = Returns (S (S (S pos)),
               {[ 1 := <[n2 := PhaseResult 13 18 SUCCESS]>
                         {[ n1 := PhaseResult 3 13 SUCCESS ]} ]},
               [ Record_ replication_id 1 n1 0 10 1 3 13 SUCCESS 3;
                 Record_ replication_id 1 n2 1 5 1 13 18 SUCCESS 3 ])).
Proof.
  split.
  - intros phases start_time_of draw replication_id pos num_assets pos' res recs
      Hret r Hr.
    assert (r ∈ rows_of (asset_id r) recs) as Hin by by apply rows_of_elem.
    apply list_elem_of_lookup in Hin as [k Hk].
    destruct (returned_row _ _ _ _ _ _ _ _ _ Hret _ _ _ Hk)
      as (s & ph & o & _ & E & _).
    by rewrite E.
  - intros n1 n2 start_time_of f draw replication_id pos Hf H3 Hd1 Hd2.
    unfold run_simulation, asset_ids. change (seqZ 1 1) with [1].
    simpl. unfold step. simpl. rewrite Hf. simpl. rewrite H3. simpl.
    unfold step. simpl. rewrite Hd1. simpl.
    unfold step. simpl. rewrite Hd2. simpl.
    unfold step. simpl. reflexivity.
Qed.

(** ** [results] *)

Lemma dict_of_lookup_Some rs nm v :
  dict_of rs !! nm = Some v ->
  exists r, r ∈ rs /\ phase_name r = nm /\ v = to_result r.
Proof.
  induction rs as [|x rs IH] using rev_ind; [done|].
  rewrite dict_of_snoc. destruct (decide (phase_name x = nm)) as [<-|Hne].
  - rewrite lookup_insert_eq. intros [= <-]. exists x.
    rewrite elem_of_app, list_elem_of_singleton. auto.
  - rewrite lookup_insert_ne by done. intros (r & ? & ? & ?)%IH.
    exists r. rewrite elem_of_app. auto.
Qed.

Lemma dict_of_lookup_elem rs r : r ∈ rs -> is_Some (dict_of rs !! phase_name r).
Proof.
  induction rs as [|x rs IH] using rev_ind; [by intros ?%elem_of_nil|].
  rewrite dict_of_snoc, elem_of_app, list_elem_of_singleton.
  destruct (decide (phase_name x = phase_name r)) as [E|Hne].
  - rewrite E, lookup_insert_eq. by eauto.
  - rewrite lookup_insert_ne by done. intros [?|E]; [auto|by subst].
Qed.

(** With one row per phase name, the dictionary keeps every row. *)
Lemma dict_of_lookup_row rs k r :
  (forall i j ri rj, rs !! i = Some ri -> rs !! j = Some rj ->
                     phase_name ri = phase_name rj -> i = j) ->
  rs !! k = Some r -> dict_of rs !! phase_name r = Some (to_result r).
Proof.
  revert k. induction rs as [|x rs IH] using rev_ind; intros k Huniq Hk; [done|].
  rewrite dict_of_snoc.
  destruct (decide (k < length rs)%nat) as [Hlt|Hge].
  - rewrite lookup_app_l in Hk by done.
    assert (phase_name x <> phase_name r) as Hne.
    { intros E. assert (length rs = k); [|lia].
      apply (Huniq _ _ x r); [|by rewrite lookup_app_l|done].
      by rewrite lookup_app_r, Nat.sub_diag by lia. }
    rewrite lookup_insert_ne by done. apply (IH k); [|done].
    intros i j ri rj Hi Hj. apply Huniq; rewrite lookup_app_l; try done;
      by eapply lookup_lt_Some.
  - rewrite lookup_app_r in Hk by lia.
    destruct (k - length rs)%nat; [|by rewrite lookup_cons, lookup_nil in Hk].
    injection Hk as ->. by rewrite lookup_insert_eq.
Qed.

(** C10. In a run that returns, [results] has an entry for exactly the asset
    ids 1 .. [num_assets].  The keys of an asset's entry are the phase names
    of its rows, every value is the times and outcome of one of its rows with
    that name, and when the names of the table differ from each other the
    entry holds the times and outcome of every row of the asset. *)
Theorem results_has_every_asset
    (phases : list phase) (start_time_of : Z -> exn + (float -> float))
    (draw : nat -> float) (replication_id : Z) (pos : nat) (num_assets : Z)
    (pos' : nat) (res : gmap Z (gmap string phase_result)) (recs : list record) :
  run_simulation phases start_time_of draw replication_id pos num_assets
  = Returns (pos', res, recs) ->
  (forall a, is_Some (res !! a) <-> 1 <= a <= num_assets) /\
  (forall a prs, res !! a = Some prs ->
     (forall nm, is_Some (prs !! nm) <->
                 exists r, r ∈ recs /\ asset_id r = a /\ phase_name r = nm) /\
     (forall nm v, prs !! nm = Some v ->
                   exists r, r ∈ recs /\ asset_id r = a /\ phase_name r = nm /\
                             v = to_result r) /\
     (NoDup (name <$> phases) ->
      forall r, r ∈ recs -> asset_id r = a ->
                prs !! phase_name r = Some (to_result r))).
Proof.
  intros Hret.
  pose proof (run_simulation_Returns _ _ _ _ _ _ _ _ _ Hret) as H.
  split.
  - intros a. destruct (H a) as [Hin Hout]. split.
    + intros Hsome. destruct (decide (in_range num_assets a)) as [|Hr]; [done|].
      destruct (Hout Hr) as [_ E]. rewrite E in Hsome. by destruct Hsome.
    + intros Ha. destruct (Hin Ha) as (s & _ & _ & -> & _). by eauto.
  - intros a prs Hprs. destruct (H a) as [Hin Hout].
    destruct (decide (in_range num_assets a)) as [Hr|Hr];
      [|destruct (Hout Hr) as [_ E]; congruence].
    destruct (Hin Hr) as (s & Hrows & _ & E & _).
    assert (prs = dict_of (rows_of a recs)) as -> by congruence.
    assert (forall nm v, dict_of (rows_of a recs) !! nm = Some v ->
              exists r, r ∈ recs /\ asset_id r = a /\ phase_name r = nm /\
                        v = to_result r) as Hval.
    { intros nm v (r & [? ?]%rows_of_elem & ? & ?)%dict_of_lookup_Some. by exists r. }
    split; [|split; [done|]].
    + intros nm. split.
      * intros [v (r & ? & ? & ? & _)%Hval]. by exists r.
      * intros (r & Hr1 & Hr2 & <-). by apply dict_of_lookup_elem, rows_of_elem.
    + intros Hnd r Hr1 Hr2.
      assert (r ∈ rows_of a recs) as [k Hk]%list_elem_of_lookup by by apply rows_of_elem.
      apply (dict_of_lookup_row _ k); [|done].
      intros i j ri rj Hi Hj Hname.
      destruct (Hrows _ _ Hi) as (phi & oi & Hphi & -> & _).
      destruct (Hrows _ _ Hj) as (phj & oj & Hphj & -> & _).
      simpl in Hname.
      apply (NoDup_lookup (name <$> phases) i j (name phi)); [done|..];
        rewrite list_lookup_fmap; [by rewrite Hphi | by rewrite Hphj, Hname].
Qed.

(** ** Runs that raise, and runs that cannot *)

(** No asset and nothing to do: the queue is empty from the start. *)
Lemma run_simulation_no_asset phases start_time_of draw replication_id pos num_assets :
  num_assets <= 0 ->
  run_simulation phases start_time_of draw replication_id pos num_assets
  = Returns (pos, ∅, []).
Proof.
  intros Hn. unfold run_simulation, asset_ids, fuel_for, seqZ.
  replace (Z.to_nat num_assets) with 0%nat by lia. reflexivity.
Qed.

Section OneException.

Variable phases : list phase.
Variable start_time_of : Z -> exn + (float -> float).
Variable draw : nat -> float.
Variable replication_id : Z.
Variable x0 : exn.
Hypothesis always_raises : forall a, start_time_of a = inl x0.

Lemma only_raises_step st st' :
  step phases start_time_of draw replication_id st = Some (Returns st') ->
  Forall (only_raises x0) (queue st) -> Forall (only_raises x0) (queue st').
Proof.
  intros (t & p & e & ev & l1 & l2 & -> & _ & ->)%step_Returns.
  rewrite !Forall_app, Forall_cons. intros (H1 & Hev & H2).
  destruct ev as [a|a k|a [x|]]; simpl; try done.
  - rewrite always_raises. unfold throw; simpl.
    by rewrite !Forall_app, Forall_singleton.
  - by rewrite Forall_app.
  - by rewrite Forall_app.
Qed.

Lemma only_raises_run fuel : forall st x,
  run phases start_time_of draw replication_id fuel st = Raises x ->
  Forall (only_raises x0) (queue st) -> x = x0.
Proof.
  induction fuel as [|fuel IH]; intros st x H HQ; [done|].
  simpl in H. destruct (step _ _ _ _ st) as [[st1|y|]|] eqn:E; try done.
  - apply (IH st1 x); [done|]. by eapply only_raises_step.
  - injection H as ->. unfold step in E.
    destruct (heappop (queue st)) as [[[[[t p] e] ev] q]|] eqn:Hq; [|done].
    apply heappop_split in Hq as (l1 & l2 & Hq & _). rewrite Hq in HQ.
    rewrite Forall_app, Forall_cons in HQ. destruct HQ as (_ & Hev & _).
    destruct ev as [a|a k|a [z|]]; try done. injection E as <-. done.
Qed.

Lemma only_raises_spawn ids : forall st,
  Forall (only_raises x0) (queue st) -> Forall (only_raises x0) (queue (spawn st ids)).
Proof.
  induction ids as [|b ids IH]; intros st H; [done|].
  rewrite spawn_cons. apply IH. simpl. rewrite Forall_app, Forall_singleton. done.
Qed.

(** When the [start_time] lines raise for every asset, a run with an asset
    raises just that. *)
Lemma run_simulation_always_raises pos num_assets :
  1 <= num_assets ->
  run_simulation phases start_time_of draw replication_id pos num_assets
  = Raises x0.
Proof.
  intros Hn.
  destruct (run_simulation _ _ _ _ pos num_assets) as [[[pos' res] recs]|x|] eqn:E.
  - destruct (run_simulation_Returns _ _ _ _ _ _ _ _ _ E 1) as [Hin _].
    destruct Hin as (s & _ & _ & _ & f & k & Hf & _); [done|].
    by rewrite always_raises in Hf.
  - f_equal. unfold run_simulation in E.
    destruct (run _ _ _ _ _ _) as [st|y|] eqn:Hrun; try done.
    injection E as ->. eapply only_raises_run; [done|].
    by apply only_raises_spawn.
  - by apply run_simulation_total in E.
Qed.

End OneException.

(** simpy4 cannot raise on a table that has its third phase and no duration
    below zero, with draws that are not below zero. *)
Lemma Simpy4_safe phases draw num_assets :
  is_Some (phases !! 2%nat) ->
  Forall (fun ph => (duration ph <? 0)%float = false) phases ->
  (forall k, (0 <=? draw k)%float = true) ->
  safe phases (Simpy4.start_time_of phases) draw num_assets.
Proof.
  intros [ph Hph] Hdur Hdraw. split; [|done].
  intros a _. unfold Simpy4.start_time_of. rewrite Hph.
  eexists. split; [done|]. intros k.
  apply sign_clear_not_ltb_zero, uniform_sign_clear; [|done].
  rewrite Forall_forall in Hdur. apply Hdur. by eapply list_elem_of_lookup_2.
Qed.

(** simpy6 cannot raise on a table with no duration below zero, with draws
    that are not below zero. *)
Lemma Simpy6_safe phases draw num_assets :
  Forall (fun ph => (duration ph <? 0)%float = false) phases ->
  (forall k, (0 <=? draw k)%float = true) ->
  safe phases Simpy6.start_time_of draw num_assets.
Proof.
  intros Hdur Hdraw. split; [|done].
  intros a [Ha _]. eexists. split; [done|]. intros k.
  by apply sign_clear_not_ltb_zero, Simpy6_start_time_sign_clear.
Qed.

(** ** Empty inputs *)



(** ** Rounding to the nearest double *)

(** Bits of a mantissa. *)
Lemma digits2_pos_bounds (m : positive) :
  2 ^ (Z.pos (digits2_pos m) - 1) <= Z.pos m < 2 ^ Z.pos (digits2_pos m).
Proof.
  induction m as [m IH|m IH|]; simpl digits2_pos.
  - rewrite Pos2Z.inj_succ.
    replace (Z.succ (Z.pos (digits2_pos m)) - 1) with (Z.succ (Z.pos (digits2_pos m) - 1)) by lia.
    rewrite !Z.pow_succ_r by lia. lia.
  - rewrite Pos2Z.inj_succ.
    replace (Z.succ (Z.pos (digits2_pos m)) - 1) with (Z.succ (Z.pos (digits2_pos m) - 1)) by lia.
    rewrite !Z.pow_succ_r by lia. lia.
  - simpl. lia.
Qed.

Lemma iter_pos_nat {A} (f : A -> A) (p : positive) : forall x,
  SpecFloat.iter_pos f p x = Nat.iter (Pos.to_nat p) f x.
Proof.
  induction p as [p IH|p IH|]; intros x; simpl SpecFloat.iter_pos.
  - rewrite !IH, Pos2Nat.inj_xI.
    replace (S (2 * Pos.to_nat p))%nat with (S (Pos.to_nat p + Pos.to_nat p))%nat by lia.
    by rewrite Nat.iter_succ_r, Nat.iter_add.
  - rewrite !IH, Pos2Nat.inj_xO.
    replace (2 * Pos.to_nat p)%nat with (Pos.to_nat p + Pos.to_nat p)%nat by lia.
    by rewrite Nat.iter_add.
  - reflexivity.
Qed.

(** [k] right shifts of a mantissa: the quotient, and no round or sticky bit
    when nothing was shifted out. *)
Lemma shr_iter (m : Z) (k : nat) :
  0 <= m ->
  let r := Nat.iter k shr_1 (Build_shr_record m false false) in
  shr_m r = m / 2 ^ Z.of_nat k /\
  (m mod 2 ^ Z.of_nat k = 0 -> shr_r r = false /\ shr_s r = false).
Proof.
  intros Hm. induction k as [|k IH].
  - simpl. rewrite Z.div_1_r. auto.
  - cbv zeta in *. rewrite Nat.iter_succ.
    destruct (Nat.iter k shr_1 _) as [mk rk sk]. simpl in IH.
    destruct IH as [IHm IHrs].
    rewrite Nat2Z.inj_succ, Z.pow_succ_r by lia.
    assert (0 < 2 ^ Z.of_nat k) as Hpow by (apply Z.pow_pos_nonneg; lia).
    assert (m / (2 * 2 ^ Z.of_nat k) = mk / 2) as Hdiv.
    { rewrite IHm, Z.mul_comm, Z.div_div by lia. reflexivity. }
    split.
    + rewrite Hdiv. destruct mk as [|[q|q|]|[q|q|]]; simpl; try reflexivity;
        try (pose proof (Z.div_pos m (2 ^ Z.of_nat k)); lia).
      * rewrite Pos2Z.inj_xI. apply (Z.div_unique _ _ _ 1); lia.
      * rewrite Pos2Z.inj_xO. apply (Z.div_unique _ _ _ 0); lia.
    + intros Hmod.
      assert (m mod 2 ^ Z.of_nat k = 0 /\ mk mod 2 = 0) as [H1 H2].
      { pose proof (Z.div_mod m (2 ^ Z.of_nat k) ltac:(lia)) as E1.
        pose proof (Z.div_mod m (2 * 2 ^ Z.of_nat k) ltac:(lia)) as E2.
        pose proof (Z.mod_pos_bound m (2 ^ Z.of_nat k) ltac:(lia)).
        pose proof (Z.div_mod mk 2 ltac:(lia)) as E3.
        pose proof (Z.mod_pos_bound mk 2 ltac:(lia)).
        rewrite Hmod, Hdiv in E2. rewrite <- IHm in E1. nia. }
      destruct (IHrs H1) as [-> ->].
      destruct mk as [|[q|q|]|[q|q|]]; simpl; try done;
        try (rewrite Zmod_odd in H2; simpl in H2; lia);
        try (pose proof (Z.div_pos m (2 ^ Z.of_nat k)); lia).
Qed.

Lemma fexp_spec x : fexp prec emax x = Z.max (x - 53) (-1074).
Proof. reflexivity. Qed.

Lemma digits2_pos_le (m : positive) (d : Z) :
  Z.pos m < 2 ^ d -> 0 <= d -> Z.pos (digits2_pos m) <= d.
Proof.
  intros Hm Hd. pose proof (digits2_pos_bounds m) as [Hlo _].
  destruct (Z_le_gt_dec (Z.pos (digits2_pos m)) d) as [|Hgt]; [done|].
  assert (2 ^ d <= 2 ^ (Z.pos (digits2_pos m) - 1)); [|lia].
  apply Z.pow_le_mono_r; lia.
Qed.

(** The first shift of [binary_round_aux]: by [p] bits, down to the exponent
    of the format. *)
Lemma shr_fexp_first (m : positive) (e : Z) :
  let p := fexp prec emax (Z.pos (digits2_pos m) + e) - e in
  0 <= p ->
  exists mrs,
    shr_fexp prec emax (Z.pos m) e loc_Exact = (mrs, e + p) /\
    shr_m mrs = Z.pos m / 2 ^ p /\
    (Z.pos m mod 2 ^ p = 0 -> shr_r mrs = false /\ shr_s mrs = false).
Proof.
  intros p Hp. unfold shr_fexp. simpl Zdigits2. fold p.
  simpl shr_record_of_loc. unfold shr.
  destruct p as [|q|q] eqn:E; [| |lia].
  - eexists. split; [by rewrite Z.add_0_r|]. simpl. rewrite Z.div_1_r.
    split; [done|auto].
  - eexists. split; [done|]. rewrite iter_pos_nat.
    pose proof (shr_iter (Z.pos m) (Pos.to_nat q) ltac:(lia)) as H.
    cbv zeta in H. by rewrite positive_nat_Z in H.
Qed.

Lemma round_nearest_even_cases mrs :
  let m'' := round_nearest_even (shr_m mrs) (loc_of_shr_record mrs) in
  m'' = shr_m mrs \/
  (m'' = shr_m mrs + 1 /\ ~ (shr_r mrs = false /\ shr_s mrs = false)).
Proof.
  destruct mrs as [m' [|] [|]]; simpl; try (by left); try (right; split; [done|]; by intros []).
  destruct (Z.even m'); [by left|]. right. split; [done|]. by intros [].
Qed.

(** The second shift: by one bit when rounding up has carried into a 54th
    bit, by none otherwise. *)
Lemma shr_fexp_second (m'' e' : Z) :
  0 <= m'' <= 2 ^ 53 -> -1074 <= e' ->
  shr_fexp prec emax m'' e' loc_Exact
  = if m'' <? 2 ^ 53 then (Build_shr_record m'' false false, e')
    else (Build_shr_record (2 ^ 52) false false, e' + 1).
Proof.
  intros Hm He. unfold shr_fexp. simpl shr_record_of_loc.
  destruct (m'' <? 2 ^ 53) eqn:E.
  - apply Z.ltb_lt in E.
    assert (fexp prec emax (Zdigits2 m'' + e') - e' <= 0) as Hn.
    { rewrite fexp_spec. destruct m'' as [|q|q]; [simpl; lia| |lia].
      simpl Zdigits2. pose proof (digits2_pos_le q 53 E). lia. }
    unfold shr. by destruct (fexp prec emax (Zdigits2 m'' + e') - e').
  - apply Z.ltb_ge in E. assert (m'' = 2 ^ 53) as -> by lia.
    change (Zdigits2 (2 ^ 53)) with 54. rewrite fexp_spec.
    replace (Z.max (54 + e' - 53) (-1074) - e') with 1 by lia. reflexivity.
Qed.

(** What [binary_round_aux] returns for a positive mantissa that needs no
    left shift: the mantissa shifted to the exponent of the format and rounded
    to [m''], renormalised when it has reached [2^53]. *)
Lemma binary_round_aux_char (m : positive) (e : Z) :
  let p := fexp prec emax (Z.pos (digits2_pos m) + e) - e in
  0 <= p ->
  exists m'' : Z,
    (m'' = Z.pos m / 2 ^ p \/
     (m'' = Z.pos m / 2 ^ p + 1 /\ Z.pos m mod 2 ^ p <> 0)) /\
    0 <= m'' <= 2 ^ 53 /\
    binary_round_aux prec emax false (Z.pos m) e loc_Exact
    = if m'' =? 0 then S754_zero false
      else if m'' <? 2 ^ 53
           then (if e + p <=? 971 then S754_finite false (Z.to_pos m'') (e + p)
                 else S754_infinity false)
           else (if e + p + 1 <=? 971 then S754_finite false (2 ^ 52)%positive (e + p + 1)
                 else S754_infinity false).
Proof.
  intros p Hp.
  destruct (shr_fexp_first m e Hp) as (mrs & Hshr & Hm' & Hexact). fold p in Hshr, Hm', Hexact.
  pose proof (round_nearest_even_cases mrs) as Hrne. cbv zeta in Hrne.
  set (m'' := round_nearest_even (shr_m mrs) (loc_of_shr_record mrs)) in *.
  assert (0 < 2 ^ p) as Hpow by (by apply Z.pow_pos_nonneg).
  assert (0 <= Z.pos m / 2 ^ p < 2 ^ 53) as Hq.
  { split; [apply Z.div_pos; lia|]. apply Z.div_lt_upper_bound; [done|].
    rewrite <- Z.pow_add_r by lia.
    pose proof (digits2_pos_bounds m) as [_ Hhi].
    eapply Z.lt_le_trans; [exact Hhi|]. apply Z.pow_le_mono_r; [lia|].
    unfold p. rewrite fexp_spec. lia. }
  exists m''. split; [|split].
  - destruct Hrne as [->|[-> Hne]]; [by left|right]. split; [by rewrite Hm'|].
    intros H. by apply Hne, Hexact.
  - destruct Hrne as [->|[-> _]]; rewrite Hm'; lia.
  - unfold binary_round_aux. rewrite Hshr. fold m''.
    rewrite shr_fexp_second; cycle 1.
    { destruct Hrne as [->|[-> _]]; rewrite Hm'; lia. }
    { unfold p. rewrite fexp_spec. lia. }
    destruct (m'' <? 2 ^ 53) eqn:E; simpl shr_m.
    + destruct m'' as [|q|q]; [done| |lia]. simpl. reflexivity.
    + apply Z.ltb_ge in E. destruct (m'' =? 0) eqn:E0; [apply Z.eqb_eq in E0; lia|].
      reflexivity.
Qed.

Lemma digits2_pos_gt (m : positive) (k : Z) :
  2 ^ k <= Z.pos m -> 0 <= k -> k < Z.pos (digits2_pos m).
Proof.
  intros Hm Hk. pose proof (digits2_pos_bounds m) as [_ Hhi].
  apply (Z.pow_lt_mono_r_iff 2); lia.
Qed.

(** A smaller value has no more bits above the binary point. *)
Lemma scaled_le_magnitude m1 e1 m2 e2 :
  -1200 <= e1 -> -1200 <= e2 -> scaled m1 e1 <= scaled m2 e2 ->
  Z.pos (digits2_pos m1) + e1 <= Z.pos (digits2_pos m2) + e2.
Proof.
  unfold scaled. intros H1 H2 Hle.
  pose proof (digits2_pos_bounds m1) as [Hlo _].
  pose proof (digits2_pos_bounds m2) as [_ Hhi].
  assert (2 ^ (Z.pos (digits2_pos m1) - 1 + (e1 + 1200))
          < 2 ^ (Z.pos (digits2_pos m2) + (e2 + 1200))) as Hlt.
  { rewrite (Z.pow_add_r 2 (Z.pos (digits2_pos m1) - 1)) by lia.
    rewrite (Z.pow_add_r 2 (Z.pos (digits2_pos m2))) by lia.
    assert (0 < 2 ^ (e1 + 1200)) by (apply Z.pow_pos_nonneg; lia).
    assert (0 < 2 ^ (e2 + 1200)) by (apply Z.pow_pos_nonneg; lia).
    eapply Z.le_lt_trans; [apply Z.mul_le_mono_nonneg_r; [lia|exact Hlo]|].
    eapply Z.le_lt_trans; [exact Hle|].
    apply Zmult_lt_compat_r; lia. }
  apply Z.pow_lt_mono_r_iff in Hlt; lia.
Qed.

(** What validity says of a finite double. *)
Lemma bounded_spec m e :
  bounded prec emax m e = true ->
  fexp prec emax (Z.pos (digits2_pos m) + e) = e /\ -1074 <= e <= 971 /\
  Z.pos m < 2 ^ 53.
Proof.
  unfold bounded, canonical_mantissa. rewrite andb_true_iff, Z.eqb_eq, Z.leb_le.
  change (emax - prec) with 971. intros [Hc He]. split; [done|].
  rewrite fexp_spec in Hc. split; [lia|].
  pose proof (digits2_pos_bounds m) as [_ Hhi].
  eapply Z.lt_le_trans; [exact Hhi|]. apply Z.pow_le_mono_r; lia.
Qed.

Lemma SFleb_finite m1 e1 m2 e2 :
  e1 < e2 \/ (e1 = e2 /\ Z.pos m1 <= Z.pos m2) ->
  SFleb (S754_finite false m1 e1) (S754_finite false m2 e2) = true.
Proof.
  unfold SFleb, SFcompare. intros [Hlt|[-> Hle]].
  - by rewrite (proj2 (Z.compare_lt_iff e1 e2) Hlt).
  - rewrite Z.compare_refl. change (Pos.compare_cont Eq m1 m2) with (m1 ?= m2)%positive.
    destruct (Pos.compare_spec m1 m2); try done. lia.
Qed.

(** Rounding does not pass a double that is at or above the exact value. *)
Lemma binary_round_aux_le (m : positive) (e : Z) (mz : positive) (ez : Z) :
  -1200 <= e ->
  0 <= fexp prec emax (Z.pos (digits2_pos m) + e) - e ->
  bounded prec emax mz ez = true ->
  scaled m e <= scaled mz ez ->
  SFleb (binary_round_aux prec emax false (Z.pos m) e loc_Exact)
        (S754_finite false mz ez) = true.
Proof.
  intros He Hp Hz Hle.
  destruct (bounded_spec _ _ Hz) as (Hcz & Hez & Hmz).
  pose proof (scaled_le_magnitude m e mz ez He ltac:(lia) Hle) as Hmag.
  destruct (binary_round_aux_char m e Hp) as (m'' & Hm'' & Hrange & ->).
  set (p := fexp prec emax (Z.pos (digits2_pos m) + e) - e) in *.
  assert (e + p <= ez) as He'.
  { unfold p. rewrite fexp_spec in *. lia. }
  assert (0 < 2 ^ p) as Hpow by (by apply Z.pow_pos_nonneg).
  set (G := Z.pos mz * 2 ^ (ez - (e + p))).
  assert (Z.pos m <= G * 2 ^ p) as HG.
  { unfold scaled in Hle. unfold G.
    replace (ez + 1200) with ((ez - (e + p)) + p + (e + 1200)) in Hle by lia.
    rewrite (Z.pow_add_r 2 (ez - (e + p) + p)) in Hle by lia.
    rewrite (Z.pow_add_r 2 (ez - (e + p))) in Hle by lia.
    assert (0 < 2 ^ (e + 1200)) by (apply Z.pow_pos_nonneg; lia).
    apply (Z.mul_le_mono_pos_r _ _ (2 ^ (e + 1200))); lia. }
  assert (m'' <= G) as Hm''G.
  { assert (Z.pos m / 2 ^ p <= G) as Hq.
    { apply Z.div_le_upper_bound; [done|]. lia. }
    destruct Hm'' as [->|[-> Hmod]]; [done|].
    assert (Z.pos m / 2 ^ p <> G); [|lia]. intros E.
    pose proof (Z.div_mod (Z.pos m) (2 ^ p) ltac:(lia)) as Hdm.
    pose proof (Z.mod_pos_bound (Z.pos m) (2 ^ p) Hpow). rewrite E in Hdm. nia. }
  destruct (m'' =? 0) eqn:E0; [done|]. apply Z.eqb_neq in E0.
  destruct (m'' <? 2 ^ 53) eqn:E53.
  - apply Z.ltb_lt in E53. rewrite (proj2 (Z.leb_le _ _)) by lia.
    apply SFleb_finite. rewrite Z2Pos.id by lia.
    destruct (Z.eq_dec (e + p) ez) as [E|E]; [right|left; lia].
    split; [done|]. unfold G in Hm''G. rewrite E, Z.sub_diag in Hm''G. simpl in Hm''G. lia.
  - apply Z.ltb_ge in E53.
    assert (e + p + 1 <= ez) as Hcarry.
    { destruct (Z.eq_dec (e + p) ez) as [E|E]; [|lia].
      unfold G in Hm''G. rewrite E, Z.sub_diag in Hm''G. simpl in Hm''G. lia. }
    rewrite (proj2 (Z.leb_le _ _)) by lia.
    apply SFleb_finite.
    destruct (Z.eq_dec (e + p + 1) ez) as [E|E]; [right|left; lia].
    split; [done|]. unfold G in Hm''G.
    replace (ez - (e + p)) with 1 in Hm''G by lia. change (2 ^ 1) with 2 in Hm''G.
    change (Z.pos (2 ^ 52)) with (2 ^ 52). change (2 ^ 53) with (2 * 2 ^ 52) in E53. lia.
Qed.

(** Rounding does not fall below a double that is at or below the exact
    value. *)
Lemma binary_round_aux_ge (m : positive) (e : Z) (mz : positive) (ez : Z) :
  -1200 <= e ->
  0 <= fexp prec emax (Z.pos (digits2_pos m) + e) - e ->
  bounded prec emax mz ez = true ->
  scaled mz ez <= scaled m e ->
  SFleb (S754_finite false mz ez)
        (binary_round_aux prec emax false (Z.pos m) e loc_Exact) = true.
Proof.
  intros He Hp Hz Hle.
  destruct (bounded_spec _ _ Hz) as (Hcz & Hez & Hmz).
  pose proof (scaled_le_magnitude mz ez m e ltac:(lia) He Hle) as Hmag.
  destruct (binary_round_aux_char m e Hp) as (m'' & Hm'' & Hrange & ->).
  set (p := fexp prec emax (Z.pos (digits2_pos m) + e) - e) in *.
  assert (ez <= e + p) as He'.
  { unfold p. rewrite fexp_spec in *. lia. }
  assert (0 < 2 ^ p) as Hpow by (by apply Z.pow_pos_nonneg).
  assert (Z.pos m / 2 ^ p <= m'') as Hlow by (destruct Hm'' as [->|[-> _]]; lia).
  assert (1 <= m'' /\ (ez = e + p -> Z.pos mz <= m'')) as [Hpos Hsame].
  { split.
    - destruct (Z.eq_dec ez (e + p)) as [E|E].
      + assert (Z.pos mz <= Z.pos m / 2 ^ p); [|lia].
        apply Z.div_le_lower_bound; [done|]. unfold scaled in Hle.
        replace (ez + 1200) with (p + (e + 1200)) in Hle by lia.
        rewrite Z.pow_add_r in Hle by lia.
        assert (0 < 2 ^ (e + 1200)) by (apply Z.pow_pos_nonneg; lia). nia.
      + assert (p = Z.pos (digits2_pos m) - 53) as Ep.
        { unfold p in *. rewrite fexp_spec in *. lia. }
        assert (2 ^ 52 <= Z.pos m / 2 ^ p); [|lia].
        apply Z.div_le_lower_bound; [done|]. rewrite Z.mul_comm, <- Z.pow_add_r by lia.
        pose proof (digits2_pos_bounds m) as [Hlo _].
        replace (52 + p) with (Z.pos (digits2_pos m) - 1) by lia. done.
    - intros E. assert (Z.pos mz <= Z.pos m / 2 ^ p); [|lia].
      apply Z.div_le_lower_bound; [done|]. unfold scaled in Hle.
      replace (ez + 1200) with (p + (e + 1200)) in Hle by lia.
      rewrite Z.pow_add_r in Hle by lia.
      assert (0 < 2 ^ (e + 1200)) by (apply Z.pow_pos_nonneg; lia). nia. }
  destruct (m'' =? 0) eqn:E0; [apply Z.eqb_eq in E0; lia|].
  destruct (m'' <? 2 ^ 53) eqn:E53.
  - destruct (e + p <=? 971); [|done].
    apply SFleb_finite. rewrite Z2Pos.id by lia.
    destruct (Z.eq_dec ez (e + p)) as [E|E]; [right; auto|left; lia].
  - destruct (e + p + 1 <=? 971); [|done].
    apply SFleb_finite. left. lia.
Qed.

(** A valid double rounds to itself. *)
Lemma binary_round_aux_id (m : positive) (e : Z) :
  bounded prec emax m e = true ->
  binary_round_aux prec emax false (Z.pos m) e loc_Exact = S754_finite false m e.
Proof.
  intros Hb. destruct (bounded_spec _ _ Hb) as (Hc & He & Hm).
  assert (fexp prec emax (Z.pos (digits2_pos m) + e) - e = 0) as Hp by lia.
  destruct (binary_round_aux_char m e ltac:(lia)) as (m'' & Hm'' & _ & ->).
  rewrite Hp in *. change (2 ^ 0) with 1 in Hm''.
  rewrite Z.div_1_r, Z.mod_1_r in Hm''.
  assert (m'' = Z.pos m) as -> by (destruct Hm'' as [->|[_ ?]]; done).
  simpl (_ =? 0). rewrite (proj2 (Z.ltb_lt _ _) Hm), Z.add_0_r.
  by rewrite (proj2 (Z.leb_le _ _)) by lia.
Qed.

(** Valid doubles compare as their values do. *)
Lemma SFleb_scaled m1 e1 m2 e2 :
  bounded prec emax m1 e1 = true -> bounded prec emax m2 e2 = true ->
  scaled m1 e1 <= scaled m2 e2 ->
  SFleb (S754_finite false m1 e1) (S754_finite false m2 e2) = true.
Proof.
  intros H1 H2 Hle. rewrite <- (binary_round_aux_id m1 e1 H1).
  destruct (bounded_spec _ _ H1) as (Hc & He & _).
  apply binary_round_aux_le; [lia|lia|done|done].
Qed.

Lemma Pos_iter_xO (m d : positive) :
  Z.pos (Pos.iter xO m d) = Z.pos m * 2 ^ Z.pos d.
Proof.
  induction d as [|d IH] using Pos.peano_ind.
  - simpl. lia.
  - rewrite Pos.iter_succ, Pos2Z.inj_xO, IH, Pos2Z.inj_succ, Z.pow_succ_r by lia. lia.
Qed.

Lemma digits2_pos_unique (m : positive) (k : Z) :
  2 ^ (k - 1) <= Z.pos m < 2 ^ k -> 1 <= k -> Z.pos (digits2_pos m) = k.
Proof.
  intros [Hlo Hhi] Hk.
  pose proof (digits2_pos_le m k Hhi ltac:(lia)).
  pose proof (digits2_pos_gt m (k - 1) Hlo ltac:(lia)). lia.
Qed.

(** The left shift that [binary_round] performs first keeps the value and
    leaves a mantissa that [binary_round_aux] need only shift right. *)
Lemma shl_align_fexp_spec (m : positive) (e : Z) :
  -1200 <= e ->
  exists m1 e1,
    shl_align m e (fexp prec emax (Z.pos (digits2_pos m) + e)) = (m1, e1) /\
    scaled m1 e1 = scaled m e /\ -1200 <= e1 /\
    0 <= fexp prec emax (Z.pos (digits2_pos m1) + e1) - e1.
Proof.
  intros He. unfold shl_align.
  set (e' := fexp prec emax (Z.pos (digits2_pos m) + e)).
  assert (e' = Z.max (Z.pos (digits2_pos m) + e - 53) (-1074)) as He' by apply fexp_spec.
  destruct (e' - e) as [|d|d] eqn:E.
  - exists m, e. repeat split; try done. fold e'. lia.
  - exists m, e. repeat split; try done. fold e'. lia.
  - exists (Pos.iter xO m d), e'.
    assert (Z.pos d = e - e') as Hd by lia.
    assert (0 < 2 ^ Z.pos d) as Hpow by (apply Z.pow_pos_nonneg; lia).
    assert (Z.pos (digits2_pos (Pos.iter xO m d)) = Z.pos (digits2_pos m) + Z.pos d) as HD.
    { pose proof (digits2_pos_bounds m) as [Hlo Hhi].
      apply digits2_pos_unique; [|lia]. rewrite Pos_iter_xO.
      replace (Z.pos (digits2_pos m) + Z.pos d - 1)
        with (Z.pos (digits2_pos m) - 1 + Z.pos d) by lia.
      rewrite !Z.pow_add_r by lia. split.
      - apply Z.mul_le_mono_nonneg_r; lia.
      - apply Zmult_lt_compat_r; lia. }
    repeat split; try done.
    + unfold scaled. rewrite Pos_iter_xO.
      replace (e + 1200) with (Z.pos d + (e' + 1200)) by lia.
      rewrite (Z.pow_add_r 2 (Z.pos d)) by lia. lia.
    + lia.
    + rewrite HD. replace (Z.pos (digits2_pos m) + Z.pos d + e')
        with (Z.pos (digits2_pos m) + e) by lia. fold e'. lia.
Qed.

Lemma binary_round_le (m : positive) (e : Z) (mz : positive) (ez : Z) :
  -1200 <= e -> bounded prec emax mz ez = true ->
  scaled m e <= scaled mz ez ->
  SFleb (binary_round prec emax false m e) (S754_finite false mz ez) = true.
Proof.
  intros He Hz Hle. unfold binary_round.
  destruct (shl_align_fexp_spec m e He) as (m1 & e1 & -> & Hv & He1 & Hp).
  apply binary_round_aux_le; try done. by rewrite Hv.
Qed.

Lemma binary_round_ge (m : positive) (e : Z) (mz : positive) (ez : Z) :
  -1200 <= e -> bounded prec emax mz ez = true ->
  scaled mz ez <= scaled m e ->
  SFleb (S754_finite false mz ez) (binary_round prec emax false m e) = true.
Proof.
  intros He Hz Hle. unfold binary_round.
  destruct (shl_align_fexp_spec m e He) as (m1 & e1 & -> & Hv & He1 & Hp).
  apply binary_round_aux_ge; try done. by rewrite Hv.
Qed.

(** An integer below [2^53] converts to the double of that value. *)
Lemma binary_normalize_exact (n : Z) :
  0 < n < 2 ^ 53 ->
  exists m e,
    binary_normalize prec emax n 0 false = S754_finite false m e /\
    bounded prec emax m e = true /\ scaled m e = n * 2 ^ 1200.
Proof.
  intros Hn. destruct n as [|q|q]; [lia| |lia]. simpl binary_normalize.
  unfold binary_round.
  destruct (shl_align_fexp_spec q 0 ltac:(lia)) as (m1 & e1 & Hsh & Hv & He1 & Hp).
  rewrite Hsh.
  assert (bounded prec emax m1 e1 = true) as Hb.
  { unfold shl_align in Hsh. rewrite fexp_spec in Hsh.
    pose proof (digits2_pos_le q 53 ltac:(lia) ltac:(lia)) as HD.
    pose proof (digits2_pos_bounds q) as [Hlo Hhi].
    unfold bounded, canonical_mantissa. rewrite andb_true_iff, Z.eqb_eq, Z.leb_le.
    change (emax - prec) with 971. rewrite fexp_spec.
    replace (Z.max (Z.pos (digits2_pos q) + 0 - 53) (-1074))
      with (Z.pos (digits2_pos q) - 53) in Hsh by lia.
    destruct (Z.pos (digits2_pos q) - 53 - 0) as [|d|d] eqn:E.
    - injection Hsh as <- <-. lia.
    - lia.
    - injection Hsh as <- <-.
      assert (Z.pos (digits2_pos (Pos.iter xO q d)) = 53); [|lia].
      apply digits2_pos_unique; [|lia]. rewrite Pos_iter_xO.
      assert (Z.pos d = 53 - Z.pos (digits2_pos q)) as Hd by lia.
      assert (0 < 2 ^ Z.pos d) by (apply Z.pow_pos_nonneg; lia).
      assert (2 ^ (53 - 1) = 2 ^ (Z.pos (digits2_pos q) - 1) * 2 ^ Z.pos d) as ->.
      { rewrite <- Z.pow_add_r by lia. f_equal. lia. }
      assert (2 ^ 53 = 2 ^ Z.pos (digits2_pos q) * 2 ^ Z.pos d) as ->.
      { rewrite <- Z.pow_add_r by lia. f_equal. lia. }
      split.
      + apply Z.mul_le_mono_nonneg_r; lia.
      + apply Zmult_lt_compat_r; lia. }
  exists m1, e1. rewrite binary_round_aux_id by done. by repeat split.
Qed.

Lemma SFleb_scaled_inv m1 e1 m2 e2 :
  bounded prec emax m1 e1 = true -> bounded prec emax m2 e2 = true ->
  SFleb (S754_finite false m1 e1) (S754_finite false m2 e2) = true ->
  scaled m1 e1 <= scaled m2 e2.
Proof.
  intros H1 H2 Hle.
  destruct (Z_le_gt_dec (scaled m1 e1) (scaled m2 e2)) as [|Hgt]; [done|].
  pose proof (SFleb_scaled m2 e2 m1 e1 H2 H1 ltac:(lia)) as Hge.
  unfold SFleb, SFcompare in Hle, Hge.
  change (Pos.compare_cont Eq m1 m2) with (m1 ?= m2)%positive in Hle.
  change (Pos.compare_cont Eq m2 m1) with (m2 ?= m1)%positive in Hge.
  destruct (Z.compare_spec e1 e2) as [->|Hlt|Hlt'].
  - rewrite Z.compare_refl in Hge.
    destruct (Pos.compare_spec m1 m2) as [->|?|?]; try done; try lia.
    destruct (Pos.compare_spec m2 m1) as [->|?|?]; try done; lia.
  - rewrite (proj2 (Z.compare_gt_iff e2 e1)) in Hge by lia. done.
  - done.
Qed.

Lemma SFltb_finite m1 e1 m2 e2 :
  SFltb (S754_finite false m1 e1) (S754_finite false m2 e2) = true ->
  e1 < e2 \/ (e1 = e2 /\ Z.pos m1 < Z.pos m2).
Proof.
  unfold SFltb, SFcompare.
  change (Pos.compare_cont Eq m1 m2) with (m1 ?= m2)%positive.
  destruct (Z.compare_spec e1 e2) as [->|?|?]; [|by left|done].
  destruct (Pos.compare_spec m1 m2); try done. by right.
Qed.

(** [52 * u] does not exceed 52 when [u] is below 1. *)
Lemma mul_52_le (u : float) :
  (0 <=? u)%float = true -> (u <? 1)%float = true ->
  SFleb (Prim2SF (52 * u)%float) (Prim2SF 52) = true.
Proof.
  rewrite leb_spec, ltb_spec, mul_spec.
  change (Prim2SF 0) with (S754_zero false).
  change (Prim2SF 1) with (S754_finite false 4503599627370496 (-52)).
  change (Prim2SF 52) with (S754_finite false 7318349394477056 (-47)).
  pose proof (Prim2SF_valid u) as Hv.
  destruct (Prim2SF u) as [s|[|]| |[|] mu eu]; try done.
  intros _ Hlt. simpl in Hv. destruct (bounded_spec _ _ Hv) as (Hc & He & Hm).
  unfold SF64mul, SFmul. simpl xorb.
  pose proof (digits2_pos_bounds mu) as [Hlo Hhi].
  assert (Z.pos mu <= 2 ^ (- eu) /\ eu <= -52) as [Hmu Heu].
  { destruct (SFltb_finite _ _ _ _ Hlt) as [Hlt'|[-> Hm']]; (split; [|lia]).
    - assert (2 ^ 53 <= 2 ^ (- eu)) by (apply Z.pow_le_mono_r; lia). lia.
    - change (2 ^ (- (-52))) with 4503599627370496. lia. }
  apply binary_round_aux_le.
  - lia.
  - assert (Z.pos (digits2_pos mu) + 51 < Z.pos (digits2_pos (7318349394477056 * mu))).
    { apply digits2_pos_gt; [|lia]. rewrite Pos2Z.inj_mul.
      replace (Z.pos (digits2_pos mu) + 51) with (52 + (Z.pos (digits2_pos mu) - 1)) by lia.
      rewrite Z.pow_add_r by lia. apply Z.mul_le_mono_nonneg; lia. }
    rewrite fexp_spec. lia.
  - reflexivity.
  - unfold scaled. rewrite Pos2Z.inj_mul.
    replace (-47 + 1200) with ((-47 + eu + 1200) + (- eu)) by lia.
    rewrite (Z.pow_add_r 2 (-47 + eu + 1200)) by lia.
    assert (0 < 2 ^ (-47 + eu + 1200)) by (apply Z.pow_pos_nonneg; lia).
    rewrite <- Z.mul_assoc. apply Z.mul_le_mono_nonneg_l; [lia|].
    rewrite (Z.mul_comm (Z.pos mu)). apply Z.mul_le_mono_nonneg_l; lia.
Qed.

(** [random.uniform(0, 52)] for a draw in [0, 1): zero, or a positive double
    of value at most 52. *)
Lemma uniform_52_window (u : float) :
  (0 <=? u)%float = true -> (u <? 1)%float = true ->
  Prim2SF (uniform 0 52 u) = S754_zero false \/
  exists m e, Prim2SF (uniform 0 52 u) = S754_finite false m e /\
              bounded prec emax m e = true /\ scaled m e <= 52 * 2 ^ 1200.
Proof.
  intros H0 H1. pose proof (mul_52_le u H0 H1) as Hle.
  pose proof (Prim2SF_valid (52 * u)%float) as Hv.
  assert (not_below_zero (Prim2SF (52 * u)%float) = true) as Hs.
  { rewrite mul_spec. apply SFmul_not_below_zero; [done|].
    by apply leb_zero_not_below_zero. }
  unfold uniform. change (52 - 0)%float with 52%float.
  rewrite add_spec. change (Prim2SF 0) with (S754_zero false).
  change (Prim2SF 52) with (S754_finite false 7318349394477056 (-47)) in Hle.
  destruct (Prim2SF (52 * u)%float) as [[|]|[|]| |[|] m e]; try done; try (by left).
  right. exists m, e. split; [done|]. split; [done|].
  by apply (SFleb_scaled_inv m e 7318349394477056 (-47)).
Qed.

Lemma shl_align_scaled (m : positive) (e ez : Z) :
  ez <= e -> -1200 <= ez ->
  scaled (fst (shl_align m e ez)) ez = scaled m e.
Proof.
  intros Hle Hez. unfold shl_align, scaled.
  destruct (ez - e) as [|d|d] eqn:Hd; simpl fst; [|lia|].
  - by replace ez with e by lia.
  - rewrite Pos_iter_xO. replace (e + 1200) with (Z.pos d + (ez + 1200)) by lia.
    rewrite (Z.pow_add_r 2 (Z.pos d)) by lia. lia.
Qed.

(** An [int] below [2^53] is embedded exactly. *)
Lemma float_of_int_exact (n : Z) :
  0 <= n < 2 ^ 53 ->
  (n = 0 /\ Prim2SF (float_of_int n) = S754_zero false) \/
  exists m e, Prim2SF (float_of_int n) = S754_finite false m e /\
              bounded prec emax m e = true /\ scaled m e = n * 2 ^ 1200.
Proof.
  intros Hn. unfold float_of_int.
  rewrite (proj2 (Z.ltb_ge n 0)) by lia.
  rewrite of_uint63_spec, Uint63.of_Z_spec.
  rewrite Z.mod_small.
  2:{ split; [lia|]. change Uint63Axioms.wB with (2 ^ 63).
      assert (2 ^ 53 < 2 ^ 63) by (by apply Z.pow_lt_mono_r). lia. }
  destruct (Z.eq_dec n 0) as [->|Hne]; [by left|].
  right. apply binary_normalize_exact. lia.
Qed.

(** The sum of two positive doubles lies between what bounds both. *)
Lemma SFadd_finite_window (m1 : positive) (e1 : Z) (m2 : positive) (e2 : Z)
    (ml : positive) (el : Z) (mh : positive) (eh : Z) :
  bounded prec emax m1 e1 = true -> bounded prec emax m2 e2 = true ->
  bounded prec emax ml el = true -> bounded prec emax mh eh = true ->
  scaled ml el <= scaled m1 e1 + scaled m2 e2 <= scaled mh eh ->
  let s := SF64add (S754_finite false m1 e1) (S754_finite false m2 e2) in
  SFleb (S754_finite false ml el) s = true /\
  SFleb s (S754_finite false mh eh) = true.
Proof.
  intros H1 H2 Hl Hh Hv. unfold SF64add, SFadd. cbv zeta.
  destruct (bounded_spec _ _ H1) as (_ & He1 & _).
  destruct (bounded_spec _ _ H2) as (_ & He2 & _).
  set (ez := Z.min e1 e2).
  assert (ez <= e1 /\ ez <= e2 /\ -1200 <= ez) as (Hz1 & Hz2 & Hz) by (subst ez; lia).
  pose proof (shl_align_scaled m1 e1 ez Hz1 Hz) as Hs1.
  pose proof (shl_align_scaled m2 e2 ez Hz2 Hz) as Hs2.
  simpl cond_Zopp.
  change (Z.pos (fst (shl_align m1 e1 ez)) + Z.pos (fst (shl_align m2 e2 ez)))
    with (Z.pos (fst (shl_align m1 e1 ez) + fst (shl_align m2 e2 ez))).
  simpl binary_normalize.
  assert (scaled (fst (shl_align m1 e1 ez) + fst (shl_align m2 e2 ez)) ez
          = scaled m1 e1 + scaled m2 e2) as Hsum.
  { rewrite <- Hs1, <- Hs2. unfold scaled. rewrite Pos2Z.inj_add. lia. }
  split.
  - apply binary_round_ge; [done|done|]. rewrite Hsum. lia.
  - apply binary_round_le; [done|done|]. rewrite Hsum. lia.
Qed.

(** The arrival time of a cohort: [n + random.uniform(0, 52)] lies in the
    closed window from [n] to [n + 52]. *)
Lemma cohort_window (n : Z) (u : float) :
  0 <= n -> n + 52 < 2 ^ 53 ->
  (0 <=? u)%float = true -> (u <? 1)%float = true ->
  (float_of_int n <=? float_of_int n + uniform 0 52 u)%float = true /\
  (float_of_int n + uniform 0 52 u <=? float_of_int (n + 52))%float = true.
Proof.
  intros Hn Hn' H0 H1. rewrite !leb_spec, add_spec.
  destruct (float_of_int_exact (n + 52) ltac:(lia))
    as [[? _]|(mh & eh & -> & Hbh & Hvh)]; [lia|].
  destruct (float_of_int_exact n ltac:(lia))
    as [[-> ->]|(ml & el & -> & Hbl & Hvl)];
    destruct (uniform_52_window u H0 H1) as [->|(mw & ew & -> & Hbw & Hvw)].
  - done.
  - split; [done|]. simpl SF64add. apply SFleb_scaled; [done|done|lia].
  - simpl SF64add. split; apply SFleb_scaled; try done; lia.
  - apply SFadd_finite_window; try done.
    assert (0 <= scaled mw ew)
      by (unfold scaled; apply Z.mul_nonneg_nonneg; [lia|apply Z.pow_nonneg; lia]).
    lia.
Qed.

(** ** Arrival times of the cohort script *)

(** C8 as amended.  In a run of simpy6 that returns, with fewer than [2^52]
    assets and draws in [[0, 1)] (as those of [random.random()] are), the
    [asset_init_time] of every row is the double
    [year * 52 + random.uniform(0, 52)], with [year = (asset_id - 1) // 50]
    and [random.uniform(0, 52)] computed as [0 + (52 - 0) * u] from one of the
    draws [u] of the generator; it is not below [year * 52] and not above
    [(year + 1) * 52], both ends included. *)
Theorem cohort_arrival_time
    (phases : list phase) (draw : nat -> float) (pos : nat)
    (num_assets replication_id : Z) (pos' : nat)
    (res : gmap Z (gmap string phase_result)) (recs : list record) :
  (forall k, (0 <=? draw k)%float = true /\ (draw k <? 1)%float = true) ->
  num_assets < 2 ^ 52 ->
  Simpy6.run_simulation_on phases draw pos num_assets replication_id
  = Returns (pos', (replication_id, res, recs)) ->
  forall r, r ∈ recs ->
    (exists k,
       asset_init_time r
       = (float_of_int (Simpy6.year_of (asset_id r) * 52)
          + uniform 0 52 (draw k))%float) /\
    (float_of_int (Simpy6.year_of (asset_id r) * 52) <=? asset_init_time r)%float
    = true /\
    (asset_init_time r <=? float_of_int ((Simpy6.year_of (asset_id r) + 1) * 52))%float
    = true.
Proof.
  intros Hdraw Hn. unfold Simpy6.run_simulation_on.
  destruct (run_simulation _ _ _ _ _ _) as [[[p rs] rc]|x|] eqn:Hret; try done.
  intros [= -> -> ->] r Hr.
  assert (r ∈ rows_of (asset_id r) recs) as [k Hk]%list_elem_of_lookup
    by by apply rows_of_elem.
  destruct (returned_row _ _ _ _ _ _ _ _ _ Hret _ _ _ Hk)
    as (s & ph & o & _ & E & _ & [Ha1 Ha2] & f & j & Hf & ->).
  injection Hf as <-.
  assert (asset_init_time r
          = (float_of_int (Simpy6.year_of (asset_id r) * 52)
             + uniform 0 52 (draw j))%float) as Einit
    by (rewrite E at 1; reflexivity).
  split; [by exists j|]. rewrite Einit.
  unfold Simpy6.year_of, Simpy6.ASSETS_PER_YEAR.
  pose proof (Z.div_pos (asset_id r - 1) 50 ltac:(lia) ltac:(lia)) as Hy0.
  pose proof (Z.mul_div_le (asset_id r - 1) 50 ltac:(lia)) as Hy1.
  replace (((asset_id r - 1) `div` 50 + 1) * 52)
    with ((asset_id r - 1) `div` 50 * 52 + 52) by lia.
  destruct (Hdraw j) as [H0 H1].
  assert (2 ^ 53 = 2 * 2 ^ 52) as Hpow by reflexivity.
  apply cohort_window; [lia|lia|done|done].
Qed.

(** C8 fails on the code: with the draw [1 - 2^-53], asset 51 (year 1, window
    from 52 to 104) has [asset_init_time] 104, the start of the next year. *)
Lemma cohort_arrival_reaches_next_year :
  (0 <=? largest_draw)%float = true /\ (largest_draw <? 1)%float = true /\
  Simpy6.year_of 51 = 1 /\
  (uniform 0 52 largest_draw <? 52)%float = true /\
  match Simpy6.run_simulation (fun _ => largest_draw) 0 51 1 with
  | Returns (_, (_, _, recs)) =>
      rows_of 51 recs = [Record_ 1 51 "ID1" 0 10 0.95 104 114 FAILURE 104]
  | _ => False
  end /\
  (104 <? float_of_int ((Simpy6.year_of 51 + 1) * 52))%float = false.
Proof.
  do 4 (split; [vm_compute; reflexivity|]).
  split; vm_compute; reflexivity.
Qed.

(** ** The phase table *)

(** C9 fails on the code: simpy4 simulates a table with empty and repeated
    names, durations of zero and probabilities above 1, and returns its
    rows. *)
Lemma invalid_table_is_simulated :
  spec_valid_table unchecked_table = false /\
  Simpy4.run_simulation_on unchecked_table (fun _ => 0.5%float) 0 1 7
  = Returns (4%nat, {[ 1 := {[ "" := PhaseResult 0 0 SUCCESS ]} ]},
             [ Record_ 7 1 "" 0 0 1.5 0 0 SUCCESS 0;
               Record_ 7 1 "" 1 0 1.5 0 0 SUCCESS 0;
               Record_ 7 1 "" 2 0 1.5 0 0 SUCCESS 0 ]).
Proof. split; vm_compute; reflexivity. Qed.

Lemma spec_valid_table_durations phases :
  spec_valid_table phases = true ->
  Forall (fun ph => (duration ph <? 0)%float = false) phases.
Proof.
  unfold spec_valid_table. rewrite !andb_true_iff.
  intros ((((_ & Hdur) & _) & _) & _).
  rewrite forallb_forall in Hdur. apply Forall_forall. intros ph Hph.
  apply ltb_zero_not_ltb, Hdur. by apply list_elem_of_In.
Qed.

(** C9 as amended.  No script validates its table and none knows a
    [ConfigurationError].  The table both scripts define meets the conditions
    of the specification, and on any table that meets them, with draws that
    are not below zero, simpy6's [run_simulation] returns, and so does
    simpy4's when the table has its third phase. *)
Theorem builtin_table_is_valid :
  spec_valid_table Simpy4.SIMULATION_DETAILS_phases = true /\
  spec_valid_table Simpy6.SIMULATION_DETAILS_phases = true /\
  (forall phases draw pos num_assets replication_id,
     spec_valid_table phases = true ->
     (forall k, (0 <=? draw k)%float = true) ->
     (exists result,
        Simpy6.run_simulation_on phases draw pos num_assets replication_id
        = Returns result) /\
     (is_Some (phases !! 2%nat) ->
      exists result,
        Simpy4.run_simulation_on phases draw pos num_assets replication_id
        = Returns result)).
Proof.
  split; [by vm_compute|]. split; [by vm_compute|].
  intros phases draw pos num_assets replication_id Hvalid Hdraw.
  apply spec_valid_table_durations in Hvalid. split.
  - destruct (run_simulation_safe phases Simpy6.start_time_of draw replication_id
                num_assets pos) as (pos' & res & recs & Hret).
    { by apply Simpy6_safe. }
    unfold Simpy6.run_simulation_on. rewrite Hret. by eauto.
  - intros Hph.
    destruct (run_simulation_safe phases (Simpy4.start_time_of phases) draw
                replication_id num_assets pos) as (pos' & res & recs & Hret).
    { by apply Simpy4_safe. }
    unfold Simpy4.run_simulation_on. rewrite Hret. by eauto.
Qed.

(** ** The theorems at work on two small runs *)

Lemma reseeded_draw_same k : demo_draw (0 + k)%nat = reseeded_draw (5 + k)%nat.
Proof.
  unfold reseeded_draw. rewrite (proj2 (Nat.ltb_ge (5 + k) 5)) by lia.
  f_equal. lia.
Qed.

Lemma demo_draw_not_below_zero k : (0 <=? demo_draw k)%float = true.
Proof. do 11 (destruct k as [|k]; [reflexivity|]). by destruct k. Qed.

Lemma demo_draw_unit k :
  (0 <=? demo_draw k)%float = true /\ (demo_draw k <? 1)%float = true.
Proof. do 11 (destruct k as [|k]; [by split|]). by destruct k. Qed.

Lemma demo_returns :
  run_simulation builtin_phases (Simpy4.start_time_of builtin_phases)
                 demo_draw 7 0 2
  = Returns (demo_pos, demo_res, demo_recs).
Proof. vm_compute. reflexivity. Qed.

Lemma cohort_returns :
  Simpy6.run_simulation_on builtin_phases demo_draw 0 2 7
  = Returns (cohort_pos, (7, cohort_res, cohort_recs)).
Proof. vm_compute. reflexivity. Qed.

Lemma same_draws_same_records_witness :
  match run_simulation builtin_phases (Simpy4.start_time_of builtin_phases)
                       demo_draw 7 0 2,
        run_simulation builtin_phases (Simpy4.start_time_of builtin_phases)
                       reseeded_draw 7 5 2 with
  | Returns (pos1', res1, recs1), Returns (pos2', res2, recs2) =>
      recs1 = recs2 /\ res1 = res2 /\
      exists d, pos1' = (0 + d)%nat /\ pos2' = (5 + d)%nat
  | Raises x1, Raises x2 => x1 = x2
  | _, _ => False
  end.
Proof.
  exact (same_draws_same_records builtin_phases (Simpy4.start_time_of builtin_phases)
           demo_draw reseeded_draw 7 0 5 2 reseeded_draw_same).
Defined.

Lemma phase_start_is_previous_end_witness :
  phase_start_time (demo_row 1 0) = asset_init_time (demo_row 1 0) /\
  phase_start_time (demo_row 2 3) = phase_end_time (demo_row 2 2).
Proof.
  pose proof (phase_start_is_previous_end builtin_phases
                (Simpy4.start_time_of builtin_phases) demo_draw 7 0 2
                demo_pos demo_res demo_recs (or_introl eq_refl)
                demo_draw_not_below_zero demo_returns) as H.
  split.
  - apply (proj1 (H 1)). vm_compute. reflexivity.
  - apply (proj2 (H 2) 2%nat); vm_compute; reflexivity.
Defined.

Lemma failure_is_last_row_witness : length (rows_of 1 demo_recs) = 2%nat.
Proof.
  apply (failure_is_last_row builtin_phases (Simpy4.start_time_of builtin_phases)
           demo_draw 7 0 2 demo_pos demo_res demo_recs demo_returns
           1 1%nat (demo_row 1 1)); vm_compute; reflexivity.
Defined.

Lemma phase_idx_counts_rows_witness :
  phase_idx (demo_row 2 4) = 4%nat /\
  builtin_phases !! 4%nat
  = Some (Phase (phase_name (demo_row 2 4)) (phase_duration (demo_row 2 4))
                (phase_success_prob (demo_row 2 4))).
Proof.
  apply (phase_idx_counts_rows builtin_phases (Simpy4.start_time_of builtin_phases)
           demo_draw 7 0 2 demo_pos demo_res demo_recs demo_returns 2).
  vm_compute. reflexivity.
Defined.

Lemma every_asset_ends_witness :
  exists r, last (rows_of 1 demo_recs) = Some r /\
    (phase_outcome r = FAILURE \/
     (phase_outcome r = SUCCESS /\ S (phase_idx r) = length builtin_phases)).
Proof.
  apply (every_asset_ends builtin_phases (Simpy4.start_time_of builtin_phases)
           demo_draw 7 0 2 demo_pos demo_res demo_recs).
  - discriminate.
  - exact demo_returns.
  - lia.
Defined.

Lemma phase_end_is_start_plus_duration_witness :
  phase_end_time (demo_row 2 5)
  = (phase_start_time (demo_row 2 5) + phase_duration (demo_row 2 5))%float /\
  run_simulation [Phase "P1" 10 1; Phase "P2" 5 1] Simpy6.start_time_of
                 (fun _ => (3 / 52)%float) 7 0%nat 1
  = Returns (3%nat,
             {[ 1 := <["P2" := PhaseResult 13 18 SUCCESS]>
                       {[ "P1" := PhaseResult 3 13 SUCCESS ]} ]},
             [ Record_ 7 1 "P1" 0 10 1 3 13 SUCCESS 3;
               Record_ 7 1 "P2" 1 5 1 13 18 SUCCESS 3 ]).
Proof.
  split.
  - apply (proj1 phase_end_is_start_plus_duration builtin_phases
             (Simpy4.start_time_of builtin_phases) demo_draw 7 0%nat 2
             demo_pos demo_res demo_recs demo_returns).
    apply (list_elem_of_lookup_2 _ 7%nat). vm_compute. reflexivity.
  - apply (proj2 phase_end_is_start_plus_duration "P1" "P2" Simpy6.start_time_of
             (fun u => (float_of_int 0 + uniform 0 52 u)%float) _ 7 0%nat);
      vm_compute; reflexivity.
Defined.

Lemma results_has_every_asset_witness :
  is_Some (demo_res !! 1) /\
  (is_Some (demo_res !! 3) -> 1 <= 3 <= 2) /\
  default ∅ (demo_res !! 2) !! phase_name (demo_row 2 6)
  = Some (to_result (demo_row 2 6)).
Proof.
  pose proof (results_has_every_asset builtin_phases
                (Simpy4.start_time_of builtin_phases) demo_draw 7 0 2
                demo_pos demo_res demo_recs demo_returns) as [H1 H2].
  split; [apply H1; lia|]. split; [apply H1|].
  apply (H2 2 (default ∅ (demo_res !! 2))).
  - vm_compute. reflexivity.
  - apply (bool_decide_unpack (NoDup (name <$> builtin_phases))).
    vm_compute. exact I.
  - apply (list_elem_of_lookup_2 _ 8%nat). vm_compute. reflexivity.
  - vm_compute. reflexivity.
Defined.


Lemma cohort_arrival_time_witness :
  (exists k,
     asset_init_time (Record_ 7 2 "ID1" 0 10 0.95 26 36 SUCCESS 26)
     = (float_of_int (Simpy6.year_of 2 * 52) + uniform 0 52 (demo_draw k))%float) /\
  (float_of_int (Simpy6.year_of 2 * 52) <=? 26)%float = true /\
  (26 <=? float_of_int ((Simpy6.year_of 2 + 1) * 52))%float = true.
Proof.
  apply (cohort_arrival_time builtin_phases demo_draw 0 2 7
           cohort_pos cohort_res cohort_recs demo_draw_unit eq_refl cohort_returns
           (Record_ 7 2 "ID1" 0 10 0.95 26 36 SUCCESS 26)).
  apply (list_elem_of_lookup_2 _ 2%nat). vm_compute. reflexivity.
Defined.

Lemma builtin_table_is_valid_witness :
  (exists result, Simpy6.run_simulation_on builtin_phases demo_draw 0 2 7
                  = Returns result) /\
  (exists result, Simpy4.run_simulation_on builtin_phases demo_draw 0 2 7
                  = Returns result).
Proof.
  destruct builtin_table_is_valid as (H4 & _ & H).
  destruct (H builtin_phases demo_draw 0%nat 2 7 H4 demo_draw_not_below_zero)
    as [H6 H4'].
  split; [exact H6|]. apply H4'. vm_compute. eauto.
Defined.

(** ** The draws a run reads *)

Lemma inits_app q1 q2 : inits (q1 ++ q2) = (inits q1 + inits q2)%nat.
Proof. unfold inits. by rewrite filter_app, length_app. Qed.

Lemma inits_cons x q :
  inits (x :: q) = ((if is_Initialize (entry_event x) then 1 else 0) + inits q)%nat.
Proof.
  unfold inits. destruct (is_Initialize (entry_event x)) eqn:E.
  - rewrite filter_cons_True; [done|by rewrite E].
  - rewrite filter_cons_False; [done|rewrite E; intros []].
Qed.

Lemma failed_in_app_l a q1 q2 : failed_in a q1 -> failed_in a (q1 ++ q2).
Proof.
  intros (t & p & e & x & H). exists t, p, e, x. rewrite elem_of_app. by left.
Qed.

Lemma failed_in_app_r a q1 q2 : failed_in a q2 -> failed_in a (q1 ++ q2).
Proof.
  intros (t & p & e & x & H). exists t, p, e, x. rewrite elem_of_app. by right.
Qed.

Section Draws.

Variable phases : list phase.
Variable start_time_of : Z -> exn + (float -> float).
Variable draw : nat -> float.
Variable replication_id : Z.

(** What one call of the generator adds to the queue, to the generator's
    position and to the record table. *)
Lemma asset_trajectory_account st ev :
  exists added,
    queue (asset_trajectory phases start_time_of draw replication_id st ev)
    = queue st ++ added /\
    ((exists a, failed_in a added) \/
     (inits added = 0%nat /\
      (rng (asset_trajectory phases start_time_of draw replication_id st ev)
       + length (records st)
       = rng st + (if is_Initialize ev then 1 else 0)
         + length (records (asset_trajectory phases start_time_of draw
                              replication_id st ev)))%nat)).
Proof.
  assert (forall st a x, failed_in a [((now st + 0)%float, NORMAL, eid st,
                                       Process a (Some x))]) as Hfail.
  { intros st0 a x. exists (now st0 + 0)%float, NORMAL, (eid st0), x.
    apply list_elem_of_here. }
  assert (forall st a s idx rest cur prs ok, exists added,
    queue (for_loop st a s idx rest cur prs ok) = queue st ++ added /\
    rng (for_loop st a s idx rest cur prs ok) = rng st /\
    records (for_loop st a s idx rest cur prs ok) = records st /\
    ((exists a, failed_in a added) \/ inits added = 0%nat)) as Hloop.
  { intros st0 a s idx rest cur prs ok. unfold for_loop, env_timeout, throw, stop.
    destruct rest as [|ph rest']; [|destruct ok; [destruct (_ <? 0)%float|]];
      simpl; eexists; (split; [done|]); (split; [done|]); (split; [done|]);
      solve [by right | left; eauto]. }
  destruct ev as [a|a [s|s idx ph rest cur prs]|a exc]; simpl.
  - destruct (start_time_of a) as [x|f].
    + eexists. split; [done|]. left. eauto.
    + unfold env_timeout, throw. destruct (_ <? 0)%float; simpl;
        eexists; (split; [done|]); [left; by eexists; apply (Hfail st)|right].
      split; [done|lia].
  - destruct (Hloop st a s 0%nat phases (now st) ∅ true)
      as (added & -> & -> & -> & H).
    exists added. split; [done|]. destruct H as [H|H]; [by left|right]. split; [done|lia].
  - match goal with
    | |- context [for_loop ?s1 ?a ?s ?i ?r ?c ?p ?o] =>
        destruct (Hloop s1 a s i r c p o) as (added & -> & -> & -> & H)
    end.
    exists added. split; [done|]. destruct H as [H|H]; [by left|right].
    split; [done|]. simpl. rewrite length_app. simpl. lia.
  - exists []. split; [by rewrite app_nil_r|]. right. split; [done|lia].
Qed.

(** Unless a process has failed, the draws read so far are one for every
    process that has started and one for every row. *)
Lemma step_account (c : nat) st st' :
  step phases start_time_of draw replication_id st = Some (Returns st') ->
  (exists a, failed_in a (queue st)) \/
    (rng st + inits (queue st) = c + length (records st))%nat ->
  (exists a, failed_in a (queue st')) \/
    (rng st' + inits (queue st') = c + length (records st'))%nat.
Proof.
  intros (t & p & e & ev & l1 & l2 & Hq & Hev & ->)%step_Returns H.
  set (st1 := State t (l1 ++ l2) (eid st) (rng st) (results st) (records st)).
  destruct (asset_trajectory_account st1 ev) as (added & -> & Hadd).
  destruct H as [[a Ha]|H].
  - left. exists a. apply failed_in_app_l. simpl.
    rewrite Hq in Ha. by apply (failed_in_remove a l1 t p e ev l2).
  - destruct Hadd as [[a Ha]|[Hi Hr]]; [left; exists a; by apply failed_in_app_r|].
    right. simpl in *. rewrite Hq in H.
    rewrite !inits_app, inits_cons in H. rewrite !inits_app, Hi.
    unfold entry_event in H. simpl in H. lia.
Qed.

Lemma run_account (c : nat) fuel : forall st st',
  run phases start_time_of draw replication_id fuel st = Returns st' ->
  (exists a, failed_in a (queue st)) \/
    (rng st + inits (queue st) = c + length (records st))%nat ->
  (rng st' = c + length (records st'))%nat.
Proof.
  induction fuel as [|fuel IH]; intros st st' H HQ; [done|].
  simpl in H. destruct (step _ _ _ _ st) as [[st1| |]|] eqn:E; try done.
  - apply (IH st1); [done|]. by eapply step_account.
  - injection H as <-.
    unfold step in E. destruct (queue st) as [|x q] eqn:Eq.
    + destruct HQ as [(a & t & p & e & x & H%elem_of_nil)|H]; [done|].
      unfold inits in H. simpl in H. lia.
    + simpl in E. destruct (pop_min x q) as [[[[t p] e] ev] q'].
      by destruct ev as [?|? ?|? [?|]].
Qed.

Lemma inits_spawn ids : forall st,
  inits (queue (spawn st ids)) = (inits (queue st) + length ids)%nat.
Proof.
  induction ids as [|a ids IH]; intros st; [simpl; lia|].
  rewrite spawn_cons, IH. simpl. rewrite inits_app, inits_cons. simpl.
  unfold inits at 2. simpl. lia.
Qed.

Lemma run_simulation_account pos num_assets pos' res recs :
  run_simulation phases start_time_of draw replication_id pos num_assets
  = Returns (pos', res, recs) ->
  pos' = (pos + Z.to_nat num_assets + length recs)%nat.
Proof.
  unfold run_simulation.
  destruct (run _ _ _ _ _ _) as [st| |] eqn:E; try done.
  intros [= <- <- <-].
  apply (run_account (pos + Z.to_nat num_assets)) in E; [done|]. right.
  rewrite inits_spawn.
  destruct (spawn_keeps (asset_ids num_assets) (fresh pos)) as (_ & -> & _ & ->).
  unfold asset_ids. rewrite length_seqZ. simpl. unfold inits. simpl. lia.
Qed.

End Draws.

Section Locality.

Variable phases : list phase.
Variable start_time_of : Z -> exn + (float -> float).
Variable replication_id : Z.
Variables draw1 draw2 : nat -> float.

(** A call of the generator reads at most the draw at the generator's
    position, and moves the position if it reads it. *)
Lemma asset_trajectory_reads st ev :
  (rng st < rng (asset_trajectory phases start_time_of draw1 replication_id st ev))%nat
  \/ asset_trajectory phases start_time_of draw2 replication_id st ev
     = asset_trajectory phases start_time_of draw1 replication_id st ev.
Proof.
  destruct ev as [a|a [s|s idx ph rest cur prs]|a exc]; simpl; try by right.
  - destruct (start_time_of a) as [x|f]; [by right|left].
    unfold env_timeout, throw. destruct (_ <? 0)%float; simpl; lia.
  - left. unfold for_loop, env_timeout, throw, stop.
    destruct rest as [|ph' rest']; simpl; [lia|].
    destruct (_ <? _)%float; simpl; [|lia]. destruct (_ <? 0)%float; simpl; lia.
Qed.

Lemma run_rng fuel : forall st st',
  run phases start_time_of draw1 replication_id fuel st = Returns st' ->
  (rng st <= rng st')%nat.
Proof.
  induction fuel as [|fuel IH]; intros st st' H; [done|].
  simpl in H. destruct (step _ _ _ _ st) as [[st1| |]|] eqn:E; try done.
  - etrans; [|by apply (IH st1)].
    apply step_Returns in E as (t & p & e & ev & l1 & l2 & _ & _ & ->).
    etrans; [|apply asset_trajectory_rng]. done.
  - by injection H as <-.
Qed.

Lemma asset_trajectory_one_draw st ev :
  draw1 (rng st) = draw2 (rng st) ->
  asset_trajectory phases start_time_of draw2 replication_id st ev
  = asset_trajectory phases start_time_of draw1 replication_id st ev.
Proof.
  intros H. destruct ev as [a|a [s|s idx ph rest cur prs]|a exc]; simpl; try done.
  - destruct (start_time_of a); [done|]. by rewrite H.
  - by rewrite H.
Qed.

(** A run that returns has read the draws from its first position up to its
    last, and no other. *)
Lemma run_reads fuel : forall st st',
  run phases start_time_of draw1 replication_id fuel st = Returns st' ->
  (forall k, (rng st <= k < rng st')%nat -> draw1 k = draw2 k) ->
  run phases start_time_of draw2 replication_id fuel st = Returns st'.
Proof.
  induction fuel as [|fuel IH]; intros st st' H Hsame; [done|].
  simpl in H. simpl.
  destruct (step phases start_time_of draw1 replication_id st)
    as [[st1|x|]|] eqn:E; try done.
  - pose proof (run_rng _ _ _ H) as Hle.
    pose proof E as (t & p & e & ev & l1 & l2 & Hq & Hev & Hst1)%step_Returns.
    assert (step phases start_time_of draw2 replication_id st = Some (Returns st1)) as ->.
    { unfold step in *.
      destruct (heappop (queue st)) as [[[[[t' p'] e'] ev'] q]|]; [|done].
      cbv zeta in *.
      set (s1 := State t' q (eid st) (rng st) (results st) (records st)) in *.
      assert (asset_trajectory phases start_time_of draw2 replication_id s1 ev'
              = asset_trajectory phases start_time_of draw1 replication_id s1 ev') as Heq.
      { destruct (asset_trajectory_reads s1 ev') as [Hlt|Heq]; [|done].
        apply asset_trajectory_one_draw. apply Hsame.
        destruct ev' as [a|a k|a [x|]]; try done;
          injection E as <-; simpl in *; lia. }
      destruct ev' as [a|a k|a [x|]]; try done; by rewrite Heq. }
    apply IH; [done|]. intros k Hk. apply Hsame.
    rewrite Hst1 in Hk.
    match type of Hk with
    | (rng (asset_trajectory _ _ _ _ ?s1 _) <= _ < _)%nat =>
        pose proof (asset_trajectory_rng phases start_time_of replication_id draw1 s1 ev)
    end.
    simpl in *. lia.
  - injection H as <-. unfold step in *.
    destruct (heappop (queue st)) as [[[[[t' p'] e'] ev'] q]|]; [|done].
    by destruct ev' as [a|a k|a [x|]].
Qed.

End Locality.

(** ** The draws that decide the outcomes *)

Section Outcomes.

Variable phases : list phase.
Variable start_time_of : Z -> exn + (float -> float).
Variable draw : nat -> float.
Variable replication_id : Z.
Variable pos : nat.

Lemma outcomes_ok_same st st' js :
  records st' = records st -> (rng st <= rng st')%nat ->
  outcomes_ok draw pos st js -> outcomes_ok draw pos st' js.
Proof.
  intros HR Hrng (H1 & H2 & H3). unfold outcomes_ok. rewrite HR.
  split; [done|]. split; [done|].
  eapply Forall_impl; [done|]. simpl. lia.
Qed.

Lemma StronglySorted_snoc {A} (R : A -> A -> Prop) (l : list A) (y : A) :
  StronglySorted R l -> Forall (fun x => R x y) l -> StronglySorted R (l ++ [y]).
Proof.
  induction 1 as [|x l Hs IH Hx]; intros Hy; simpl.
  - repeat constructor.
  - apply Forall_cons in Hy as [Hxy Hy]. constructor; [by apply IH|].
    apply Forall_app. split; [done|]. by apply Forall_singleton.
Qed.

Lemma for_loop_keeps st a s idx rest cur prs ok :
  records (for_loop st a s idx rest cur prs ok) = records st /\
  rng (for_loop st a s idx rest cur prs ok) = rng st.
Proof.
  unfold for_loop, env_timeout, throw, stop.
  destruct rest as [|ph rest']; [done|]. destruct ok; [|done].
  by destruct (_ <? 0)%float.
Qed.

Lemma asset_trajectory_outcomes st ev js :
  (pos <= rng st)%nat -> outcomes_ok draw pos st js ->
  exists js', outcomes_ok draw pos (asset_trajectory phases start_time_of draw
                             replication_id st ev) js'.
Proof.
  intros Hpos Hok.
  destruct ev as [a|a [s|s idx ph rest cur prs]|a exc]; simpl.
  - exists js. destruct (start_time_of a) as [x|f]; [done|].
    eapply outcomes_ok_same; [| |done];
      unfold env_timeout, throw; destruct (_ <? 0)%float; simpl; lia || done.
  - exists js. destruct (for_loop_keeps st a s 0%nat phases (now st) ∅ true) as [HR Hr].
    eapply outcomes_ok_same; [done| |done]. lia.
  - exists (js ++ [rng st]).
    match goal with
    | |- outcomes_ok draw pos (for_loop ?s1 ?a ?s ?i ?r ?c ?p ?o) _ =>
        destruct (for_loop_keeps s1 a s i r c p o) as [HR Hr];
        apply (outcomes_ok_same s1); [done|lia|]
    end.
    destruct Hok as (H1 & H2 & H3). split; [|split]; simpl.
    + apply Forall2_app; [done|]. by repeat constructor.
    + apply StronglySorted_snoc; [done|].
      eapply Forall_impl; [done|]. simpl. lia.
    + apply Forall_app. split.
      * eapply Forall_impl; [done|]. simpl. lia.
      * apply Forall_singleton. lia.
  - by exists js.
Qed.

Lemma run_outcomes fuel : forall st st' js,
  run phases start_time_of draw replication_id fuel st = Returns st' ->
  (pos <= rng st)%nat -> outcomes_ok draw pos st js ->
  exists js', outcomes_ok draw pos st' js'.
Proof.
  induction fuel as [|fuel IH]; intros st st' js H Hpos Hok; [done|].
  simpl in H. destruct (step _ _ _ _ st) as [[st1| |]|] eqn:E; try done.
  - apply step_Returns in E as (t & p & e & ev & l1 & l2 & _ & _ & ->).
    set (s1 := State t (l1 ++ l2) (eid st) (rng st) (results st) (records st)) in *.
    destruct (asset_trajectory_outcomes s1 ev js) as [js' Hjs']; [done..|].
    eapply (IH _ st' js'); [done| |done].
    etrans; [|apply asset_trajectory_rng]. done.
  - injection H as <-. by exists js.
Qed.

Lemma run_simulation_outcomes num_assets pos' res recs :
  run_simulation phases start_time_of draw replication_id pos num_assets
  = Returns (pos', res, recs) ->
  exists js, decided_by draw recs js /\ StronglySorted lt js /\
             Forall (fun j => (pos <= j < pos')%nat) js.
Proof.
  unfold run_simulation.
  destruct (run _ _ _ _ _ _) as [st| |] eqn:E; try done.
  intros [= <- <- <-].
  destruct (spawn_keeps (asset_ids num_assets) (fresh pos)) as (_ & Hr & _ & HR).
  apply (run_outcomes _ _ _ []) in E; [done|by rewrite Hr|].
  split; [|split]; [|constructor|constructor]. rewrite HR. constructor.
Qed.

End Outcomes.

(** ** The exceptions a run can end with *)

Section Exceptions.

Variable phases : list phase.
Variable start_time_of : Z -> exn + (float -> float).
Variable draw : nat -> float.
Variable replication_id : Z.

Lemma raises_only_snoc xs q t p e ev :
  raises_only xs q -> (forall a x, ev = Process a (Some x) -> xs x) ->
  raises_only xs (q ++ [(t, p, e, ev)]).
Proof.
  intros Hq Hev t' p' e' a x [H|H%list_elem_of_singleton]%elem_of_app.
  - by eapply Hq.
  - injection H as -> -> -> <-. by eapply Hev.
Qed.

Lemma raises_only_for_loop st a s idx rest cur prs ok :
  raises_only (may_raise start_time_of) (queue st) ->
  raises_only (may_raise start_time_of) (queue (for_loop st a s idx rest cur prs ok)).
Proof.
  intros H. unfold for_loop, env_timeout, throw, stop.
  destruct rest as [|ph rest']; [|destruct ok; [destruct (_ <? 0)%float|]];
    simpl; apply raises_only_snoc; try done.
  intros ? ? [= <- <-]. by left.
Qed.

Lemma raises_only_asset_trajectory st ev :
  raises_only (may_raise start_time_of) (queue st) ->
  raises_only (may_raise start_time_of)
    (queue (asset_trajectory phases start_time_of draw replication_id st ev)).
Proof.
  intros H. destruct ev as [a|a [s|s idx ph rest cur prs]|a exc]; simpl; try done.
  - destruct (start_time_of a) as [x|f] eqn:Hs.
    + apply raises_only_snoc; [done|]. intros ? ? [= <- <-]. right. by exists a.
    + unfold env_timeout, throw. destruct (_ <? 0)%float; simpl;
        apply raises_only_snoc; try done.
      intros ? ? [= <- <-]. by left.
  - by apply raises_only_for_loop.
  - by apply raises_only_for_loop.
Qed.

Lemma run_may_raise fuel : forall st x,
  run phases start_time_of draw replication_id fuel st = Raises x ->
  raises_only (may_raise start_time_of) (queue st) -> (may_raise start_time_of) x.
Proof.
  induction fuel as [|fuel IH]; intros st x H Hq; [done|].
  simpl in H. destruct (step _ _ _ _ st) as [[st1|y|]|] eqn:E; try done.
  - apply (IH st1); [done|].
    apply step_Returns in E as (t & p & e & ev & l1 & l2 & Hl & _ & ->).
    apply raises_only_asset_trajectory. simpl.
    intros t' p' e' a' x' Hin. apply (Hq t' p' e' a' x'). rewrite Hl.
    rewrite elem_of_app in Hin. rewrite elem_of_app, elem_of_cons. tauto.
  - injection H as ->. unfold step in E.
    destruct (heappop (queue st)) as [[[[[t p] e] ev] q]|] eqn:Hpop; [|done].
    apply heappop_split in Hpop as (l1 & l2 & Hl & _).
    destruct ev as [a|a k|a [z|]]; try done. injection E as ->.
    apply (Hq t p e a x). rewrite Hl, elem_of_app, elem_of_cons. auto.
Qed.

Lemma raises_only_spawn xs ids : forall st,
  raises_only xs (queue st) -> raises_only xs (queue (spawn st ids)).
Proof.
  induction ids as [|a ids IH]; intros st H; [done|].
  rewrite spawn_cons. apply IH. simpl. by apply raises_only_snoc.
Qed.

Lemma run_simulation_may_raise pos num_assets x :
  run_simulation phases start_time_of draw replication_id pos num_assets = Raises x ->
  (may_raise start_time_of) x.
Proof.
  unfold run_simulation.
  destruct (run _ _ _ _ _ _) as [st|y|] eqn:E; try done.
  intros [= ->]. eapply run_may_raise; [done|].
  apply raises_only_spawn. by intros t p e a y ?%elem_of_nil.
Qed.

End Exceptions.

(** X1. A run that returns has read one draw for every asset (its
    [start_time]) and one for every row it wrote (the outcome of the phase):
    the generator ends [num_assets + len(records)] positions further. *)
Theorem run_simulation_draws_read
    (phases : list phase) (start_time_of : Z -> exn + (float -> float))
    (draw : nat -> float) (replication_id : Z) (pos : nat) (num_assets : Z)
    (pos' : nat) (res : gmap Z (gmap string phase_result)) (recs : list record) :
  run_simulation phases start_time_of draw replication_id pos num_assets
  = Returns (pos', res, recs) ->
  pos' = (pos + Z.to_nat num_assets + length recs)%nat.
Proof. apply run_simulation_account. Qed.

(** X2. In a run that returns every row has its own draw: the outcome of
    the row is [SUCCESS] exactly when that draw is below the phase's
    [success_prob].  The draws of later rows come later in the generator's
    sequence, and all of them lie between the position the run began at and
    the position it ended at. *)
Theorem outcomes_follow_the_draws
    (phases : list phase) (start_time_of : Z -> exn + (float -> float))
    (draw : nat -> float) (replication_id : Z) (pos : nat) (num_assets : Z)
    (pos' : nat) (res : gmap Z (gmap string phase_result)) (recs : list record) :
  run_simulation phases start_time_of draw replication_id pos num_assets
  = Returns (pos', res, recs) ->
  exists js,
    Forall2 (fun r j => phase_outcome r
                        = if (draw j <? phase_success_prob r)%float
                          then SUCCESS else FAILURE) recs js /\
    StronglySorted lt js /\
    Forall (fun j => (pos <= j < pos')%nat) js.
Proof. apply run_simulation_outcomes. Qed.

(** X3. A run that returns depends on no draw but those between the
    position it began at and the position it ended at: with any other
    sequence that agrees on these, it returns the same. *)
Theorem run_simulation_reads_only_its_draws
    (phases : list phase) (start_time_of : Z -> exn + (float -> float))
    (draw1 draw2 : nat -> float) (replication_id : Z) (pos : nat) (num_assets : Z)
    (pos' : nat) (res : gmap Z (gmap string phase_result)) (recs : list record) :
  run_simulation phases start_time_of draw1 replication_id pos num_assets
  = Returns (pos', res, recs) ->
  (forall k, (pos <= k < pos')%nat -> draw1 k = draw2 k) ->
  run_simulation phases start_time_of draw2 replication_id pos num_assets
  = Returns (pos', res, recs).
Proof.
  unfold run_simulation.
  destruct (run _ _ draw1 _ _ _) as [st| |] eqn:E; try done.
  intros [= <- <- <-] Hsame.
  rewrite (run_reads _ _ _ _ _ _ _ _ E); [done|].
  by destruct (spawn_keeps (asset_ids num_assets) (fresh pos)) as (_ & -> & _).
Qed.

Lemma decided_by_elem draw rs js r :
  decided_by draw rs js -> r ∈ rs ->
  exists j, j ∈ js /\ phase_outcome r = outcome_from (draw j) (phase_success_prob r).
Proof.
  induction 1 as [|r' j rs js Hr H IH]; intros Hin; [by apply elem_of_nil in Hin|].
  apply elem_of_cons in Hin as [->|Hin].
  - exists j. split; [apply list_elem_of_here|done].
  - destruct (IH Hin) as (j' & ? & ?). exists j'. split; [by apply list_elem_of_further|done].
Qed.

(** X4. When every draw is below the [success_prob] of every phase (as
    with probabilities of 1.0), a run that returns has only [SUCCESS] rows,
    and every asset has one row for each phase of the table. *)
Theorem draws_below_every_probability
    (phases : list phase) (start_time_of : Z -> exn + (float -> float))
    (draw : nat -> float) (replication_id : Z) (pos : nat) (num_assets : Z)
    (pos' : nat) (res : gmap Z (gmap string phase_result)) (recs : list record) :
  (forall k ph, ph ∈ phases -> (draw k <? success_prob ph)%float = true) ->
  run_simulation phases start_time_of draw replication_id pos num_assets
  = Returns (pos', res, recs) ->
  Forall (fun r => phase_outcome r = SUCCESS) recs /\
  forall a, 1 <= a <= num_assets -> length (rows_of a recs) = length phases.
Proof.
  intros Hlow Hret.
  destruct (run_simulation_outcomes _ _ _ _ _ _ _ _ _ Hret) as (js & Hjs & _).
  assert (Forall (fun r => phase_outcome r = SUCCESS) recs) as Hall.
  { apply Forall_forall. intros r Hr.
    destruct (decided_by_elem _ _ _ _ Hjs Hr) as (j & _ & ->).
    assert (r ∈ rows_of (asset_id r) recs) as [k Hk]%list_elem_of_lookup
      by by apply rows_of_elem.
    destruct (returned_row _ _ _ _ _ _ _ _ _ Hret _ _ _ Hk)
      as (s & ph & o & Hph & -> & _).
    unfold outcome_from. simpl. rewrite Hlow; [done|].
    by eapply list_elem_of_lookup_2. }
  split; [done|]. intros a Ha.
  destruct (run_simulation_Returns _ _ _ _ _ _ _ _ _ Hret a) as [Hin _].
  destruct (Hin Ha) as (s & _ & [Hlen|(r & Hr & Ho)] & _); [done|].
  rewrite Forall_forall in Hall. rewrite Hall in Ho; [done|].
  apply last_Some in Hr as [l Hl].
  assert (r ∈ rows_of a recs) as Hin' by (rewrite Hl, elem_of_app, list_elem_of_singleton; auto).
  by apply rows_of_elem in Hin' as [? _].
Qed.

(** X5. When no draw is below the [success_prob] of the first phase (as
    with a probability of 0.0), every asset of a run that returns has exactly
    one row, the [FAILURE] of the first phase, and its entry of [results]
    holds that phase alone. *)
Theorem no_draw_below_first_probability
    (ph0 : phase) (rest : list phase) (start_time_of : Z -> exn + (float -> float))
    (draw : nat -> float) (replication_id : Z) (pos : nat) (num_assets : Z)
    (pos' : nat) (res : gmap Z (gmap string phase_result)) (recs : list record) :
  (forall k, (draw k <? success_prob ph0)%float = false) ->
  run_simulation (ph0 :: rest) start_time_of draw replication_id pos num_assets
  = Returns (pos', res, recs) ->
  forall a, 1 <= a <= num_assets ->
    exists r, rows_of a recs = [r] /\ phase_outcome r = FAILURE /\
              phase_name r = name ph0 /\
              res !! a = Some {[ name ph0 := to_result r ]}.
Proof.
  intros Hhigh Hret a Ha.
  destruct (run_simulation_outcomes _ _ _ _ _ _ _ _ _ Hret) as (js & Hjs & _).
  destruct (run_simulation_Returns _ _ _ _ _ _ _ _ _ Hret a) as [Hin _].
  destruct (Hin Ha) as (s & Hrows & Hterm & Hres & _).
  destruct (rows_of a recs) as [|r rs] eqn:E.
  { destruct Hterm as [?|(r & ? & _)]; done. }
  destruct (Hrows 0%nat r eq_refl) as (ph & o & [= <-] & Hr & Hlast).
  assert (r ∈ recs) as Hin'.
  { assert (r ∈ rows_of a recs) as Hx by (rewrite E; apply list_elem_of_here).
    by apply rows_of_elem in Hx as [? _]. }
  destruct (decided_by_elem _ _ _ _ Hjs Hin') as (j & _ & Ho).
  rewrite Hr in Ho. unfold outcome_from in Ho. simpl in Ho. rewrite Hhigh in Ho.
  subst o. specialize (Hlast eq_refl). destruct rs; [|done].
  exists r. rewrite Hres. subst r. by repeat split.
Qed.

Lemma some_duration_below_zero phases :
  ~ Forall (fun ph => (duration ph <? 0)%float = false) phases ->
  Exists (fun ph => (duration ph <? 0)%float = true) phases.
Proof.
  intros H. apply not_Forall_Exists in H; [|solve_decision].
  eapply Exists_impl; [done|]. simpl. intros ph Hph.
  by destruct (duration ph <? 0)%float.
Qed.

(** X6. With draws that are not below zero, simpy6's [run_simulation] can
    only fail with the [ValueError] of [env.timeout], and only when the table
    has a phase with a duration below zero. *)
Theorem Simpy6_raises_only_ValueError
    (phases : list phase) (draw : nat -> float) (pos : nat)
    (num_assets replication_id : Z) (x : exn) :
  (forall k, (0 <=? draw k)%float = true) ->
  Simpy6.run_simulation_on phases draw pos num_assets replication_id = Raises x ->
  x = ValueError /\ Exists (fun ph => (duration ph <? 0)%float = true) phases.
Proof.
  intros Hdraw. unfold Simpy6.run_simulation_on.
  destruct (run_simulation _ _ _ _ _ _) as [[[p rs] rc]|y|] eqn:E; try done.
  intros [= ->]. split.
  - by destruct (run_simulation_may_raise _ _ _ _ _ _ _ E) as [?|[a ?]].
  - apply some_duration_below_zero. intros Hdur.
    destruct (run_simulation_safe phases Simpy6.start_time_of draw replication_id
                num_assets pos) as (? & ? & ? & Hret); [by apply Simpy6_safe|].
    congruence.
Qed.

(** X7. With draws that are not below zero, simpy4's [run_simulation]
    fails either with the [IndexError] of [phases[2]], on a table that has no
    third phase, or with the [ValueError] of [env.timeout], on a table that
    has a third phase and some duration below zero. *)
Theorem Simpy4_raises_IndexError_or_ValueError
    (phases : list phase) (draw : nat -> float) (pos : nat)
    (num_assets replication_id : Z) (x : exn) :
  (forall k, (0 <=? draw k)%float = true) ->
  Simpy4.run_simulation_on phases draw pos num_assets replication_id = Raises x ->
  (x = IndexError /\ phases !! 2%nat = None) \/
  (x = ValueError /\ is_Some (phases !! 2%nat) /\
   Exists (fun ph => (duration ph <? 0)%float = true) phases).
Proof.
  intros Hdraw. unfold Simpy4.run_simulation_on. intros E.
  destruct (phases !! 2%nat) as [ph|] eqn:Hph.
  - right. split; [|split; [done|]].
    + destruct (run_simulation_may_raise _ _ _ _ _ _ _ E) as [?|[a Ha]]; [done|].
      unfold Simpy4.start_time_of in Ha. by rewrite Hph in Ha.
    + apply some_duration_below_zero. intros Hdur.
      destruct (run_simulation_safe phases (Simpy4.start_time_of phases) draw
                  replication_id num_assets pos) as (? & ? & ? & Hret).
      { apply Simpy4_safe; [by rewrite Hph|done..]. }
      congruence.
  - left. split; [|done].
    destruct (Z_le_gt_dec num_assets 0) as [Hn|Hn].
    + by rewrite run_simulation_no_asset in E.
    + rewrite (run_simulation_always_raises phases (Simpy4.start_time_of phases)
                 draw replication_id IndexError) in E; [congruence| |lia].
      intros a. unfold Simpy4.start_time_of. by rewrite Hph.
Qed.

Section FirstPhase.

Variable ph0 : phase.
Variable rest : list phase.
Variable start_time_of : Z -> exn + (float -> float).
Variable draw : nat -> float.
Variable replication_id : Z.
Hypothesis below_zero : (duration ph0 <? 0)%float = true.

Lemma before_phases_snoc q t p e ev :
  before_phases q ->
  (forall a s idx ph rest cur prs, ev <> Timeout a (AtPhase s idx ph rest cur prs)) ->
  before_phases (q ++ [(t, p, e, ev)]).
Proof.
  intros Hq Hev t' p' e' a s idx ph rest' cur prs
    [H|H%list_elem_of_singleton]%elem_of_app.
  - by eapply Hq.
  - injection H as -> -> -> <-. by eapply Hev.
Qed.

(** With a first duration below zero no generator gets past the head of its
    loop, and no row is written. *)
Lemma step_before_phases st st' :
  step (ph0 :: rest) start_time_of draw replication_id st = Some (Returns st') ->
  before_phases (queue st) /\ records st = [] ->
  before_phases (queue st') /\ records st' = [].
Proof.
  intros (t & p & e & ev & l1 & l2 & Hq & _ & ->)%step_Returns [Hb Hr].
  assert (before_phases (l1 ++ l2)) as Hb'.
  { intros t' p' e' a s idx ph rest' cur prs Hin.
    apply (Hb t' p' e' a s idx ph rest' cur prs). rewrite Hq.
    rewrite elem_of_app in Hin. rewrite elem_of_app, elem_of_cons. tauto. }
  destruct ev as [a|a [s|s idx ph rest' cur prs]|a exc]; simpl.
  - destruct (start_time_of a) as [x|f]; simpl.
    + split; [|done]. by apply before_phases_snoc.
    + unfold env_timeout, throw. destruct (f _ <? 0)%float; simpl;
        (split; [|done]); by apply before_phases_snoc.
  - unfold env_timeout, throw. rewrite below_zero. simpl.
    split; [|done]. by apply before_phases_snoc.
  - exfalso. apply (Hb t p e a s idx ph rest' cur prs).
    rewrite Hq, elem_of_app, elem_of_cons. auto.
  - done.
Qed.

Lemma run_before_phases fuel : forall st st',
  run (ph0 :: rest) start_time_of draw replication_id fuel st = Returns st' ->
  before_phases (queue st) /\ records st = [] -> records st' = [].
Proof.
  induction fuel as [|fuel IH]; intros st st' H Hb; [done|].
  simpl in H. destruct (step _ _ _ _ st) as [[st1| |]|] eqn:E; try done.
  - apply (IH st1); [done|]. by eapply step_before_phases.
  - injection H as <-. by destruct Hb.
Qed.

Lemma before_phases_spawn ids : forall st,
  before_phases (queue st) -> before_phases (queue (spawn st ids)).
Proof.
  induction ids as [|a ids IH]; intros st H; [done|].
  rewrite spawn_cons. apply IH. simpl. by apply before_phases_snoc.
Qed.

Lemma run_simulation_first_phase_raises pos num_assets :
  (forall a x, start_time_of a <> inl x) -> 1 <= num_assets ->
  run_simulation (ph0 :: rest) start_time_of draw replication_id pos num_assets
  = Raises ValueError.
Proof.
  intros Hst Hn.
  destruct (run_simulation _ _ _ _ pos num_assets) as [[[pos' res] recs]|x|] eqn:E.
  - exfalso.
    assert (recs = []) as ->.
    { unfold run_simulation in E.
      destruct (run _ _ _ _ _ _) as [st| |] eqn:Hrun; try done.
      injection E as <- <- <-. eapply run_before_phases; [done|].
      destruct (spawn_keeps (asset_ids num_assets) (fresh pos)) as (_ & _ & _ & ->).
      split; [|done]. apply before_phases_spawn.
      by intros t p e a s idx ph r cur prs ?%elem_of_nil. }
    destruct (run_simulation_Returns _ _ _ _ _ _ _ _ _ E 1) as [Hin _].
    destruct Hin as (s & _ & [?|(r & ? & _)] & _); [done|done|done].
  - f_equal. destruct (run_simulation_may_raise _ _ _ _ _ _ _ E) as [?|[a Ha]]; [done|].
    by apply Hst in Ha.
  - by apply run_simulation_total in E.
Qed.

End FirstPhase.

(** X8. When the first phase has a duration below zero, [run_simulation]
    with at least one asset fails with [ValueError] whatever the draws: in
    simpy6, and in simpy4 if the table has a third phase.  Nothing is
    returned of the phases that come later. *)
Theorem first_duration_below_zero_raises
    (ph0 : phase) (rest : list phase) (draw : nat -> float) (pos : nat)
    (num_assets replication_id : Z) :
  (duration ph0 <? 0)%float = true -> 1 <= num_assets ->
  Simpy6.run_simulation_on (ph0 :: rest) draw pos num_assets replication_id
  = Raises ValueError /\
  (is_Some (rest !! 1%nat) ->
   Simpy4.run_simulation_on (ph0 :: rest) draw pos num_assets replication_id
   = Raises ValueError).
Proof.
  intros Hd Hn. split.
  - unfold Simpy6.run_simulation_on.
    by rewrite run_simulation_first_phase_raises.
  - intros [ph Hph]. unfold Simpy4.run_simulation_on.
    apply run_simulation_first_phase_raises; [done| |done].
    intros a x. unfold Simpy4.start_time_of. simpl. by rewrite Hph.
Qed.

(** ** The replications of the script *)

Lemma NoDup_by_groups {A K1 K2 : Type} `{EqDecision K1} (f : A -> K1) (g : A -> K2)
    (l : list A) :
  (forall a, NoDup (g <$> filter (fun x => f x = a) l)) ->
  NoDup ((fun x => (f x, g x)) <$> l).
Proof.
  induction l as [|x l IH]; intros H; [constructor|].
  rewrite fmap_cons. constructor.
  - intros (y & [= Hf Hg] & Hy)%list_elem_of_fmap.
    specialize (H (f x)). rewrite filter_cons_True, fmap_cons in H by done.
    apply NoDup_cons in H as [H _]. apply H.
    apply list_elem_of_fmap. exists y. split; [done|].
    apply list_elem_of_filter. by split.
  - apply IH. intros a. specialize (H a).
    destruct (decide (f x = a)) as [Ha|Ha].
    + rewrite filter_cons_True, fmap_cons in H by done. by apply NoDup_cons in H as [_ H].
    + by rewrite filter_cons_False in H.
Qed.

Section OneReplication.

Variable phases : list phase.
Variable start_time_of : Z -> exn + (float -> float).
Variable draw : nat -> float.
Variable replication_id : Z.
Variable num_assets : Z.
Variable pos pos' : nat.
Variable res : gmap Z (gmap string phase_result).
Variable recs : list record.
Hypothesis returned :
  run_simulation phases start_time_of draw replication_id pos num_assets
  = Returns (pos', res, recs).

Lemma returned_replication r : r ∈ recs -> replication r = replication_id.
Proof.
  intros Hr.
  assert (r ∈ rows_of (asset_id r) recs) as [k Hk]%list_elem_of_lookup
    by by apply rows_of_elem.
  by destruct (returned_row _ _ _ _ _ _ _ _ _ returned _ _ _ Hk)
    as (s & ph & o & _ & -> & _).
Qed.

Lemma returned_phase_idx a k r : rows_of a recs !! k = Some r -> phase_idx r = k.
Proof.
  intros Hk.
  by destruct (returned_row _ _ _ _ _ _ _ _ _ returned _ _ _ Hk)
    as (s & ph & o & _ & -> & _).
Qed.

Lemma returned_rows_NoDup a : NoDup (phase_idx <$> rows_of a recs).
Proof.
  apply NoDup_alt. intros i j x Hi Hj.
  rewrite list_lookup_fmap in Hi, Hj.
  destruct (rows_of a recs !! i) as [ri|] eqn:Ei; [|done].
  destruct (rows_of a recs !! j) as [rj|] eqn:Ej; [|done].
  apply returned_phase_idx in Ei, Ej. simpl in *. congruence.
Qed.

Lemma returned_keys_NoDup : NoDup (row_key <$> recs).
Proof.
  assert (NoDup ((fun r => (asset_id r, phase_idx r)) <$> recs)) as H.
  { apply NoDup_by_groups. intros a. apply returned_rows_NoDup. }
  apply NoDup_alt. intros i j x Hi Hj.
  rewrite list_lookup_fmap in Hi, Hj.
  rewrite NoDup_alt in H. apply (H i j (x.1.2, x.2)); rewrite list_lookup_fmap.
  - destruct (recs !! i); simpl in *; [|done]. by injection Hi as <-.
  - destruct (recs !! j); simpl in *; [|done]. by injection Hj as <-.
Qed.

End OneReplication.

Section Replications.

Variable phases : list phase.
Variable draw : nat -> float.
Variable num_assets : Z.

Lemma replications_chained reps : forall pos ares arecs pos' ares' arecs',
  Simpy4_main.replications phases draw num_assets reps pos ares arecs
  = Returns (pos', ares', arecs') ->
  exists runs,
    chained phases draw num_assets pos reps runs pos' /\
    ares' = ares ++ zip reps (runs.*1.*2) /\
    arecs' = arecs ++ concat (runs.*2).
Proof.
  induction reps as [|rep reps IH]; intros pos ares arecs pos' ares' arecs' H;
    simpl in H.
  - injection H as <- <- <-. exists []. by rewrite !app_nil_r.
  - destruct (Simpy4.run_simulation_on phases draw pos num_assets rep)
      as [[[p res] recs]| |] eqn:E; try done.
    apply IH in H as (runs & Hch & -> & ->).
    exists ((p, res, recs) :: runs). simpl. by rewrite <- !app_assoc.
Qed.

Lemma chained_length reps : forall pos runs pos',
  chained phases draw num_assets pos reps runs pos' -> length runs = length reps.
Proof.
  induction reps as [|rep reps IH]; intros pos [|[[p res] recs] runs] pos' H;
    try done. simpl in *. destruct H as [_ H]. f_equal. by eapply IH.
Qed.

Lemma chained_account reps : forall pos runs pos',
  chained phases draw num_assets pos reps runs pos' ->
  pos' = (pos + length reps * Z.to_nat num_assets + length (concat (runs.*2)))%nat.
Proof.
  induction reps as [|rep reps IH]; intros pos [|[[p res] recs] runs] pos' H;
    try done; simpl in *; [lia|].
  destruct H as [H1 H2]. apply IH in H2.
  apply run_simulation_account in H1. rewrite length_app.
  change (list_fmap _ _ snd runs) with (runs.*2). lia.
Qed.

Lemma chained_replication reps : forall pos runs pos',
  chained phases draw num_assets pos reps runs pos' ->
  Forall (fun r => replication r ∈ reps) (concat (runs.*2)).
Proof.
  induction reps as [|rep reps IH]; intros pos [|[[p res] recs] runs] pos' H;
    try done; simpl in *.
  destruct H as [H1 H2]. apply Forall_app. split.
  - apply Forall_forall. intros r Hr.
    rewrite (returned_replication _ _ _ _ _ _ _ _ _ H1 r Hr). apply list_elem_of_here.
  - eapply Forall_impl; [by eapply IH|]. simpl. intros r Hr.
    by apply list_elem_of_further.
Qed.

(** The positions of the generator between the calls: replication [i] of
    [reps] began where the one before it had ended, the first of them at
    [pos], and the last of them ended at [pos']. *)
Lemma chained_starts reps : forall pos runs pos' i rep,
  chained phases draw num_assets pos reps runs pos' -> reps !! i = Some rep ->
  exists p p' res recs,
    (pos :: runs.*1.*1) !! i = Some p /\ (pos :: runs.*1.*1) !! S i = Some p' /\
    runs !! i = Some (p', res, recs) /\
    Simpy4.run_simulation_on phases draw p num_assets rep = Returns (p', res, recs).
Proof.
  induction reps as [|rep0 reps IH];
    intros pos [|[[p0 res0] recs0] runs] pos' i rep H Hi; try done.
  simpl in H. destruct H as [H1 H2].
  destruct i as [|i].
  - injection Hi as <-. by exists pos, p0, res0, recs0.
  - destruct (IH _ _ _ _ _ H2 Hi) as (p & p' & res & recs & ? & ? & ? & ?).
    by exists p, p', res, recs.
Qed.

Lemma chained_last reps : forall pos runs pos',
  chained phases draw num_assets pos reps runs pos' ->
  (pos :: runs.*1.*1) !! length reps = Some pos'.
Proof.
  induction reps as [|rep0 reps IH]; intros pos [|[[p0 res0] recs0] runs] pos' H;
    try done; simpl in H.
  - by subst.
  - destruct H as [_ H2]. by apply (IH _ _ _ H2).
Qed.

Lemma filter_none {A} (P : A -> Prop) `{forall x, Decision (P x)} (l : list A) :
  Forall (fun x => ~ P x) l -> filter P l = [].
Proof.
  induction 1 as [|x l Hx _ IH]; [done|]. by rewrite filter_cons_False.
Qed.

Lemma filter_all {A} (P : A -> Prop) `{forall x, Decision (P x)} (l : list A) :
  Forall P l -> filter P l = l.
Proof.
  induction 1 as [|x l Hx _ IH]; [done|]. rewrite filter_cons_True by done. by f_equal.
Qed.

Lemma chained_filter reps : forall pos runs pos' i rep p' res recs,
  NoDup reps -> chained phases draw num_assets pos reps runs pos' ->
  reps !! i = Some rep -> runs !! i = Some (p', res, recs) ->
  filter (fun r => replication r = rep) (concat (runs.*2)) = recs.
Proof.
  induction reps as [|rep0 reps IH];
    intros pos [|[[p0 res0] recs0] runs] pos' i rep p' res recs Hnd H Hi Hrun;
    try done. simpl in H. destruct H as [H1 H2].
  apply NoDup_cons in Hnd as [Hrep0 Hnd]. rewrite !fmap_cons, concat_cons, filter_app.
  pose proof (chained_replication _ _ _ _ H2) as Hother.
  destruct i as [|i]; simpl in Hi, Hrun; simpl snd.
  - injection Hi as <-. injection Hrun as <- <- <-.
    rewrite filter_all, filter_none, app_nil_r; [done| |].
    + eapply Forall_impl; [done|]. simpl. intros r Hr Heq. by rewrite Heq in Hr.
    + apply Forall_forall. intros r Hr.
      by apply (returned_replication _ _ _ _ _ _ _ _ _ H1).
  - rewrite filter_none, (IH _ _ _ _ _ _ _ _ Hnd H2 Hi Hrun); [done|].
    apply Forall_forall. intros r Hr.
    rewrite (returned_replication _ _ _ _ _ _ _ _ _ H1 r Hr). intros ->.
    apply Hrep0. by eapply list_elem_of_lookup_2.
Qed.

Lemma chained_keys reps : forall pos runs pos',
  NoDup reps -> chained phases draw num_assets pos reps runs pos' ->
  NoDup (row_key <$> concat (runs.*2)).
Proof.
  induction reps as [|rep0 reps IH]; intros pos [|[[p0 res0] recs0] runs] pos' Hnd H;
    try done; [constructor|].
  destruct H as [H1 H2]. apply NoDup_cons in Hnd as [Hrep0 Hnd].
  rewrite !fmap_cons, concat_cons, fmap_app. simpl snd. apply NoDup_app. split; [|split].
  - by eapply returned_keys_NoDup.
  - intros k (r1 & -> & Hr1)%list_elem_of_fmap (r2 & Hk & Hr2)%list_elem_of_fmap.
    pose proof (chained_replication _ _ _ _ H2) as Hother.
    rewrite Forall_forall in Hother. apply Hother in Hr2.
    apply (returned_replication _ _ _ _ _ _ _ _ _ H1) in Hr1.
    injection Hk as Hk _ _. congruence.
  - by eapply IH.
Qed.

End Replications.

(** X9. In the merged table of the script, the rows of replication [rep],
    taken in their order, are the record table that the call
    [run_simulation(num_assets, rep)] returned, and its [results] are the
    entry [rep - 1] of [all_results].  The calls are chained through the
    generator: the first began at the position the script began at, every
    later one at the position the call before it had ended at, and the script
    ended at the position the last call ended at. *)
Theorem all_records_by_replication
    (phases : list phase) (draw : nat -> float) (pos : nat)
    (num_replications num_assets : Z) (pos' : nat)
    (all_results : list (Z * gmap Z (gmap string phase_result)))
    (all_records : list record) :
  Simpy4_main.main_on phases draw pos num_replications num_assets
  = Returns (pos', all_results, all_records) ->
  exists positions : list nat,
    positions !! 0%nat = Some pos /\
    positions !! Z.to_nat num_replications = Some pos' /\
    forall rep, 1 <= rep <= num_replications ->
      exists p p' res,
        positions !! Z.to_nat (rep - 1) = Some p /\
        positions !! Z.to_nat rep = Some p' /\
        Simpy4.run_simulation_on phases draw p num_assets rep
        = Returns (p', res, filter (fun r => replication r = rep) all_records) /\
        all_results !! Z.to_nat (rep - 1) = Some (rep, res).
Proof.
  unfold Simpy4_main.main_on.
  intros (runs & Hch & -> & ->)%replications_chained.
  exists (pos :: runs.*1.*1). split; [done|]. split.
  { rewrite <- (length_seqZ 1 num_replications). by eapply chained_last. }
  intros rep Hrep.
  assert (seqZ 1 num_replications !! Z.to_nat (rep - 1) = Some rep) as Hi.
  { rewrite lookup_seqZ. split; lia. }
  destruct (chained_starts _ _ _ _ _ _ _ _ _ Hch Hi)
    as (p & p' & res & recs & Hp & Hp' & Hrun & Hret).
  exists p, p', res. split; [done|]. split.
  { by replace (Z.to_nat rep) with (S (Z.to_nat (rep - 1))) by lia. }
  simpl.
  rewrite (chained_filter _ _ _ _ _ _ _ _ _ _ _ _ (NoDup_seqZ _ _) Hch Hi Hrun).
  split; [done|].
  apply lookup_zip_with_Some. exists rep, res. split; [done|]. split; [done|].
  by rewrite !list_lookup_fmap, Hrun.
Qed.

(** X10. No two rows of the merged table of the script share their
    replication, asset id and phase index. *)
Theorem all_records_key
    (phases : list phase) (draw : nat -> float) (pos : nat)
    (num_replications num_assets : Z) (pos' : nat)
    (all_results : list (Z * gmap Z (gmap string phase_result)))
    (all_records : list record) :
  Simpy4_main.main_on phases draw pos num_replications num_assets
  = Returns (pos', all_results, all_records) ->
  NoDup ((fun r => (replication r, asset_id r, phase_idx r)) <$> all_records).
Proof.
  unfold Simpy4_main.main_on.
  intros (runs & Hch & -> & ->)%replications_chained. simpl.
  eapply chained_keys; [apply NoDup_seqZ|done].
Qed.

(** X11. A script that ends has read one draw for every asset of every
    replication and one for every row of the merged table. *)
Theorem main_draws_read
    (phases : list phase) (draw : nat -> float) (pos : nat)
    (num_replications num_assets : Z) (pos' : nat)
    (all_results : list (Z * gmap Z (gmap string phase_result)))
    (all_records : list record) :
  Simpy4_main.main_on phases draw pos num_replications num_assets
  = Returns (pos', all_results, all_records) ->
  pos' = (pos + Z.to_nat num_replications * Z.to_nat num_assets
          + length all_records)%nat.
Proof.
  unfold Simpy4_main.main_on.
  intros (runs & Hch & -> & ->)%replications_chained. simpl.
  apply chained_account in Hch. by rewrite length_seqZ in Hch.
Qed.

Lemma replications_safe phases draw num_assets reps :
  is_Some (phases !! 2%nat) ->
  Forall (fun ph => (duration ph <? 0)%float = false) phases ->
  (forall k, (0 <=? draw k)%float = true) ->
  forall pos ares arecs,
    exists pos' ares' arecs',
      Simpy4_main.replications phases draw num_assets reps pos ares arecs
      = Returns (pos', ares', arecs') /\
      ares'.*1 = ares.*1 ++ reps.
Proof.
  intros Hph Hdur Hdraw.
  induction reps as [|rep reps IH]; intros pos ares arecs; simpl.
  - exists pos, ares, arecs. by rewrite app_nil_r.
  - destruct (run_simulation_safe phases (Simpy4.start_time_of phases) draw rep
                num_assets pos) as (p & res & recs & Hret); [by apply Simpy4_safe|].
    unfold Simpy4.run_simulation_on. rewrite Hret.
    destruct (IH p (ares ++ [(rep, res)]) (arecs ++ recs))
      as (pos' & ares' & arecs' & -> & Hares).
    exists pos', ares', arecs'. split; [done|].
    by rewrite Hares, fmap_app, <- app_assoc.
Qed.

(** X12. On a table that meets the conditions of the specification and
    has a third phase, with draws that are not below zero, the script runs
    all its replications: [all_results] has one entry for each replication
    id, in the order 1, 2, ... *)
Theorem main_returns_every_replication
    (phases : list phase) (draw : nat -> float) (pos : nat)
    (num_replications num_assets : Z) :
  spec_valid_table phases = true -> is_Some (phases !! 2%nat) ->
  (forall k, (0 <=? draw k)%float = true) ->
  exists pos' all_results all_records,
    Simpy4_main.main_on phases draw pos num_replications num_assets
    = Returns (pos', all_results, all_records) /\
    all_results.*1 = seqZ 1 num_replications.
Proof.
  intros Hvalid Hph Hdraw. apply spec_valid_table_durations in Hvalid.
  destruct (replications_safe phases draw num_assets (seqZ 1 num_replications)
              Hph Hvalid Hdraw pos [] []) as (pos' & ares & arecs & H1 & H2).
  by exists pos', ares, arecs.
Qed.

(** ** The order of the doubles that are not below zero *)

Lemma leb_zero_SFnonneg x :
  (0 <=? x)%float = true <-> SFnonneg (Prim2SF x) = true.
Proof.
  rewrite leb_spec. change (Prim2SF 0) with (S754_zero false).
  by destruct (Prim2SF x) as [[|]|[|]| |[|] m e].
Qed.

Lemma scaled_bounds m e :
  bounded prec emax m e = true -> 0 < scaled m e < 2 ^ 2300.
Proof.
  intros (_ & He & Hm)%bounded_spec. unfold scaled.
  assert (0 < 2 ^ (e + 1200)) by (apply Z.pow_pos_nonneg; lia).
  split; [lia|].
  assert (2 ^ (e + 1200) <= 2 ^ 2171) by (apply Z.pow_le_mono_r; lia).
  assert (2 ^ 2300 = 2 ^ 53 * 2 ^ 2171 * 2 ^ 76) as -> by (by rewrite <- !Z.pow_add_r).
  assert (0 < 2 ^ 53) by lia.
  assert (1 <= 2 ^ 76) by lia. nia.
Qed.

Lemma SFrank_nonneg x : valid_binary x = true -> SFnonneg x = true -> 0 <= SFrank x.
Proof.
  destruct x as [[|]|[|]| |[|] m e]; simpl; try done; try lia.
  intros H%scaled_bounds _. lia.
Qed.

(** Two positive finite doubles compare as their values do. *)
Lemma SFcompare_scaled m1 e1 m2 e2 :
  bounded prec emax m1 e1 = true -> bounded prec emax m2 e2 = true ->
  SFcompare (S754_finite false m1 e1) (S754_finite false m2 e2)
  = Some (scaled m1 e1 ?= scaled m2 e2).
Proof.
  intros H1 H2.
  pose proof (SFleb_scaled m1 e1 m2 e2 H1 H2) as A.
  pose proof (SFleb_scaled m2 e2 m1 e1 H2 H1) as B.
  pose proof (SFleb_scaled_inv m1 e1 m2 e2 H1 H2) as C.
  pose proof (SFleb_scaled_inv m2 e2 m1 e1 H2 H1) as D.
  unfold SFleb in *.
  assert (SFcompare (S754_finite false m2 e2) (S754_finite false m1 e1)
          = option_map CompOpp
              (SFcompare (S754_finite false m1 e1) (S754_finite false m2 e2))) as Hopp.
  { simpl. rewrite (Z.compare_antisym e1 e2).
    change (Pos.compare_cont Eq m2 m1) with (m2 ?= m1)%positive.
    change (Pos.compare_cont Eq m1 m2) with (m1 ?= m2)%positive.
    rewrite (Pos.compare_antisym m1 m2). by destruct (e1 ?= e2). }
  rewrite Hopp in B, D.
  destruct (SFcompare (S754_finite false m1 e1) (S754_finite false m2 e2))
    as [[| |]|] eqn:E; simpl in *.
  - f_equal. symmetry. apply Z.compare_eq_iff. specialize (C eq_refl).
    specialize (D eq_refl). lia.
  - f_equal. symmetry. apply Z.compare_lt_iff. specialize (C eq_refl).
    destruct (Z_le_gt_dec (scaled m2 e2) (scaled m1 e1)) as [Hle|]; [|lia].
    by specialize (B Hle).
  - f_equal. symmetry. apply Z.compare_gt_iff. specialize (D eq_refl).
    destruct (Z_le_gt_dec (scaled m1 e1) (scaled m2 e2)) as [Hle|]; [|lia].
    by specialize (A Hle).
  - done.
Qed.

Lemma SFcompare_rank x y :
  valid_binary x = true -> valid_binary y = true ->
  SFnonneg x = true -> SFnonneg y = true ->
  SFcompare x y = Some (SFrank x ?= SFrank y).
Proof.
  destruct x as [[|]|[|]| |[|] m1 e1], y as [[|]|[|]| |[|] m2 e2];
    intros Hx Hy Nx Ny; try discriminate Nx; try discriminate Ny;
    try (by apply SFcompare_scaled);
    try (apply scaled_bounds in Hx); try (apply scaled_bounds in Hy);
    unfold SFrank, SFcompare; f_equal; symmetry;
    first [ apply Z.compare_eq_iff; lia
          | apply Z.compare_lt_iff; lia
          | apply Z.compare_gt_iff; lia ].
Qed.

Section Rank.

Variables x y : float.
Hypothesis x_nonneg : (0 <=? x)%float = true.
Hypothesis y_nonneg : (0 <=? y)%float = true.

Lemma compare_rank :
  SFcompare (Prim2SF x) (Prim2SF y) = Some (rank x ?= rank y).
Proof.
  apply SFcompare_rank; try apply Prim2SF_valid; by apply leb_zero_SFnonneg.
Qed.

Lemma leb_rank : (x <=? y)%float = (rank x <=? rank y).
Proof.
  rewrite leb_spec. unfold SFleb. rewrite compare_rank.
  unfold Z.leb. by destruct (rank x ?= rank y).
Qed.

Lemma ltb_rank : (x <? y)%float = (rank x <? rank y).
Proof.
  rewrite ltb_spec. unfold SFltb. rewrite compare_rank.
  unfold Z.ltb. by destruct (rank x ?= rank y).
Qed.

Lemma eqb_rank : (x =? y)%float = (rank x =? rank y).
Proof.
  rewrite FloatAxioms.eqb_spec. unfold SFeqb. rewrite compare_rank.
  destruct (Z.compare_spec (rank x) (rank y)) as [->|H|H].
  - by rewrite Z.eqb_refl.
  - symmetry. apply Z.eqb_neq. lia.
  - symmetry. apply Z.eqb_neq. lia.
Qed.

End Rank.

(** *** Rounding a positive value never gives a NaN or a negative double *)

Lemma shr_1_nonneg mrs : 0 <= shr_m mrs -> 0 <= shr_m (shr_1 mrs).
Proof. destruct mrs as [[|[p|p|]|p] r s]; simpl; lia. Qed.

Lemma shr_nonneg mrs e n : 0 <= shr_m mrs -> 0 <= shr_m (shr mrs e n).1.
Proof.
  intros H. unfold shr. destruct n as [|p|p]; simpl; try done.
  rewrite iter_pos_nat. induction (Pos.to_nat p) as [|k IH]; [done|].
  rewrite Nat.iter_succ. by apply shr_1_nonneg.
Qed.

Lemma shr_fexp_nonneg m e l : 0 <= m -> 0 <= shr_m (shr_fexp prec emax m e l).1.
Proof.
  intros H. unfold shr_fexp. apply shr_nonneg. by destruct l as [|[| |]].
Qed.

Lemma round_nearest_even_nonneg m l : 0 <= m -> 0 <= round_nearest_even m l.
Proof.
  intros H. unfold round_nearest_even. destruct l as [|[| |]]; try lia.
  destruct (Z.even m); lia.
Qed.

Lemma binary_round_aux_nonneg m e l :
  0 <= m -> SFnonneg (binary_round_aux prec emax false m e l) = true.
Proof.
  intros H. unfold binary_round_aux.
  pose proof (shr_fexp_nonneg m e l H) as H1.
  destruct (shr_fexp prec emax m e l) as [mrs' e']. simpl in H1.
  pose proof (shr_fexp_nonneg _ e' loc_Exact
                (round_nearest_even_nonneg _ (loc_of_shr_record mrs') H1)) as H2.
  destruct (shr_fexp prec emax _ e' loc_Exact) as [mrs'' e'']. simpl in H2.
  destruct (shr_m mrs'') as [|p|p]; [done| |lia]. by destruct (_ <=? _).
Qed.

Lemma binary_round_nonneg m e :
  SFnonneg (binary_round prec emax false m e) = true.
Proof.
  unfold binary_round. destruct (shl_align _ _ _) as [mz ez].
  by apply binary_round_aux_nonneg.
Qed.

Lemma binary_normalize_nonneg m e :
  0 <= m -> SFnonneg (binary_normalize prec emax m e false) = true.
Proof.
  intros H. destruct m as [|p|p]; [done| |lia]. apply binary_round_nonneg.
Qed.

(** *** Sums and products of doubles that are not below zero *)

Lemma SFadd_nonneg x d :
  SFnonneg x = true -> SFnonneg d = true -> SFnonneg (SF64add x d) = true.
Proof.
  destruct x as [[|]|[|]| |[|] m1 e1], d as [[|]|[|]| |[|] m2 e2]; try done.
  intros _ _. unfold SF64add, SFadd. cbv zeta. simpl cond_Zopp.
  apply binary_normalize_nonneg. lia.
Qed.

Lemma SFleb_refl_finite m e :
  SFleb (S754_finite false m e) (S754_finite false m e) = true.
Proof. apply SFleb_finite. right. split; [done|lia]. Qed.

Lemma SFadd_increases x d :
  valid_binary x = true -> valid_binary d = true ->
  SFnonneg x = true -> SFnonneg d = true -> SFleb x (SF64add x d) = true.
Proof.
  destruct x as [[|]|[|]| |[|] m1 e1], d as [[|]|[|]| |[|] m2 e2];
    intros Hx Hd Nx Nd; try done; try apply SFleb_refl_finite.
  unfold SF64add, SFadd. cbv zeta. simpl cond_Zopp. simpl in Hx, Hd.
  destruct (bounded_spec _ _ Hx) as (_ & He1 & _).
  destruct (bounded_spec _ _ Hd) as (_ & He2 & _).
  set (ez := Z.min e1 e2).
  assert (ez <= e1 /\ ez <= e2 /\ -1200 <= ez) as (Hz1 & Hz2 & Hz) by (subst ez; lia).
  pose proof (shl_align_scaled m1 e1 ez Hz1 Hz) as Hs1.
  pose proof (shl_align_scaled m2 e2 ez Hz2 Hz) as Hs2.
  change (Z.pos (fst (shl_align m1 e1 ez)) + Z.pos (fst (shl_align m2 e2 ez)))
    with (Z.pos (fst (shl_align m1 e1 ez) + fst (shl_align m2 e2 ez))).
  simpl binary_normalize.
  apply binary_round_ge; [done|done|].
  rewrite <- Hs1. unfold scaled. rewrite Pos2Z.inj_add.
  assert (0 < 2 ^ (ez + 1200)) by (apply Z.pow_pos_nonneg; lia). nia.
Qed.

(** Adding a delay that is not below zero moves the clock forward, if at
    all. *)
Lemma add_rank (x d : float) :
  (0 <=? x)%float = true -> (0 <=? d)%float = true ->
  (0 <=? x + d)%float = true /\ rank x <= rank (x + d).
Proof.
  intros Hx Hd.
  assert ((0 <=? x + d)%float = true) as Hs.
  { apply leb_zero_SFnonneg. rewrite add_spec.
    by apply SFadd_nonneg; apply leb_zero_SFnonneg. }
  split; [done|]. apply Z.leb_le. rewrite <- leb_rank by done.
  rewrite leb_spec, add_spec.
  apply SFadd_increases; try apply Prim2SF_valid; by apply leb_zero_SFnonneg.
Qed.

Lemma SFmul_nonneg x y :
  SFnonneg x = true -> SFnonneg y = true ->
  SFltb x (S754_infinity false) = true -> SFltb y (S754_infinity false) = true ->
  SFnonneg (SF64mul x y) = true.
Proof.
  destruct x as [[|]|[|]| |[|] m1 e1], y as [[|]|[|]| |[|] m2 e2]; try done.
  intros _ _ _ _. unfold SF64mul, SFmul. simpl xorb. by apply binary_round_aux_nonneg.
Qed.

Lemma uniform_nonneg d u :
  (0 <=? d)%float = true -> (d <? infinity)%float = true ->
  (0 <=? u)%float = true -> (u <? 1)%float = true ->
  (0 <=? uniform 0 d u)%float = true.
Proof.
  rewrite !leb_zero_SFnonneg, !ltb_spec. unfold uniform.
  rewrite add_spec, mul_spec, sub_spec.
  change (Prim2SF 0) with (S754_zero false).
  change (Prim2SF infinity) with (S754_infinity false).
  change (Prim2SF 1) with (S754_finite false 4503599627370496 (-52)).
  intros Hd Hd' Hu Hu'. apply SFadd_nonneg; [done|].
  assert (SFnonneg (SF64sub (Prim2SF d) (S754_zero false)) = true /\
          SFltb (SF64sub (Prim2SF d) (S754_zero false)) (S754_infinity false) = true)
    as [H1 H2] by (by destruct (Prim2SF d) as [[|]|[|]| |[|] m e]).
  assert (SFltb (Prim2SF u) (S754_infinity false) = true) as Hu''
    by (by destruct (Prim2SF u) as [[|]|[|]| |[|] m e]).
  by apply SFmul_nonneg.
Qed.

Lemma float_of_int_nonneg z : 0 <= z -> (0 <=? float_of_int z)%float = true.
Proof.
  intros Hz. apply leb_zero_SFnonneg. unfold float_of_int.
  rewrite (proj2 (Z.ltb_ge z 0)) by lia. rewrite of_uint63_spec.
  apply binary_normalize_nonneg.
  by destruct (Uint63.to_Z_bounded (Uint63.of_Z z)).
Qed.

Lemma Simpy6_start_time_nonneg a u :
  1 <= a -> (0 <=? u)%float = true -> (u <? 1)%float = true ->
  (0 <=? float_of_int (Simpy6.year_of a * 52) + uniform 0 52 u)%float = true.
Proof.
  intros Ha Hu Hu'. apply add_rank.
  - apply float_of_int_nonneg. unfold Simpy6.year_of, Simpy6.ASSETS_PER_YEAR.
    assert (0 <= (a - 1) `div` 50); [apply Z.div_pos; lia | lia].
  - by apply uniform_nonneg.
Qed.

(** ** The clock never runs backwards *)

Lemma entry_lt_rank x y :
  (0 <=? entry_time x)%float = true -> (0 <=? entry_time y)%float = true ->
  (entry_lt x y = true -> rank (entry_time x) <= rank (entry_time y)) /\
  (entry_lt x y = false -> rank (entry_time y) <= rank (entry_time x)).
Proof.
  intros Hx Hy. unfold entry_lt.
  rewrite (eqb_rank _ _ Hx Hy), (ltb_rank _ _ Hx Hy).
  destruct (Z.eqb_spec (rank (entry_time x)) (rank (entry_time y))) as [->|Hne]; simpl.
  - split; lia.
  - split; [intros ?%Z.ltb_lt|intros ?%Z.ltb_ge]; lia.
Qed.

(** [heappop] returns an entry that is due no later than any other. *)
Lemma pop_min_least (q : list entry) : forall x m r,
  Forall (fun z => (0 <=? entry_time z)%float = true) (x :: q) ->
  pop_min x q = (m, r) ->
  Forall (fun z => rank (entry_time m) <= rank (entry_time z)) (x :: q).
Proof.
  induction q as [|y q IH]; intros x m r Hq H; simpl in H.
  - injection H as <- <-. by repeat constructor.
  - apply Forall_cons in Hq as [Hx Hq].
    destruct (pop_min y q) as [m' r'] eqn:E.
    specialize (IH _ _ _ Hq E).
    assert ((0 <=? entry_time m')%float = true) as Hm'.
    { apply pop_min_split in E as (l1 & l2 & Hl & _).
      rewrite Forall_forall in Hq. apply Hq. rewrite Hl, elem_of_app, elem_of_cons. auto. }
    destruct (entry_lt_rank m' x Hm' Hx) as [Hlt Hge].
    destruct (entry_lt m' x); injection H as <- <-.
    + constructor; [by apply Hlt|done].
    + constructor; [apply Z.le_refl|]. eapply Forall_impl; [exact IH|]. intros z Hz.
      specialize (Hge eq_refl). cbv beta in *. lia.
Qed.

Lemma heappop_least q m r :
  Forall (fun z => (0 <=? entry_time z)%float = true) q ->
  heappop q = Some (m, r) ->
  Forall (fun z => rank (entry_time m) <= rank (entry_time z)) q.
Proof.
  destruct q as [|x q]; [done|]. simpl. intros Hq [= H]. by eapply pop_min_least.
Qed.

Lemma zero_add_rank s :
  (0 <=? s)%float = true -> (0 <=? 0 + s)%float = true /\ rank (0 + s) = rank s.
Proof.
  rewrite !leb_zero_SFnonneg. unfold rank. rewrite add_spec.
  change (Prim2SF 0) with (S754_zero false).
  by destruct (Prim2SF s) as [[|]|[|]| |[|] m e].
Qed.

Lemma nonneg_not_ltb_zero d : (0 <=? d)%float = true -> (d <? 0)%float = false.
Proof.
  rewrite leb_spec, ltb_spec. change (Prim2SF 0) with (S754_zero false).
  by destruct (Prim2SF d) as [[|]|[|]| |[|] m e].
Qed.

Section OnTime.

Variable phases : list phase.
Variable start_time_of : Z -> exn + (float -> float).
Variable draw : nat -> float.
Variable replication_id : Z.

Hypothesis durations : Forall (fun ph => (0 <=? duration ph)%float = true) phases.
Hypothesis start_times :
  forall a f k, 1 <= a -> start_time_of a = inr f -> (0 <=? f (draw k))%float = true.

Lemma on_time_schedule st ev p d :
  on_time st -> (0 <=? d)%float = true -> event_ok ev ->
  on_time (schedule st ev p d).
Proof.
  intros (Hnow & Hq & Hr & Hc) Hd Hev. repeat split; simpl; try done.
  apply Forall_app. split; [done|]. apply Forall_singleton.
  destruct (add_rank (now st) d Hnow Hd). by repeat split.
Qed.

Lemma on_time_env_timeout st a k d :
  on_time st -> (0 <=? d)%float = true -> event_ok (Timeout a k) ->
  on_time (env_timeout st a k d).
Proof.
  intros H Hd Hk. unfold env_timeout, throw.
  destruct (d <? 0)%float; by apply on_time_schedule.
Qed.

Lemma on_time_for_loop st a s idx rest cur prs ok :
  on_time st -> Forall (fun ph => (0 <=? duration ph)%float = true) rest ->
  on_time (for_loop st a s idx rest cur prs ok).
Proof.
  intros H Hrest. unfold for_loop, stop.
  destruct rest as [|ph rest']; [|destruct ok].
  - by apply on_time_schedule.
  - apply Forall_cons in Hrest as [Hph Hrest]. by apply on_time_env_timeout.
  - by apply on_time_schedule.
Qed.

Lemma on_time_asset_trajectory st ev :
  on_time st -> event_ok ev ->
  on_time (asset_trajectory phases start_time_of draw replication_id st ev).
Proof.
  intros H Hev.
  destruct ev as [a|a [s|s idx ph rest cur prs]|a exc]; simpl; try done.
  - destruct (start_time_of a) as [x|f] eqn:Hs.
    + by apply on_time_schedule.
    + by apply on_time_env_timeout; [|eapply start_times|].
  - by apply on_time_for_loop.
  - apply on_time_for_loop; [|done].
    destruct H as (Hnow & Hq & Hr & Hc). repeat split; simpl; try done.
    + apply Forall_app. split; [done|]. apply Forall_singleton. simpl. split; [done|lia].
    + apply StronglySorted_snoc; [done|].
      eapply Forall_impl; [done|]. simpl. intros r [Hr1 Hr2].
      rewrite leb_rank by done. by apply Z.leb_le.
Qed.

Lemma step_on_time st st' :
  step phases start_time_of draw replication_id st = Some (Returns st') ->
  on_time st -> on_time st'.
Proof.
  intros Hstep (Hnow & Hq & Hr & Hc).
  unfold step in Hstep.
  destruct (heappop (queue st)) as [[[[[t p] e] ev] q]|] eqn:E; [|done].
  assert (Forall (fun z => (0 <=? entry_time z)%float = true) (queue st)) as Hq0.
  { eapply Forall_impl; [done|]. simpl. tauto. }
  pose proof (heappop_least _ _ _ Hq0 E) as Hleast.
  apply heappop_split in E as (l1 & l2 & Hl & ->).
  rewrite Hl in Hq, Hleast.
  apply Forall_app in Hq as [Hq1 [(Ht & Hnt & Hev) Hq2]%Forall_cons].
  apply Forall_app in Hleast as [Hl1 [_ Hl2]%Forall_cons].
  unfold entry_time, entry_event in Ht, Hnt, Hev. simpl in Ht, Hnt, Hev.
  assert (on_time (State t (l1 ++ l2) (eid st) (rng st) (results st) (records st)))
    as Hst1.
  { repeat split; simpl; try done.
    - rewrite Forall_forall in Hq1, Hq2, Hl1, Hl2.
      apply Forall_forall. intros z [Hz|Hz]%elem_of_app.
      + destruct (Hq1 z Hz) as (? & ? & ?). specialize (Hl1 z Hz). by repeat split.
      + destruct (Hq2 z Hz) as (? & ? & ?). specialize (Hl2 z Hz). by repeat split.
    - eapply Forall_impl; [exact Hr|]. intros r [? ?]. cbv beta in *. split; [done|lia]. }
  assert (st' = asset_trajectory phases start_time_of draw replication_id
                 (State t (l1 ++ l2) (eid st) (rng st) (results st) (records st)) ev)
    as ->.
  { cbv zeta in Hstep.
    destruct ev as [a|a k|a [x|]]; try done; injection Hstep as <-; reflexivity. }
  by apply on_time_asset_trajectory.
Qed.

Lemma run_on_time fuel : forall st st',
  run phases start_time_of draw replication_id fuel st = Returns st' ->
  on_time st -> on_time st'.
Proof.
  induction fuel as [|fuel IH]; intros st st' H Hst; [done|].
  simpl in H. destruct (step _ _ _ _ st) as [[st1| |]|] eqn:E; try done.
  - apply (IH st1); [done|]. by eapply step_on_time.
  - by injection H as <-.
Qed.

Lemma on_time_spawn ids : forall st,
  on_time st -> Forall (fun a => 1 <= a) ids -> on_time (spawn st ids).
Proof.
  induction ids as [|a ids IH]; intros st H Hids; [done|].
  apply Forall_cons in Hids as [Ha Hids].
  rewrite spawn_cons. apply IH; [|done]. by apply on_time_schedule.
Qed.

Lemma run_simulation_on_time pos num_assets pos' res recs :
  run_simulation phases start_time_of draw replication_id pos num_assets
  = Returns (pos', res, recs) ->
  chronological recs.
Proof.
  unfold run_simulation.
  destruct (run _ _ _ _ _ _) as [st| |] eqn:E; try done.
  intros [= <- <- <-].
  apply run_on_time in E; [by destruct E as (_ & _ & _ & ?)|].
  apply on_time_spawn.
  - repeat split; simpl; try done; constructor.
  - apply Forall_forall. intros a Ha. unfold asset_ids in Ha.
    apply elem_of_seqZ in Ha. lia.
Qed.

(** The clock of an asset only moves forward. *)
Lemma clock_rank (l : list phase) : forall t0,
  Forall (fun ph => (0 <=? duration ph)%float = true) l ->
  (0 <=? t0)%float = true ->
  (0 <=? foldl (fun t ph => (t + duration ph)%float) t0 l)%float = true /\
  rank t0 <= rank (foldl (fun t ph => (t + duration ph)%float) t0 l).
Proof.
  induction l as [|ph l IH]; intros t0 Hl Ht0; simpl; [split; [done|lia]|].
  apply Forall_cons in Hl as [Hph Hl].
  destruct (add_rank t0 (duration ph) Ht0 Hph) as [H1 H2].
  destruct (IH _ Hl H1) as [H3 H4]. split; [done|lia].
Qed.

End OnTime.

Lemma lt_one_finite u : (u <? 1)%float = true -> (u <? infinity)%float = true.
Proof.
  rewrite !ltb_spec.
  change (Prim2SF 1) with (S754_finite false 4503599627370496 (-52)).
  change (Prim2SF infinity) with (S754_infinity false).
  by destruct (Prim2SF u) as [[|]|[|]| |[|] m e].
Qed.

(** In both scripts [start_time] is not below zero (and no NaN) when the
    durations are finite and not below zero and the draws lie in [0, 1). *)
Lemma script_start_times phases f (draw : nat -> float) :
  script_rule phases f ->
  Forall (fun ph => (0 <=? duration ph)%float = true /\
                    (duration ph <? infinity)%float = true) phases ->
  (forall k, (0 <=? draw k)%float = true /\ (draw k <? 1)%float = true) ->
  forall a g k, 1 <= a -> f a = inr g -> (0 <=? g (draw k))%float = true.
Proof.
  intros [->| ->] Hdur Hdraw a g k Ha Hg; destruct (Hdraw k) as [H0 H1].
  - unfold Simpy4.start_time_of in Hg.
    destruct (phases !! 2%nat) as [ph|] eqn:Hph; [|done]. injection Hg as <-.
    rewrite Forall_forall in Hdur.
    destruct (Hdur ph) as [? ?]; [by eapply list_elem_of_lookup_2|].
    by apply uniform_nonneg.
  - injection Hg as <-. by apply Simpy6_start_time_nonneg.
Qed.

(** X13. With finite durations that are not below zero and draws in
    [[0, 1)], the record table of a run of either script is in the order of
    [phase_end_time]: no row ends before a row written earlier. *)
Theorem records_are_chronological
    (phases : list phase) (start_time_of : Z -> exn + (float -> float))
    (draw : nat -> float) (replication_id : Z) (pos : nat) (num_assets : Z)
    (pos' : nat) (res : gmap Z (gmap string phase_result)) (recs : list record) :
  script_rule phases start_time_of ->
  Forall (fun ph => (0 <=? duration ph)%float = true /\
                    (duration ph <? infinity)%float = true) phases ->
  (forall k, (0 <=? draw k)%float = true /\ (draw k <? 1)%float = true) ->
  run_simulation phases start_time_of draw replication_id pos num_assets
  = Returns (pos', res, recs) ->
  StronglySorted
    (fun r1 r2 => (phase_end_time r1 <=? phase_end_time r2)%float = true) recs.
Proof.
  intros Hrule Hdur Hdraw Hret.
  eapply run_simulation_on_time; [| |done].
  - eapply Forall_impl; [done|]. simpl. tauto.
  - by eapply script_start_times.
Qed.

(** X14. With finite durations that are not below zero and draws in
    [[0, 1)], every row of either script has
    [0 <= asset_init_time <= phase_start_time <= phase_end_time]. *)
Theorem row_times_in_order
    (phases : list phase) (start_time_of : Z -> exn + (float -> float))
    (draw : nat -> float) (replication_id : Z) (pos : nat) (num_assets : Z)
    (pos' : nat) (res : gmap Z (gmap string phase_result)) (recs : list record) :
  script_rule phases start_time_of ->
  Forall (fun ph => (0 <=? duration ph)%float = true /\
                    (duration ph <? infinity)%float = true) phases ->
  (forall k, (0 <=? draw k)%float = true /\ (draw k <? 1)%float = true) ->
  run_simulation phases start_time_of draw replication_id pos num_assets
  = Returns (pos', res, recs) ->
  forall r, r ∈ recs ->
    (0 <=? asset_init_time r)%float = true /\
    (asset_init_time r <=? phase_start_time r)%float = true /\
    (phase_start_time r <=? phase_end_time r)%float = true.
Proof.
  intros Hrule Hdur Hdraw Hret r Hr.
  assert (Forall (fun ph => (0 <=? duration ph)%float = true) phases) as Hdur'.
  { eapply Forall_impl; [done|]. simpl. tauto. }
  assert (r ∈ rows_of (asset_id r) recs) as [k Hk]%list_elem_of_lookup
    by by apply rows_of_elem.
  destruct (returned_row _ _ _ _ _ _ _ _ _ Hret _ _ _ Hk)
    as (s & ph & o & Hph & E & _ & [Ha _] & f & j & Hf & Hs).
  assert ((0 <=? s)%float = true) as Hs0.
  { rewrite Hs. by eapply (script_start_times phases start_time_of draw). }
  destruct (zero_add_rank s Hs0) as [Hz0 Hz1].
  destruct (clock_rank (take k phases) (0 + s)%float) as [Hc0 Hc1];
    [by apply Forall_take|done|].
  fold (clock phases (0 + s) k) in Hc0, Hc1.
  assert ((0 <=? duration ph)%float = true) as Hd.
  { rewrite Forall_forall in Hdur'. apply Hdur'. by eapply list_elem_of_lookup_2. }
  destruct (add_rank _ _ Hc0 Hd) as [He0 He1].
  rewrite E. simpl. split; [done|].
  rewrite !leb_rank by done. split; apply Z.leb_le; lia.
Qed.

(** ** Arrival times of the single-window script *)

Lemma uniform_52_bounds u :
  (0 <=? u)%float = true -> (u <? 1)%float = true ->
  (0 <=? uniform 0 52 u)%float = true /\ (uniform 0 52 u <=? 52)%float = true.
Proof.
  intros H0 H1. rewrite !leb_spec.
  change (Prim2SF 0) with (S754_zero false).
  change (Prim2SF 52) with (S754_finite false 7318349394477056 (-47)).
  destruct (uniform_52_window u H0 H1) as [->|(m & e & -> & Hb & Hv)]; [done|].
  split; [done|]. apply SFleb_scaled; [done|done|].
  etrans; [done|]. by vm_compute.
Qed.

(** X15. In simpy4 with the table of the script and draws in [[0, 1)],
    every [asset_init_time] is [random.uniform(0, 52)] of one of the draws and
    lies between 0 and 52, both ends included. *)
Theorem Simpy4_arrival_window
    (draw : nat -> float) (pos : nat) (num_assets replication_id : Z) (pos' : nat)
    (res : gmap Z (gmap string phase_result)) (recs : list record) :
  (forall k, (0 <=? draw k)%float = true /\ (draw k <? 1)%float = true) ->
  Simpy4.run_simulation draw pos num_assets replication_id
  = Returns (pos', res, recs) ->
  forall r, r ∈ recs ->
    (exists k, asset_init_time r = uniform 0 52 (draw k)) /\
    (0 <=? asset_init_time r)%float = true /\
    (asset_init_time r <=? 52)%float = true.
Proof.
  intros Hdraw Hret r Hr.
  assert (r ∈ rows_of (asset_id r) recs) as [k Hk]%list_elem_of_lookup
    by by apply rows_of_elem.
  destruct (returned_row _ _ _ _ _ _ _ _ _ Hret _ _ _ Hk)
    as (s & ph & o & _ & E & _ & _ & f & j & Hf & ->).
  injection Hf as <-.
  assert (asset_init_time r = uniform 0 52 (draw j)) as -> by (by rewrite E).
  split; [by exists j|]. destruct (Hdraw j). by apply uniform_52_bounds.
Qed.

(** ** simpy2 and simpy4 run the same simulation *)

Lemma list_to_map_dict_set {V} (d : list (Z * V)) k v :
  list_to_map (M := gmap Z V) (Simpy2.dict_set d k v) = <[k := v]> (list_to_map d).
Proof.
  induction d as [|[k' v'] d IH]; simpl; [done|].
  destruct (decide (k' = k)) as [->|Hne]; simpl.
  - by rewrite insert_insert_eq.
  - by rewrite IH, insert_insert_ne.
Qed.

Lemma dict_set_keys {V} (d : list (Z * V)) k v :
  (Simpy2.dict_set d k v).*1 = d.*1 \/
  (Simpy2.dict_set d k v).*1 = d.*1 ++ [k] /\ k ∉ d.*1.
Proof.
  induction d as [|[k' v'] d IH]; csimpl.
  - right. split; [done|apply not_elem_of_nil].
  - destruct (decide (k' = k)) as [->|Hne]; csimpl.
    + by left.
    + destruct IH as [H|[H1 H2]]; [left|right]; [by rewrite H|rewrite H1].
      split; [done|]. rewrite not_elem_of_cons. by split.
Qed.

Lemma dict_set_NoDup {V} (d : list (Z * V)) k v :
  NoDup d.*1 -> NoDup (Simpy2.dict_set d k v).*1.
Proof.
  intros H. destruct (dict_set_keys d k v) as [->|[-> Hk]]; [done|].
  apply NoDup_app. split; [done|]. split; [|apply NoDup_singleton].
  intros x Hx ->%list_elem_of_singleton. done.
Qed.

Section SameRun.

Variable phases : list phase.
Variable draw : nat -> float.
Variable replication_id : Z.

Lemma same_run_print s2 s4 l :
  is_Completed l = false -> same_run s2 s4 -> same_run (Simpy2.print s2 l) s4.
Proof.
  intros Hl (? & ? & ? & ? & ? & Hout & ?). repeat split; simpl; try done.
  rewrite filter_app, filter_cons_False; [|rewrite Hl; intros []].
  by rewrite filter_nil, app_nil_r.
Qed.

Lemma same_run_schedule s2 s4 ev p d :
  same_run s2 s4 -> same_run (Simpy2.schedule s2 ev p d) (schedule s4 ev p d).
Proof.
  intros (Hn & Hq & He & ? & ? & ? & ?). repeat split; simpl; try done.
  - by rewrite Hn, Hq, He.
  - by rewrite He.
Qed.

Lemma same_run_env_timeout s2 s4 a k d :
  same_run s2 s4 -> same_run (Simpy2.env_timeout s2 a k d) (env_timeout s4 a k d).
Proof.
  intros H. unfold Simpy2.env_timeout, env_timeout, Simpy2.throw, throw.
  destruct (d <? 0)%float; by apply same_run_schedule.
Qed.

Lemma same_run_stop s2 s4 a prs :
  same_run s2 s4 -> same_run (Simpy2.stop s2 a prs) (stop s4 a prs).
Proof.
  intros (Hn & Hq & He & ? & Hr & ? & ?). unfold Simpy2.stop, stop.
  apply same_run_schedule. repeat split; simpl; try done.
  - by rewrite list_to_map_dict_set, Hr.
  - by apply dict_set_NoDup.
Qed.

Lemma same_run_for_loop s2 s4 a s idx rest cur prs ok :
  same_run s2 s4 ->
  same_run (Simpy2.for_loop s2 a s idx rest cur prs ok)
           (for_loop s4 a s idx rest cur prs ok).
Proof.
  intros H. unfold Simpy2.for_loop, for_loop.
  destruct rest as [|ph rest']; [by apply same_run_stop|].
  destruct ok; [|by apply same_run_stop].
  by apply same_run_env_timeout, same_run_print.
Qed.

Lemma same_run_asset_trajectory s2 s4 ev :
  same_run s2 s4 ->
  same_run (Simpy2.asset_trajectory phases draw s2 ev)
           (asset_trajectory phases (Simpy4.start_time_of phases) draw
                             replication_id s4 ev).
Proof.
  intros H. pose proof H as (Hn & Hq & He & Hg & Hr & Hout & Hnd).
  destruct ev as [a|a [s|s idx ph rest cur prs]|a exc]; simpl; try done.
  - unfold Simpy4.start_time_of. destruct (phases !! 2%nat) as [ph2|].
    + rewrite Hg. apply same_run_env_timeout. by repeat split; simpl; try done.
    + by apply same_run_schedule.
  - rewrite Hn. pose proof (same_run_print s2 s4 (Simpy2.Initialized a (now s4)) eq_refl H)
      as H'.
    by apply same_run_for_loop.
  - rewrite Hn, Hg.
    match goal with
    | |- same_run (Simpy2.for_loop ?x _ _ _ _ _ _ _) (for_loop ?y _ _ _ _ _ _ _) =>
        assert (same_run x y) as H'
    end.
    { repeat split; simpl; try done.
      rewrite filter_app, filter_cons_True, filter_nil by done.
      by rewrite fmap_app, Hout. }
    by apply same_run_for_loop.
Qed.

Lemma same_run_step s2 s4 :
  same_run s2 s4 ->
  match Simpy2.step phases draw s2,
        step phases (Simpy4.start_time_of phases) draw replication_id s4 with
  | None, None => True
  | Some (Raises x2), Some (Raises x4) => x2 = x4
  | Some (Returns s2'), Some (Returns s4') => same_run s2' s4'
  | _, _ => False
  end.
Proof.
  intros H. pose proof H as (Hn & Hq & He & Hg & Hr & Hout & Hnd).
  unfold Simpy2.step, step. rewrite Hq.
  destruct (heappop (queue s4)) as [[[[[t p] e] ev] q]|]; [|done].
  cbv zeta.
  assert (same_run (Simpy2.State t q (Simpy2.eid s2) (Simpy2.rng s2)
                      (Simpy2.results s2) (Simpy2.stdout s2))
                   (State t q (eid s4) (rng s4) (results s4) (records s4))) as H'
    by by repeat split.
  destruct ev as [a|a k|a [x|]]; try done; by apply same_run_asset_trajectory.
Qed.

Lemma same_run_run fuel : forall s2 s4,
  same_run s2 s4 ->
  match Simpy2.run phases draw fuel s2,
        run phases (Simpy4.start_time_of phases) draw replication_id fuel s4 with
  | Returns s2', Returns s4' => same_run s2' s4'
  | Raises x2, Raises x4 => x2 = x4
  | OutOfFuel, OutOfFuel => True
  | _, _ => False
  end.
Proof.
  induction fuel as [|fuel IH]; intros s2 s4 H; simpl; [done|].
  pose proof (same_run_step s2 s4 H) as Hstep.
  destruct (Simpy2.step phases draw s2) as [[s2'|x2|]|],
           (step phases _ draw replication_id s4) as [[s4'|x4|]|]; try done.
  by apply IH.
Qed.

Lemma same_run_spawn ids : forall s2 s4,
  same_run s2 s4 -> same_run (Simpy2.spawn s2 ids) (spawn s4 ids).
Proof.
  induction ids as [|a ids IH]; intros s2 s4 H; [done|].
  simpl. apply IH. by apply same_run_schedule.
Qed.

End SameRun.

Lemma same_run_run_simulation phases draw pos num_assets replication_id :
  match Simpy2.run_simulation_on phases draw pos num_assets,
        Simpy4.run_simulation_on phases draw pos num_assets replication_id with
  | Returns (pos2, out, results2), Returns (pos4, results4, records) =>
      pos2 = pos4 /\ list_to_map results2 = results4 /\
      filter (fun l => is_Completed l) out = completed_line <$> records /\
      NoDup results2.*1
  | Raises x2, Raises x4 => x2 = x4
  | _, _ => False
  end.
Proof.
  unfold Simpy2.run_simulation_on, Simpy4.run_simulation_on, run_simulation.
  pose proof (same_run_run phases draw replication_id (fuel_for phases num_assets)
                (Simpy2.spawn (Simpy2.fresh pos) (asset_ids num_assets))
                (spawn (fresh pos) (asset_ids num_assets))) as H.
  pose proof (run_simulation_total phases (Simpy4.start_time_of phases) draw
                replication_id pos num_assets) as Htot.
  unfold run_simulation in Htot.
  assert (same_run (Simpy2.fresh pos) (fresh pos)) as H0.
  { repeat split; simpl; try done. constructor. }
  destruct (Simpy2.run _ _ _ _) as [s2| |], (run _ _ _ _ _ _) as [s4| |];
    try done; try (by apply H, same_run_spawn).
Qed.

(** X16. simpy2 and simpy4 run the same simulation: from the same
    generator state, on the same table and asset count, both return or both
    raise the same exception; when they return, the generator is at the same
    position, [results] holds the same entries, and the lines simpy2 printed
    on the completion of a phase are the rows of simpy4's record table, in
    their order. *)
Theorem Simpy2_runs_as_Simpy4
    (phases : list phase) (draw : nat -> float) (pos : nat)
    (num_assets replication_id : Z) :
  match Simpy2.run_simulation_on phases draw pos num_assets,
        Simpy4.run_simulation_on phases draw pos num_assets replication_id with
  | Returns (pos2, out, results2), Returns (pos4, results4, records) =>
      pos2 = pos4 /\ list_to_map results2 = results4 /\
      filter (fun l => is_Completed l) out
      = (fun r => Simpy2.Completed (asset_id r) (phase_name r) (phase_end_time r)
                                   (phase_outcome r)) <$> records
  | Raises x2, Raises x4 => x2 = x4
  | _, _ => False
  end.
Proof.
  pose proof (same_run_run_simulation phases draw pos num_assets replication_id) as H.
  destruct (Simpy2.run_simulation_on phases draw pos num_assets)
    as [[[p2 out] res2]| |],
    (Simpy4.run_simulation_on phases draw pos num_assets replication_id)
    as [[[p4 res4] recs]| |]; try done.
  by destruct H as (? & ? & ? & _).
Qed.

(** ** The summary printed at the end *)

Section Summary.

Variable phases : list phase.
Variable replication_id : Z.
Variable a : Z.
Variable s : float.
Variable rows : list record.
Hypothesis names : NoDup (name <$> phases).
Hypothesis rows_are_ok : rows_ok phases replication_id a s rows.

Lemma rows_ok_name k r ph :
  rows !! k = Some r -> phases !! k = Some ph -> phase_name r = name ph.
Proof.
  intros Hk Hph. destruct (rows_are_ok k r Hk) as (ph' & o & Hph' & -> & _).
  simpl. congruence.
Qed.

Lemma rows_ok_names_differ i j ri rj :
  rows !! i = Some ri -> rows !! j = Some rj -> phase_name ri = phase_name rj -> i = j.
Proof.
  intros Hi Hj Hname.
  destruct (rows_are_ok _ _ Hi) as (phi & oi & Hphi & -> & _).
  destruct (rows_are_ok _ _ Hj) as (phj & oj & Hphj & -> & _).
  simpl in Hname.
  apply (NoDup_lookup (name <$> phases) i j (name phi)); [done|..];
    rewrite list_lookup_fmap; [by rewrite Hphi | by rewrite Hphj, Hname].
Qed.

(** The loop lists the rows of the asset, all of them and in their order:
    its [break] only ends it after the last. *)
Lemma summary_of_drop rest : forall k,
  drop k phases = rest ->
  Simpy2.summary_of rest (dict_of rows) = started_line <$> drop k rows.
Proof.
  induction rest as [|ph rest IH]; intros k Hdrop; simpl.
  - rewrite drop_ge; [done|].
    apply (f_equal length) in Hdrop. rewrite length_drop in Hdrop. simpl in Hdrop.
    destruct (decide (length rows <= k)%nat) as [|Hlt]; [done|].
    destruct (lookup_lt_is_Some_2 rows k ltac:(lia)) as [r Hr].
    destruct (rows_are_ok k r Hr) as (ph' & o & Hph' & _).
    apply lookup_lt_Some in Hph'. lia.
  - pose proof (drop_head _ _ _ _ Hdrop) as Hph.
    pose proof (drop_tail _ _ _ _ Hdrop) as Hrest.
    destruct (rows !! k) as [r|] eqn:Hr.
    + rewrite <- (rows_ok_name k r ph Hr Hph).
      rewrite (dict_of_lookup_row rows k r rows_ok_names_differ Hr).
      rewrite (drop_S _ _ _ Hr), fmap_cons. f_equal. by apply IH.
    + destruct (dict_of rows !! name ph) as [v|] eqn:Hv.
      * exfalso. apply dict_of_lookup_Some in Hv as (r & [j Hj]%list_elem_of_lookup & Hnm & _).
        destruct (rows_are_ok j r Hj) as (phj & o & Hphj & -> & _). simpl in Hnm.
        assert (j = k); [|congruence].
        apply (NoDup_lookup (name <$> phases) j k (name ph)); [done|..];
          rewrite list_lookup_fmap; [rewrite Hphj; simpl; by rewrite Hnm | by rewrite Hph].
      * by rewrite drop_ge by (by apply lookup_ge_None).
Qed.

Lemma summary_of_rows :
  Simpy2.summary_of phases (dict_of rows) = started_line <$> rows.
Proof. by rewrite (summary_of_drop phases 0%nat). Qed.

End Summary.

(** X17. With phase names that differ from each other, the summary
    simpy2 prints has one block for each asset id of
    [range(1, num_assets + 1)], and the block of an asset lists every entry
    of its [results], each once: the [break] of the loop cuts nothing off. *)
Theorem summary_lists_every_result
    (phases : list phase) (draw : nat -> float) (pos : nat) (num_assets : Z)
    (pos' : nat) (out : list Simpy2.line)
    (results : list (Z * gmap string phase_result)) :
  NoDup (name <$> phases) ->
  Simpy2.run_simulation_on phases draw pos num_assets = Returns (pos', out, results) ->
  results.*1 ≡ₚ seqZ 1 num_assets /\
  forall a info, (a, info) ∈ results ->
    NoDup (Simpy2.summary_of phases info) /\
    forall nm p, Simpy2.Started nm p ∈ Simpy2.summary_of phases info
                 <-> info !! nm = Some p.
Proof.
  intros Hnames Hret.
  pose proof (same_run_run_simulation phases draw pos num_assets 0) as H.
  rewrite Hret in H. unfold Simpy4.run_simulation_on in H.
  destruct (run_simulation _ _ _ _ _ _) as [[[p4 res4] recs]| |] eqn:E; try done.
  destruct H as (_ & Hres & _ & Hnd).
  pose proof (run_simulation_Returns _ _ _ _ _ _ _ _ _ E) as Hinv.
  assert (forall a info, (a, info) ∈ results <-> res4 !! a = Some info) as Hlook.
  { intros a info. rewrite <- Hres. by rewrite elem_of_list_to_map. }
  split.
  - apply NoDup_Permutation; [done|apply NoDup_seqZ|].
    intros a. rewrite elem_of_seqZ, list_elem_of_fmap. split.
    + intros ([a' info] & -> & Hin%Hlook). simpl.
      destruct (Hinv a') as [_ Hout].
      destruct (decide (in_range num_assets a')) as [[? ?]|Hr]; [lia|].
      destruct (Hout Hr) as [_ Hnone]. congruence.
    + intros Ha. destruct (Hinv a) as [Hin _].
      destruct Hin as (s & _ & _ & Hsome & _); [unfold in_range; lia|].
      exists (a, dict_of (rows_of a recs)). split; [done|]. by apply Hlook.
  - intros a info Hin%Hlook.
    destruct (Hinv a) as [Hin' Hout].
    destruct (decide (in_range num_assets a)) as [Hr|Hr];
      [|destruct (Hout Hr) as [_ Hnone]; congruence].
    destruct (Hin' Hr) as (s & Hrows & _ & Hsome & _).
    assert (info = dict_of (rows_of a recs)) as -> by congruence.
    rewrite (summary_of_rows phases 0 a s (rows_of a recs) Hnames Hrows).
    split.
    + apply NoDup_alt. intros i j l Hi Hj. rewrite list_lookup_fmap in Hi, Hj.
      destruct (rows_of a recs !! i) as [ri|] eqn:Ei; [|done].
      destruct (rows_of a recs !! j) as [rj|] eqn:Ej; [|done].
      simpl in Hi, Hj. injection Hi as <-. injection Hj as Hn _.
      by apply (rows_ok_names_differ phases 0 a s (rows_of a recs) Hnames Hrows i j ri rj).
    + intros nm p. rewrite list_elem_of_fmap. split.
      * intros (r & [= -> ->] & [k Hk]%list_elem_of_lookup).
        apply (dict_of_lookup_row _ k); [|done].
        by apply (rows_ok_names_differ phases 0 a s).
      * intros (r & Hr' & <- & ->)%dict_of_lookup_Some. by exists r.
Qed.

(** ** The replication id is a label *)

Section Relabel.

Variable phases : list phase.
Variable start_time_of : Z -> exn + (float -> float).
Variable draw : nat -> float.
Variables rep1 rep2 : Z.

Lemma relabel_schedule st ev p d :
  relabel_state rep2 (schedule st ev p d) = schedule (relabel_state rep2 st) ev p d.
Proof. done. Qed.

Lemma relabel_env_timeout st a k d :
  relabel_state rep2 (env_timeout st a k d) = env_timeout (relabel_state rep2 st) a k d.
Proof. unfold env_timeout, throw. by destruct (d <? 0)%float. Qed.

Lemma relabel_for_loop st a s idx rest cur prs ok :
  relabel_state rep2 (for_loop st a s idx rest cur prs ok)
  = for_loop (relabel_state rep2 st) a s idx rest cur prs ok.
Proof.
  unfold for_loop. destruct rest as [|ph rest']; [done|].
  destruct ok; [apply relabel_env_timeout|done].
Qed.

Lemma relabel_asset_trajectory st ev :
  relabel_state rep2 (asset_trajectory phases start_time_of draw rep1 st ev)
  = asset_trajectory phases start_time_of draw rep2 (relabel_state rep2 st) ev.
Proof.
  destruct ev as [a|a [s|s idx ph rest cur prs]|a exc]; simpl; try done.
  - destruct (start_time_of a) as [x|f]; [done|]. by rewrite relabel_env_timeout.
  - by rewrite relabel_for_loop.
  - rewrite relabel_for_loop. f_equal. unfold relabel_state. simpl.
    by rewrite fmap_app.
Qed.

Lemma relabel_step st :
  step phases start_time_of draw rep2 (relabel_state rep2 st)
  = match step phases start_time_of draw rep1 st with
    | Some (Returns st') => Some (Returns (relabel_state rep2 st'))
    | other => other
    end.
Proof.
  unfold step. simpl.
  destruct (heappop (queue st)) as [[[[[t p] e] ev] q]|]; [|done].
  cbv zeta.
  destruct ev as [a|a k|a [x|]]; try done;
    by rewrite relabel_asset_trajectory.
Qed.

Lemma relabel_run fuel : forall st,
  run phases start_time_of draw rep2 fuel (relabel_state rep2 st)
  = match run phases start_time_of draw rep1 fuel st with
    | Returns st' => Returns (relabel_state rep2 st')
    | other => other
    end.
Proof.
  induction fuel as [|fuel IH]; intros st; simpl; [done|].
  rewrite relabel_step.
  by destruct (step phases start_time_of draw rep1 st) as [[st'| |]|].
Qed.

Lemma relabel_run_simulation pos num_assets :
  run_simulation phases start_time_of draw rep2 pos num_assets
  = match run_simulation phases start_time_of draw rep1 pos num_assets with
    | Returns (pos', res, recs) => Returns (pos', res, relabel rep2 <$> recs)
    | other => other
    end.
Proof.
  unfold run_simulation.
  assert (spawn (fresh pos) (asset_ids num_assets)
          = relabel_state rep2 (spawn (fresh pos) (asset_ids num_assets))) as ->.
  { destruct (spawn (fresh pos) (asset_ids num_assets)) as [n q e g rs rc] eqn:E.
    pose proof (spawn_keeps (asset_ids num_assets) (fresh pos)) as (_ & _ & _ & H).
    rewrite E in H. simpl in H. subst rc. done. }
  rewrite relabel_run.
  set (st0 := spawn (fresh pos) (asset_ids num_assets)).
  replace (relabel_state rep2 st0) with st0 at 1.
  2:{ subst st0. destruct (spawn (fresh pos) (asset_ids num_assets)) as [n q e g rs rc] eqn:E.
      pose proof (spawn_keeps (asset_ids num_assets) (fresh pos)) as (_ & _ & _ & H).
      rewrite E in H. simpl in H. subst rc. done. }
  by destruct (run phases start_time_of draw rep1 _ st0).
Qed.

End Relabel.

(** X18. The replication id is a label: two calls of [run_simulation]
    that differ only in the replication id end the same way, and when they
    return, their record tables differ only in the [replication] field. *)
Theorem replication_id_is_a_label
    (phases : list phase) (start_time_of : Z -> exn + (float -> float))
    (draw : nat -> float) (rep1 rep2 : Z) (pos : nat) (num_assets : Z) :
  run_simulation phases start_time_of draw rep2 pos num_assets
  = match run_simulation phases start_time_of draw rep1 pos num_assets with
    | Returns (pos', res, recs) =>
        Returns (pos', res,
                 (fun r => Record_ rep2 (asset_id r) (phase_name r) (phase_idx r)
                                   (phase_duration r) (phase_success_prob r)
                                   (phase_start_time r) (phase_end_time r)
                                   (phase_outcome r) (asset_init_time r)) <$> recs)
    | Raises e => Raises e
    | OutOfFuel => OutOfFuel
    end.
Proof.
  rewrite (relabel_run_simulation phases start_time_of draw rep1 rep2).
  by destruct (run_simulation phases start_time_of draw rep1 pos num_assets)
    as [[[p res] recs]| |].
Qed.

(** X19. In a run that returns, every row carries the replication id of
    the call and an asset id of [range(1, num_assets + 1)], and all rows of
    an asset carry the same [asset_init_time]. *)
Theorem rows_carry_their_asset
    (phases : list phase) (start_time_of : Z -> exn + (float -> float))
    (draw : nat -> float) (replication_id : Z) (pos : nat) (num_assets : Z)
    (pos' : nat) (res : gmap Z (gmap string phase_result)) (recs : list record) :
  run_simulation phases start_time_of draw replication_id pos num_assets
  = Returns (pos', res, recs) ->
  forall r, r ∈ recs ->
    replication r = replication_id /\ 1 <= asset_id r <= num_assets /\
    forall r', r' ∈ recs -> asset_id r' = asset_id r ->
               asset_init_time r' = asset_init_time r.
Proof.
  intros Hret r Hr.
  assert (r ∈ rows_of (asset_id r) recs) as Hin by by apply rows_of_elem.
  destruct (run_simulation_Returns _ _ _ _ _ _ _ _ _ Hret (asset_id r)) as [Hrange Hout].
  destruct (decide (in_range num_assets (asset_id r))) as [Ha|Ha];
    [|destruct (Hout Ha) as [E _]; rewrite E in Hin; by apply elem_of_nil in Hin].
  destruct (Hrange Ha) as (s & Hrows & _).
  assert (forall x, x ∈ rows_of (asset_id r) recs ->
                    replication x = replication_id /\ asset_init_time x = s) as Hs.
  { intros x [k Hk]%list_elem_of_lookup.
    by destruct (Hrows k x Hk) as (ph & o & _ & -> & _). }
  destruct (Hs r Hin) as [-> Hinit]. split; [done|]. split; [done|].
  intros r' Hr' Ha'. rewrite Hinit. apply Hs. by apply rows_of_elem.
Qed.

(** ** simpy1 is the pipeline of one phase *)

Lemma same_entry_lt x1 y1 x y :
  same_entry x1 x -> same_entry y1 y -> Simpy1.entry_lt x1 y1 = entry_lt x y.
Proof.
  intros (Ht & Hp & He & _) (Ht' & Hp' & He' & _).
  unfold Simpy1.entry_lt, entry_lt. by rewrite Ht, Hp, He, Ht', Hp', He'.
Qed.

Lemma same_pop_min q1 : forall q x1 x,
  same_entry x1 x -> Forall2 same_entry q1 q ->
  same_entry (Simpy1.pop_min x1 q1).1 (pop_min x q).1 /\
  Forall2 same_entry (Simpy1.pop_min x1 q1).2 (pop_min x q).2.
Proof.
  induction q1 as [|y1 q1 IH]; intros q x1 x Hx Hq.
  - apply Forall2_nil_inv_l in Hq as ->. simpl. by split.
  - apply Forall2_cons_inv_l in Hq as (y & q' & Hy & Hq & ->). simpl.
    destruct (IH q' y1 y Hy Hq) as [Hm Hr].
    destruct (Simpy1.pop_min y1 q1) as [m1 r1], (pop_min y q') as [m r].
    simpl in Hm, Hr. rewrite (same_entry_lt m1 x1 m x Hm Hx).
    destruct (entry_lt m x); simpl; split; try done; by constructor.
Qed.

Lemma same_heappop q1 q :
  Forall2 same_entry q1 q ->
  match Simpy1.heappop q1, heappop q with
  | None, None => True
  | Some (m1, r1), Some (m, r) => same_entry m1 m /\ Forall2 same_entry r1 r
  | _, _ => False
  end.
Proof.
  intros Hq. destruct Hq as [|x1 x q1 q Hx Hq]; simpl; [done|].
  pose proof (same_pop_min q1 q x1 x Hx Hq) as H.
  by destruct (Simpy1.pop_min x1 q1), (pop_min x q).
Qed.

Lemma stored_results_snoc rs r :
  stored_results (rs ++ [r])
  = Simpy2.dict_set (stored_results rs) (asset_id r) (stored r).
Proof. unfold stored_results. by rewrite foldl_app. Qed.

Section OnePhase.

Variable draw : nat -> float.
Variable replication_id : Z.

Lemma same_one_phase_print s1 st l :
  same_one_phase s1 st -> same_one_phase (Simpy1.print s1 l) st.
Proof. by intros (? & ? & ? & ? & ?). Qed.

Lemma same_one_phase_schedule s1 st ev1 ev p d :
  same_one_phase s1 st -> same_event ev1 ev ->
  same_one_phase (Simpy1.schedule s1 ev1 p d) (schedule st ev p d).
Proof.
  intros (Hn & Hq & He & Hg & Hr) Hev. repeat split; simpl; try done.
  - apply Forall2_app; [done|]. constructor; [|constructor].
    repeat split; simpl; try done. by rewrite Hn.
  - by rewrite He.
Qed.

Lemma same_one_phase_env_timeout s1 st a k1 k d :
  same_one_phase s1 st ->
  same_event (Simpy1.Timeout a k1) (Timeout a k) ->
  same_one_phase (Simpy1.env_timeout s1 a k1 d) (env_timeout st a k d).
Proof.
  intros H Hk. unfold Simpy1.env_timeout, env_timeout, Simpy1.throw, throw.
  destruct (d <? 0)%float; apply same_one_phase_schedule; try done. constructor.
Qed.

Lemma same_one_phase_asset_process s1 st ev1 ev :
  same_one_phase s1 st -> same_event ev1 ev ->
  same_one_phase (Simpy1.asset_process draw s1 ev1)
                 (asset_trajectory one_phase one_phase_start draw replication_id st ev).
Proof.
  intros H Hev. pose proof H as (Hn & Hq & He & Hg & Hr).
  destruct Hev as [a|a s|a s cur|a exc]; simpl; try done.
  - rewrite Hg. apply same_one_phase_env_timeout; [|constructor].
    by repeat split; simpl; try done.
  - rewrite Hn. apply same_one_phase_env_timeout; [|constructor].
    by do 2 apply same_one_phase_print.
  - rewrite Hn, Hg. unfold stop. apply same_one_phase_schedule; [|constructor].
    repeat split; simpl; try done.
    by rewrite stored_results_snoc, Hr.
Qed.

Lemma same_one_phase_step s1 st :
  same_one_phase s1 st ->
  match Simpy1.step draw s1,
        step one_phase one_phase_start draw replication_id st with
  | None, None => True
  | Some (Raises x1), Some (Raises x) => x1 = x
  | Some (Returns s1'), Some (Returns st') => same_one_phase s1' st'
  | _, _ => False
  end.
Proof.
  intros H. pose proof H as (Hn & Hq & He & Hg & Hr).
  unfold Simpy1.step, step. pose proof (same_heappop _ _ Hq) as Hpop.
  destruct (Simpy1.heappop (Simpy1.queue s1)) as [[[[[t1 p1] e1] ev1] q1]|],
           (heappop (queue st)) as [[[[[t p] e] ev] q]|]; try done.
  destruct Hpop as [(Ht & Hp & He' & Hev) Hq']. simpl in Ht, Hp, He', Hev.
  cbv zeta.
  assert (same_one_phase
            (Simpy1.State t1 q1 (Simpy1.eid s1) (Simpy1.rng s1) (Simpy1.results s1)
                          (Simpy1.stdout s1))
            (State t q (eid st) (rng st) (results st) (records st))) as H'
    by by repeat split.
  pose proof (same_one_phase_asset_process _ _ _ _ H' Hev) as Hstep.
  destruct Hev as [a|a s|a s cur|a [x|]]; try done.
Qed.

Lemma same_one_phase_run fuel : forall s1 st,
  same_one_phase s1 st ->
  match Simpy1.run draw fuel s1,
        run one_phase one_phase_start draw replication_id fuel st with
  | Returns s1', Returns st' => same_one_phase s1' st'
  | Raises x1, Raises x => x1 = x
  | OutOfFuel, OutOfFuel => True
  | _, _ => False
  end.
Proof.
  induction fuel as [|fuel IH]; intros s1 st H; simpl; [done|].
  pose proof (same_one_phase_step s1 st H) as Hstep.
  destruct (Simpy1.step draw s1) as [[s1'|x1|]|],
           (step one_phase _ draw replication_id st) as [[st'|x|]|]; try done.
  by apply IH.
Qed.

Lemma same_one_phase_spawn ids : forall s1 st,
  same_one_phase s1 st -> same_one_phase (Simpy1.spawn s1 ids) (spawn st ids).
Proof.
  induction ids as [|a ids IH]; intros s1 st H; [done|].
  simpl. apply IH. apply same_one_phase_schedule; [done|constructor].
Qed.

Lemma same_one_phase_run_simulation pos num_assets :
  match Simpy1.run_simulation draw pos num_assets,
        run_simulation one_phase one_phase_start draw replication_id pos num_assets with
  | Returns (pos1, out, results1), Returns (pos', res, recs) =>
      pos1 = pos' /\ results1 = stored_results recs
  | Raises x1, Raises x => x1 = x
  | _, _ => False
  end.
Proof.
  unfold Simpy1.run_simulation, run_simulation.
  pose proof (same_one_phase_run (fuel_for one_phase num_assets)
                (Simpy1.spawn (Simpy1.fresh pos) (asset_ids num_assets))
                (spawn (fresh pos) (asset_ids num_assets))) as H.
  pose proof (run_simulation_total one_phase one_phase_start draw
                replication_id pos num_assets) as Htot.
  unfold run_simulation in Htot.
  assert (same_one_phase (Simpy1.fresh pos) (fresh pos)) as H0.
  { by repeat split; simpl; try done. }
  change (Simpy1.fuel_for num_assets) with (fuel_for one_phase num_assets).
  destruct (Simpy1.run _ _ _) as [s1| |], (run _ _ _ _ _ _) as [st| |];
    try done; try (by apply H, same_one_phase_spawn).
Qed.

End OnePhase.

Lemma dict_set_absent {V} (d : list (Z * V)) k v :
  k ∉ d.*1 -> Simpy2.dict_set d k v = d ++ [(k, v)].
Proof.
  induction d as [|[k' v'] d IH]; csimpl; [done|].
  intros [Hne Hk]%not_elem_of_cons.
  rewrite decide_False by done. by rewrite IH.
Qed.

Lemma stored_results_NoDup rs :
  NoDup (asset_id <$> rs) ->
  stored_results rs = (fun r => (asset_id r, stored r)) <$> rs.
Proof.
  induction rs as [|r rs IH] using rev_ind; [done|].
  rewrite fmap_app. intros [Hnd [Hr _]]%NoDup_app.
  rewrite stored_results_snoc, IH by done. rewrite fmap_app.
  apply dict_set_absent. rewrite <- list_fmap_compose. simpl.
  intros Hin. apply (Hr (asset_id r)); [done|]. apply list_elem_of_here.
Qed.

Lemma one_phase_safe draw num_assets :
  (forall k, (0 <=? draw k)%float = true) ->
  safe one_phase one_phase_start draw num_assets.
Proof.
  intros Hdraw. split.
  - intros a _. eexists. split; [done|]. intros k.
    by apply sign_clear_not_ltb_zero, uniform_sign_clear.
  - by repeat constructor.
Qed.

Section OnePhaseReturned.

Variable draw : nat -> float.
Variable replication_id : Z.
Variable num_assets : Z.
Variable pos pos' : nat.
Variable res : gmap Z (gmap string phase_result).
Variable recs : list record.
Hypothesis returned :
  run_simulation one_phase one_phase_start draw replication_id pos num_assets
  = Returns (pos', res, recs).

Lemma one_phase_row r :
  r ∈ recs ->
  phase_idx r = 0%nat /\ phase_success_prob r = Simpy1.SUCCESS_PROB /\
  1 <= asset_id r <= num_assets /\
  (exists j, asset_init_time r = uniform 0 Simpy1.PHASE_DURATION (draw j)) /\
  phase_end_time r = (asset_init_time r + Simpy1.PHASE_DURATION)%float.
Proof.
  intros Hr.
  assert (r ∈ rows_of (asset_id r) recs) as [k Hk]%list_elem_of_lookup
    by by apply rows_of_elem.
  destruct (returned_row _ _ _ _ _ _ _ _ _ returned _ _ _ Hk)
    as (s & ph & o & Hph & E & _ & Ha & f & j & Hf & Hs).
  destruct k as [|k]; [|done]. injection Hph as <-. injection Hf as <-.
  rewrite E. simpl. repeat split; try apply Ha; [by exists j|].
  unfold clock. simpl. rewrite Hs. unfold uniform. by rewrite add_zero_twice.
Qed.

Lemma one_phase_asset_ids : asset_id <$> recs ≡ₚ seqZ 1 num_assets.
Proof.
  apply NoDup_Permutation; [|apply NoDup_seqZ|].
  - pose proof (returned_keys_NoDup _ _ _ _ _ _ _ _ _ returned) as Hkeys.
    apply NoDup_alt. intros i j a Hi Hj. rewrite list_lookup_fmap in Hi, Hj.
    destruct (recs !! i) as [ri|] eqn:Ei; [|done].
    destruct (recs !! j) as [rj|] eqn:Ej; [|done].
    simpl in Hi, Hj. injection Hi as Hi. injection Hj as Hj.
    destruct (one_phase_row ri) as [Hki _]; [by eapply list_elem_of_lookup_2|].
    destruct (one_phase_row rj) as [Hkj _]; [by eapply list_elem_of_lookup_2|].
    pose proof (returned_replication _ _ _ _ _ _ _ _ _ returned ri
                  ltac:(by eapply list_elem_of_lookup_2)) as Hri.
    pose proof (returned_replication _ _ _ _ _ _ _ _ _ returned rj
                  ltac:(by eapply list_elem_of_lookup_2)) as Hrj.
    rewrite NoDup_alt in Hkeys. apply (Hkeys i j (row_key ri)).
    + by rewrite list_lookup_fmap, Ei.
    + rewrite list_lookup_fmap, Ej. simpl. unfold row_key. congruence.
  - intros a. rewrite elem_of_seqZ, list_elem_of_fmap. split.
    + intros (r & -> & Hr). destruct (one_phase_row r Hr) as (_ & _ & ? & _). lia.
    + intros Ha.
      destruct (run_simulation_Returns _ _ _ _ _ _ _ _ _ returned a) as [Hin _].
      destruct Hin as (s & _ & Hterm & _); [unfold in_range; lia|].
      destruct (rows_of a recs) as [|r rs] eqn:E.
      { destruct Hterm as [?|(r & ? & _)]; done. }
      assert (r ∈ rows_of a recs) as [? ?]%rows_of_elem
        by (rewrite E; apply list_elem_of_here).
      by exists r.
Qed.

End OnePhaseReturned.

(** X20. simpy1 is the pipeline of simpy4 and simpy6 on a table of one
    phase.  On the same draws, simpy1's [run_simulation] and the engine of
    the later scripts, run on the single phase [ph1] (52 weeks, probability
    0.5) with an arrival drawn by [random.uniform(0, 52)], end at the same
    position of the generator, and the entries of simpy1's [results], in the
    order they were assigned, are the rows of the record table: the asset,
    its [start_time], the time the phase ended and the outcome.  Neither
    raises unless the other raises the same. *)
Theorem Simpy1_is_the_pipeline_of_one_phase
    (draw : nat -> float) (replication_id : Z) (pos : nat) (num_assets : Z) :
  match Simpy1.run_simulation draw pos num_assets,
        run_simulation [Phase "ph1" 52 0.5] (fun _ => inr (uniform 0 52)) draw
                       replication_id pos num_assets with
  | Returns (pos1, out, results), Returns (pos', res, recs) =>
      pos1 = pos' /\
      results = (fun r => (asset_id r,
                           PhaseResult (asset_init_time r) (phase_end_time r)
                                       (phase_outcome r))) <$> recs
  | Raises x1, Raises x => x1 = x
  | _, _ => False
  end.
Proof.
  pose proof (same_one_phase_run_simulation draw replication_id pos num_assets) as H.
  change (run_simulation [Phase "ph1" 52 0.5] (fun _ => inr (uniform 0 52)))
    with (run_simulation one_phase one_phase_start).
  destruct (Simpy1.run_simulation draw pos num_assets) as [[[p1 out] res1]| |],
    (run_simulation one_phase one_phase_start draw replication_id pos num_assets)
    as [[[p res] recs]| |] eqn:E; try done.
  destruct H as [-> ->]. split; [done|].
  apply stored_results_NoDup.
  eapply NoDup_Permutation_proper; [by eapply one_phase_asset_ids|apply NoDup_seqZ].
Qed.

(** X21. With draws in [[0, 1)], simpy1's [run_simulation] returns after
    two draws for every asset.  [results] has one entry for each
    [asset_id] of [1 .. num_assets]; its [start_time] is a draw of
    [random.uniform(0, 52)] and lies between 0 and 52, its [end_time] is
    [start_time + 52], and its outcome is [SUCCESS] exactly when a draw was
    below 0.5. *)
Theorem Simpy1_results
    (draw : nat -> float) (pos : nat) (num_assets : Z) :
  (forall k, (0 <=? draw k)%float = true /\ (draw k <? 1)%float = true) ->
  exists out results,
    Simpy1.run_simulation draw pos num_assets
    = Returns ((pos + 2 * Z.to_nat num_assets)%nat, out, results) /\
    results.*1 ≡ₚ seqZ 1 num_assets /\
    forall a info, (a, info) ∈ results ->
      (exists j, start_time info = uniform 0 52 (draw j)) /\
      (0 <=? start_time info)%float = true /\
      (start_time info <=? 52)%float = true /\
      end_time info = (start_time info + 52)%float /\
      exists j, outcome_of info
                = if (draw j <? 0.5)%float then SUCCESS else FAILURE.
Proof.
  intros Hdraw.
  destruct (run_simulation_safe one_phase one_phase_start draw 0 num_assets pos)
    as (pos' & res & recs & Hret).
  { apply one_phase_safe. intros k. apply Hdraw. }
  pose proof (same_one_phase_run_simulation draw 0 pos num_assets) as H.
  rewrite Hret in H.
  destruct (Simpy1.run_simulation draw pos num_assets) as [[[p1 out] res1]| |];
    try done.
  destruct H as [-> ->].
  pose proof (one_phase_asset_ids _ _ _ _ _ _ _ Hret) as Hids.
  rewrite stored_results_NoDup
    by (eapply NoDup_Permutation_proper; [done|apply NoDup_seqZ]).
  exists out, ((fun r => (asset_id r, stored r)) <$> recs). split; [|split].
  - do 3 f_equal. rewrite (run_simulation_account _ _ _ _ _ _ _ _ _ Hret).
    apply Permutation_length in Hids. rewrite length_fmap, length_seqZ in Hids. lia.
  - by rewrite <- list_fmap_compose.
  - intros a info (r & [= -> ->] & Hr)%list_elem_of_fmap.
    destruct (one_phase_row _ _ _ _ _ _ _ Hret r Hr)
      as (_ & Hp & _ & [j Hj] & He).
    destruct (run_simulation_outcomes _ _ _ _ _ _ _ _ _ Hret) as (js & Hjs & _).
    destruct (decided_by_elem _ _ _ _ Hjs Hr) as (j' & _ & Ho).
    destruct (Hdraw j) as [H0 H1].
    destruct (uniform_52_bounds _ H0 H1) as [Hb0 Hb1].
    simpl. rewrite Hj. repeat split; [by exists j|done|done|by rewrite He, Hj|].
    exists j'. by rewrite Ho, Hp.
Qed.

Lemma StronglySorted_map {A B} (R : B -> B -> Prop) (f : A -> B) (l : list A) :
  StronglySorted (fun x y => R (f x) (f y)) l -> StronglySorted R (f <$> l).
Proof.
  induction 1 as [|x l Hs IH Hx]; csimpl; constructor; [done|].
  by apply Forall_fmap.
Qed.

(** X22. The dict [results] that simpy1's [run_simulation] returns lists
    the assets in the order they completed the phase, not in the order of
    their ids: the [end_time] of an entry is never above the [end_time] of
    an entry after it. *)
Theorem Simpy1_results_in_order_of_completion
    (draw : nat -> float) (pos : nat) (num_assets : Z) (pos' : nat)
    (out : list Simpy1.line) (results : list (Z * phase_result)) :
  (forall k, (0 <=? draw k)%float = true /\ (draw k <? 1)%float = true) ->
  Simpy1.run_simulation draw pos num_assets = Returns (pos', out, results) ->
  StronglySorted (fun x y => (end_time x.2 <=? end_time y.2)%float = true) results.
Proof.
  intros Hdraw Hret.
  pose proof (same_one_phase_run_simulation draw 0 pos num_assets) as H.
  rewrite Hret in H.
  destruct (run_simulation one_phase one_phase_start draw 0 pos num_assets)
    as [[[p res] recs]| |] eqn:E; try done.
  destruct H as [-> ->].
  rewrite stored_results_NoDup
    by (eapply NoDup_Permutation_proper;
        [by eapply one_phase_asset_ids|apply NoDup_seqZ]).
  apply StronglySorted_map. simpl.
  eapply (run_simulation_on_time one_phase one_phase_start draw 0); [| |done].
  - by repeat constructor.
  - intros a f k _ [= <-]. destruct (Hdraw k). by apply uniform_nonneg.
Qed.

(** ** The size of the record table *)

Lemma length_filter_split {A} (P : A -> Prop) `{forall x, Decision (P x)} (l : list A) :
  length l = (length (filter P l) + length (filter (fun x => ~ P x) l))%nat.
Proof.
  induction l as [|x l IH]; [done|]. destruct (decide (P x)).
  - rewrite filter_cons_True, (filter_cons_False (fun x => ~ P x)) by tauto.
    simpl. lia.
  - rewrite filter_cons_False, (filter_cons_True (fun x => ~ P x)) by tauto.
    simpl. lia.
Qed.

Lemma rows_of_others a b (rs : list record) :
  b <> a -> rows_of b (filter (fun r => asset_id r <> a) rs) = rows_of b rs.
Proof.
  intros Hne. unfold rows_of. induction rs as [|r rs IH]; [done|].
  destruct (decide (asset_id r = a)) as [E|E].
  - rewrite (filter_cons_False (fun r => asset_id r <> a)) by tauto.
    rewrite IH. rewrite filter_cons_False; [done|congruence].
  - rewrite (filter_cons_True (fun r => asset_id r <> a)) by done.
    destruct (decide (asset_id r = b)).
    + by rewrite !filter_cons_True, IH by done.
    + by rewrite !filter_cons_False, IH by done.
Qed.

(** A table whose rows all belong to the assets [ids] is as long as the rows
    of these assets taken together. *)
Lemma length_by_asset (ids : list Z) : forall rs : list record,
  NoDup ids -> Forall (fun r => asset_id r ∈ ids) rs ->
  length rs = sum_list_with (fun a => length (rows_of a rs)) ids.
Proof.
  induction ids as [|a ids IH]; intros rs Hnd Hrs.
  - destruct rs as [|r rs]; [done|].
    apply Forall_cons in Hrs as [Hr _]. by apply elem_of_nil in Hr.
  - apply NoDup_cons in Hnd as [Ha Hnd]. simpl.
    rewrite (length_filter_split (fun r => asset_id r = a) rs).
    fold (rows_of a rs). f_equal.
    rewrite (IH (filter (fun r => asset_id r <> a) rs)); [|done|].
    + clear IH Hrs. induction ids as [|b ids IH]; [done|]. simpl.
      apply not_elem_of_cons in Ha as [Hne Ha]. apply NoDup_cons in Hnd as [_ Hnd].
      rewrite rows_of_others by done. f_equal. by apply IH.
    + apply Forall_forall. intros r [Hne Hr]%list_elem_of_filter.
      rewrite Forall_forall in Hrs. specialize (Hrs r Hr).
      apply elem_of_cons in Hrs as [?|?]; [done|done].
Qed.

Lemma sum_list_with_bounds {A} (f : A -> nat) (lo hi : nat) (l : list A) :
  Forall (fun x => (lo <= f x <= hi)%nat) l ->
  (length l * lo <= sum_list_with f l <= length l * hi)%nat.
Proof. induction 1 as [|x l Hx _ IH]; simpl; lia. Qed.

(** X23. On a table with at least one phase, a run that returns has
    written at least one row for every asset and at most one row for every
    asset and phase: [records] has between [num_assets] and
    [num_assets * len(phases)] rows. *)
Theorem record_table_size
    (phases : list phase) (start_time_of : Z -> exn + (float -> float))
    (draw : nat -> float) (replication_id : Z) (pos : nat) (num_assets : Z)
    (pos' : nat) (res : gmap Z (gmap string phase_result)) (recs : list record) :
  phases <> [] ->
  run_simulation phases start_time_of draw replication_id pos num_assets
  = Returns (pos', res, recs) ->
  (Z.to_nat num_assets <= length recs <= Z.to_nat num_assets * length phases)%nat.
Proof.
  intros Hne Hret.
  pose proof (run_simulation_Returns _ _ _ _ _ _ _ _ _ Hret) as Hinv.
  rewrite (length_by_asset (seqZ 1 num_assets)); [|apply NoDup_seqZ|].
  - pose proof (sum_list_with_bounds (fun a => length (rows_of a recs)) 1
                  (length phases) (seqZ 1 num_assets)) as Hsum.
    rewrite length_seqZ, Nat.mul_1_r in Hsum. apply Hsum.
    apply Forall_forall. intros a Ha%elem_of_seqZ.
    destruct (Hinv a) as [Hin _].
    destruct Hin as (s & Hrows & Hterm & _); [unfold in_range; lia|].
    split.
    + destruct Hterm as [->|(r & Hr & _)]; [destruct phases; [done|simpl; lia]|].
      destruct (rows_of a recs); [done|simpl; lia].
    + destruct (decide (length (rows_of a recs) <= length phases)%nat) as [|Hgt];
        [done|].
      destruct (lookup_lt_is_Some_2 (rows_of a recs) (length phases) ltac:(lia))
        as [r Hr].
      destruct (Hrows _ _ Hr) as (ph & o & Hph%lookup_lt_Some & _). lia.
  - apply Forall_forall. intros r Hr. apply elem_of_seqZ.
    assert (r ∈ rows_of (asset_id r) recs) as Hin by by apply rows_of_elem.
    destruct (Hinv (asset_id r)) as [_ Hout].
    destruct (decide (in_range num_assets (asset_id r))) as [[? ?]|Ha]; [lia|].
    destruct (Hout Ha) as [E _]. rewrite E in Hin. by apply elem_of_nil in Hin.
Qed.

(** ** The event loop ends *)

(** X24. [env.run()] ends.  The event loop of every script stops after
    at most [num_assets * (len(phases) + 3)] events, with the queue empty or
    with an exception: no table, no number of assets and no draws keep
    [run_simulation] of simpy4 and simpy6, of simpy2 or of simpy1 running. *)
Theorem run_simulation_ends
    (phases : list phase) (start_time_of : Z -> exn + (float -> float))
    (draw : nat -> float) (replication_id : Z) (pos : nat) (num_assets : Z) :
  (run_simulation phases start_time_of draw replication_id pos num_assets <> OutOfFuel) /\
  Simpy2.run_simulation_on phases draw pos num_assets <> OutOfFuel /\
  Simpy1.run_simulation draw pos num_assets <> OutOfFuel.
Proof.
  split; [apply run_simulation_total|]. split.
  - pose proof (same_run_run_simulation phases draw pos num_assets 0) as H.
    pose proof (run_simulation_total phases (Simpy4.start_time_of phases) draw 0
                  pos num_assets) as Htot.
    unfold Simpy4.run_simulation_on in H.
    intros E. rewrite E in H. by destruct (run_simulation _ _ _ _ _ _) as [[[? ?] ?]| |].
  - pose proof (same_one_phase_run_simulation draw 0 pos num_assets) as H.
    intros E. by rewrite E in H.
Qed.

(** ** The cohorts of simpy6 arrive year after year *)

Lemma float_of_int_rank n :
  0 <= n < 2 ^ 53 ->
  (0 <=? float_of_int n)%float = true /\ rank (float_of_int n) = n * 2 ^ 1200.
Proof.
  intros Hn. split; [apply float_of_int_nonneg; lia|]. unfold rank.
  destruct (float_of_int_exact n Hn) as [[-> ->]|(m & e & -> & _ & Hv)]; [done|].
  done.
Qed.

(** X25. In simpy6 the cohorts arrive year after year: with draws in
    [[0, 1)], an asset of an earlier year never has a later
    [asset_init_time] than an asset of a later year. *)
Theorem cohorts_arrive_in_order
    (phases : list phase) (draw : nat -> float) (pos : nat)
    (num_assets replication_id : Z) (pos' : nat)
    (res : gmap Z (gmap string phase_result)) (recs : list record) :
  (forall k, (0 <=? draw k)%float = true /\ (draw k <? 1)%float = true) ->
  num_assets < 2 ^ 52 ->
  Simpy6.run_simulation_on phases draw pos num_assets replication_id
  = Returns (pos', (replication_id, res, recs)) ->
  forall r1 r2, r1 ∈ recs -> r2 ∈ recs ->
    Simpy6.year_of (asset_id r1) < Simpy6.year_of (asset_id r2) ->
    (asset_init_time r1 <=? asset_init_time r2)%float = true.
Proof.
  intros Hdraw Hn. unfold Simpy6.run_simulation_on.
  destruct (run_simulation _ _ _ _ _ _) as [[[p rs] rc]|x|] eqn:Hret; try done.
  intros [= -> -> ->] r1 r2 Hr1 Hr2 Hlt.
  unfold Simpy6.year_of, Simpy6.ASSETS_PER_YEAR in Hlt.
  assert (forall r, r ∈ recs ->
            exists j, 1 <= asset_id r <= num_assets /\
              asset_init_time r
              = (float_of_int ((asset_id r - 1) `div` 50 * 52)
                 + uniform 0 52 (draw j))%float) as Hinit.
  { intros r Hr.
    assert (r ∈ rows_of (asset_id r) recs) as [k Hk]%list_elem_of_lookup
      by by apply rows_of_elem.
    destruct (returned_row _ _ _ _ _ _ _ _ _ Hret _ _ _ Hk)
      as (s & ph & o & _ & E & _ & [Ha1 Ha2] & f & j & Hf & ->).
    injection Hf as <-. exists j. split; [by split|].
    rewrite E at 1. reflexivity. }
  destruct (Hinit r1 Hr1) as (j1 & Ha1 & ->).
  destruct (Hinit r2 Hr2) as (j2 & Ha2 & ->).
  set (y1 := (asset_id r1 - 1) `div` 50) in *.
  set (y2 := (asset_id r2 - 1) `div` 50) in *.
  assert (0 <= y1) as Hy1 by (apply Z.div_pos; lia).
  assert (y2 * 50 <= asset_id r2 - 1) as Hy2
    by (rewrite Z.mul_comm; apply Z.mul_div_le; lia).
  assert (2 ^ 53 = 2 * 2 ^ 52) as Hpow by reflexivity.
  destruct (Hdraw j1) as [H10 H11]. destruct (Hdraw j2) as [H20 H21].
  destruct (cohort_window (y1 * 52) (draw j1)) as [_ Hhi]; [lia|lia|done|done|].
  destruct (cohort_window (y2 * 52) (draw j2)) as [Hlo _]; [lia|lia|done|done|].
  destruct (float_of_int_rank (y1 * 52 + 52)) as [Ha Ra]; [lia|].
  destruct (float_of_int_rank (y2 * 52)) as [Hb Rb]; [lia|].
  pose proof (Simpy6_start_time_nonneg (asset_id r1) (draw j1) ltac:(lia) H10 H11) as N1.
  pose proof (Simpy6_start_time_nonneg (asset_id r2) (draw j2) ltac:(lia) H20 H21) as N2.
  unfold Simpy6.year_of, Simpy6.ASSETS_PER_YEAR in N1, N2. fold y1 in N1. fold y2 in N2.
  rewrite leb_rank in Hhi, Hlo |- * by done.
  apply Z.leb_le in Hhi, Hlo. apply Z.leb_le.
  assert (0 < 2 ^ 1200) by (by apply Z.pow_pos_nonneg).
  nia.
Qed.

(** ** The further theorems at work on small runs *)

Lemma demo_draw_then_zero_same k :
  (0 <= k < demo_pos)%nat -> demo_draw k = demo_draw_then_zero k.
Proof. intros H. do 11 (destruct k as [|k]; [reflexivity|]). unfold demo_pos in H. lia. Qed.

Lemma low_draw_passes k ph :
  ph ∈ builtin_phases -> (low_draw k <? success_prob ph)%float = true.
Proof.
  revert ph. apply Forall_forall. unfold builtin_phases. by repeat constructor.
Qed.

Lemma builtin_durations :
  Forall (fun ph => (0 <=? duration ph)%float = true /\
                    (duration ph <? infinity)%float = true) builtin_phases.
Proof. unfold builtin_phases. by repeat constructor. Qed.

Lemma sure_returns :
  run_simulation builtin_phases (Simpy4.start_time_of builtin_phases) low_draw 7 0 2
  = Returns (sure_pos, sure_res, sure_recs).
Proof. vm_compute. reflexivity. Qed.

Lemma hopeless_returns :
  run_simulation builtin_phases (Simpy4.start_time_of builtin_phases) high_draw 7 0 2
  = Returns (hopeless_pos, hopeless_res, hopeless_recs).
Proof. vm_compute. reflexivity. Qed.

Lemma script_returns :
  Simpy4_main.main_on builtin_phases demo_draw 0 2 2
  = Returns (script_pos, script_results, script_records).
Proof. vm_compute. reflexivity. Qed.

Lemma printed_returns :
  Simpy2.run_simulation_on builtin_phases demo_draw 0 2
  = Returns (printed_pos, printed_out, printed_results).
Proof. vm_compute. reflexivity. Qed.

Lemma builtin_names : NoDup (name <$> builtin_phases).
Proof. apply (bool_decide_unpack (NoDup (name <$> builtin_phases))). vm_compute. exact I. Qed.

Lemma run_simulation_draws_read_witness :
  demo_pos = (0 + Z.to_nat 2 + length demo_recs)%nat.
Proof.
  exact (run_simulation_draws_read builtin_phases (Simpy4.start_time_of builtin_phases)
           demo_draw 7 0 2 demo_pos demo_res demo_recs demo_returns).
Defined.

Lemma outcomes_follow_the_draws_witness :
  exists js,
    Forall2 (fun r j => phase_outcome r
                        = if (demo_draw j <? phase_success_prob r)%float
                          then SUCCESS else FAILURE) demo_recs js /\
    StronglySorted lt js /\
    Forall (fun j => (0 <= j < demo_pos)%nat) js.
Proof.
  exact (outcomes_follow_the_draws builtin_phases (Simpy4.start_time_of builtin_phases)
           demo_draw 7 0 2 demo_pos demo_res demo_recs demo_returns).
Defined.

Lemma run_simulation_reads_only_its_draws_witness :
  run_simulation builtin_phases (Simpy4.start_time_of builtin_phases)
                 demo_draw_then_zero 7 0 2
  = Returns (demo_pos, demo_res, demo_recs).
Proof.
  exact (run_simulation_reads_only_its_draws builtin_phases
           (Simpy4.start_time_of builtin_phases) demo_draw demo_draw_then_zero
           7 0 2 demo_pos demo_res demo_recs demo_returns demo_draw_then_zero_same).
Defined.

Lemma draws_below_every_probability_witness :
  Forall (fun r => phase_outcome r = SUCCESS) sure_recs /\
  length (rows_of 1 sure_recs) = length builtin_phases.
Proof.
  destruct (draws_below_every_probability builtin_phases
              (Simpy4.start_time_of builtin_phases) low_draw 7 0 2
              sure_pos sure_res sure_recs low_draw_passes sure_returns) as [H1 H2].
  split; [exact H1|]. apply H2. lia.
Defined.

Lemma no_draw_below_first_probability_witness :
  exists r, rows_of 2 hopeless_recs = [r] /\ phase_outcome r = FAILURE /\
            phase_name r = "ID1" /\
            hopeless_res !! 2 = Some {[ "ID1" := to_result r ]}.
Proof.
  apply (no_draw_below_first_probability (Phase "ID1" 10 0.95)
           (tail builtin_phases) (Simpy4.start_time_of builtin_phases) high_draw
           7 0 2 hopeless_pos hopeless_res hopeless_recs).
  - intros k. reflexivity.
  - exact hopeless_returns.
  - lia.
Defined.

Lemma Simpy6_raises_only_ValueError_witness :
  ValueError = ValueError /\
  Exists (fun ph => (duration ph <? 0)%float = true) backwards_table.
Proof.
  apply (Simpy6_raises_only_ValueError backwards_table demo_draw 0 2 7 ValueError
           demo_draw_not_below_zero).
  vm_compute. reflexivity.
Defined.

Lemma Simpy4_raises_IndexError_or_ValueError_witness :
  (IndexError = IndexError /\ (take 2 builtin_phases) !! 2%nat = None) \/
  (IndexError = ValueError /\ is_Some ((take 2 builtin_phases) !! 2%nat) /\
   Exists (fun ph => (duration ph <? 0)%float = true) (take 2 builtin_phases)).
Proof.
  apply (Simpy4_raises_IndexError_or_ValueError (take 2 builtin_phases) demo_draw
           0 2 7 IndexError demo_draw_not_below_zero).
  vm_compute. reflexivity.
Defined.

Lemma first_duration_below_zero_raises_witness :
  Simpy6.run_simulation_on backwards_table demo_draw 0 2 7 = Raises ValueError /\
  Simpy4.run_simulation_on backwards_table demo_draw 0 2 7 = Raises ValueError.
Proof.
  destruct (first_duration_below_zero_raises (Phase "ID1" (-10) 0.95)
              (tail backwards_table) demo_draw 0 2 7 eq_refl ltac:(lia)) as [H6 H4].
  split; [exact H6|]. apply H4. vm_compute. eauto.
Defined.

Lemma all_records_by_replication_witness :
  exists positions : list nat,
    positions !! 0%nat = Some 0%nat /\
    positions !! Z.to_nat 2 = Some script_pos /\
    forall rep, 1 <= rep <= 2 ->
      exists p p' res,
        positions !! Z.to_nat (rep - 1) = Some p /\
        positions !! Z.to_nat rep = Some p' /\
        Simpy4.run_simulation_on builtin_phases demo_draw p 2 rep
        = Returns (p', res, filter (fun r => replication r = rep) script_records) /\
        script_results !! Z.to_nat (rep - 1) = Some (rep, res).
Proof.
  exact (all_records_by_replication builtin_phases demo_draw 0 2 2
           script_pos script_results script_records script_returns).
Defined.

Lemma all_records_key_witness :
  NoDup ((fun r => (replication r, asset_id r, phase_idx r)) <$> script_records).
Proof.
  exact (all_records_key builtin_phases demo_draw 0 2 2
           script_pos script_results script_records script_returns).
Defined.

Lemma main_draws_read_witness :
  script_pos = (0 + Z.to_nat 2 * Z.to_nat 2 + length script_records)%nat.
Proof.
  exact (main_draws_read builtin_phases demo_draw 0 2 2
           script_pos script_results script_records script_returns).
Defined.

Lemma main_returns_every_replication_witness :
  exists pos' all_results all_records,
    Simpy4_main.main_on builtin_phases demo_draw 0 2 2
    = Returns (pos', all_results, all_records) /\
    all_results.*1 = seqZ 1 2.
Proof.
  apply (main_returns_every_replication builtin_phases demo_draw 0 2 2).
  - vm_compute. reflexivity.
  - vm_compute. eauto.
  - exact demo_draw_not_below_zero.
Defined.

Lemma records_are_chronological_witness :
  StronglySorted
    (fun r1 r2 => (phase_end_time r1 <=? phase_end_time r2)%float = true) demo_recs.
Proof.
  exact (records_are_chronological builtin_phases (Simpy4.start_time_of builtin_phases)
           demo_draw 7 0 2 demo_pos demo_res demo_recs (or_introl eq_refl)
           builtin_durations demo_draw_unit demo_returns).
Defined.

Lemma row_times_in_order_witness :
  (0 <=? asset_init_time (demo_row 2 3))%float = true /\
  (asset_init_time (demo_row 2 3) <=? phase_start_time (demo_row 2 3))%float = true /\
  (phase_start_time (demo_row 2 3) <=? phase_end_time (demo_row 2 3))%float = true.
Proof.
  apply (row_times_in_order builtin_phases (Simpy4.start_time_of builtin_phases)
           demo_draw 7 0 2 demo_pos demo_res demo_recs (or_introl eq_refl)
           builtin_durations demo_draw_unit demo_returns).
  apply (list_elem_of_lookup_2 _ 5%nat). vm_compute. reflexivity.
Defined.

Lemma Simpy4_arrival_window_witness :
  (exists k, asset_init_time (demo_row 1 0) = uniform 0 52 (demo_draw k)) /\
  (0 <=? asset_init_time (demo_row 1 0))%float = true /\
  (asset_init_time (demo_row 1 0) <=? 52)%float = true.
Proof.
  apply (Simpy4_arrival_window demo_draw 0 2 7 demo_pos demo_res demo_recs
           demo_draw_unit demo_returns).
  apply (list_elem_of_lookup_2 _ 0%nat). vm_compute. reflexivity.
Defined.

Lemma summary_lists_every_result_witness :
  printed_results.*1 ≡ₚ seqZ 1 2 /\
  forall a info, (a, info) ∈ printed_results ->
    NoDup (Simpy2.summary_of builtin_phases info) /\
    forall nm p, Simpy2.Started nm p ∈ Simpy2.summary_of builtin_phases info
                 <-> info !! nm = Some p.
Proof.
  exact (summary_lists_every_result builtin_phases demo_draw 0 2
           printed_pos printed_out printed_results builtin_names printed_returns).
Defined.

Lemma rows_carry_their_asset_witness :
  replication (demo_row 2 3) = 7 /\ 1 <= asset_id (demo_row 2 3) <= 2 /\
  forall r', r' ∈ demo_recs -> asset_id r' = asset_id (demo_row 2 3) ->
             asset_init_time r' = asset_init_time (demo_row 2 3).
Proof.
  apply (rows_carry_their_asset builtin_phases (Simpy4.start_time_of builtin_phases)
           demo_draw 7 0 2 demo_pos demo_res demo_recs demo_returns).
  apply (list_elem_of_lookup_2 _ 5%nat). vm_compute. reflexivity.
Defined.

Lemma single_phase_returns :
  Simpy1.run_simulation demo_draw 0 2
  = Returns (single_phase_pos, single_phase_out, single_phase_results).
Proof. vm_compute. reflexivity. Qed.

Lemma two_years_returns :
  Simpy6.run_simulation_on builtin_phases high_draw 0 51 1
  = Returns (two_years_pos, (1, two_years_res, two_years_recs)).
Proof. vm_compute. reflexivity. Qed.

Lemma high_draw_unit k :
  (0 <=? high_draw k)%float = true /\ (high_draw k <? 1)%float = true.
Proof. split; reflexivity. Qed.

Lemma Simpy1_results_witness :
  exists out results,
    Simpy1.run_simulation demo_draw 0 2
    = Returns ((0 + 2 * Z.to_nat 2)%nat, out, results) /\
    results.*1 ≡ₚ seqZ 1 2 /\
    forall a info, (a, info) ∈ results ->
      (exists j, start_time info = uniform 0 52 (demo_draw j)) /\
      (0 <=? start_time info)%float = true /\
      (start_time info <=? 52)%float = true /\
      end_time info = (start_time info + 52)%float /\
      exists j, outcome_of info
                = if (demo_draw j <? 0.5)%float then SUCCESS else FAILURE.
Proof. exact (Simpy1_results demo_draw 0 2 demo_draw_unit). Defined.

Lemma Simpy1_results_in_order_of_completion_witness :
  StronglySorted (fun x y => (end_time x.2 <=? end_time y.2)%float = true)
                 single_phase_results.
Proof.
  exact (Simpy1_results_in_order_of_completion demo_draw 0 2 single_phase_pos
           single_phase_out single_phase_results demo_draw_unit single_phase_returns).
Defined.

Lemma record_table_size_witness :
  (Z.to_nat 2 <= length demo_recs <= Z.to_nat 2 * length builtin_phases)%nat.
Proof.
  apply (record_table_size builtin_phases (Simpy4.start_time_of builtin_phases)
           demo_draw 7 0 2 demo_pos demo_res demo_recs).
  - discriminate.
  - exact demo_returns.
Defined.

Lemma cohorts_arrive_in_order_witness :
  (asset_init_time (two_years_row 1) <=? asset_init_time (two_years_row 51))%float
  = true.
Proof.
  apply (cohorts_arrive_in_order builtin_phases high_draw 0 51 1 two_years_pos
           two_years_res two_years_recs high_draw_unit).
  - reflexivity.
  - exact two_years_returns.
  - apply (list_elem_of_lookup_2 _ 0%nat). vm_compute. reflexivity.
  - apply (list_elem_of_lookup_2 _ 50%nat). vm_compute. reflexivity.
  - vm_compute. reflexivity.
Defined.
